(** * PLAF203 pet feeder protocol engine: a shallow embedding of [plaf203.py]

    The development follows the layout of the source file: the message codec
    (enumerations, time conversion, the [*In] decoders and the [*Out]
    encoders), the [Client] that routes inbound envelopes, the [Watchdog],
    the [FoodPlan] set and the [Backend] session state machine.

    Conventions of the embedding.
    - A parsed JSON payload (the result of [json.loads]) is a finite map from
      keys to [json] values; Python's [dict | dict] is map insertion.
    - A Python exception is the [Raise] outcome of [result]; effectful code
      lives in the monad [M], which threads the [World] (the [Backend]
      object, the wall clock, the message id generator, the timer service)
      and collects the effects a handler performs in a trace of [event]s.
    - [ad.log] and [ad.error] only write to the AppDaemon log and are not part
      of the trace; evaluating their arguments is modelled where it raises.
    - Listener callbacks registered by the application layer are external
      code: a call is recorded in the trace and is assumed to return. *)

From Stdlib Require Import ZArith QArith Qround Lia Ascii String.
From stdpp Require Import base decidable option list strings gmap fin_maps pretty.

Local Open Scope string_scope.
Local Open Scope list_scope.
Local Open Scope Z_scope.

(** ** Python runtime values *)

(** The exceptions the modelled code can raise. *)
Inductive pyexn : Type :=
  | OverflowError
  | OSError
  | NameError (name : string)
  | AttributeError (attr : string)
  | KeyError (key : string)
  | ValueError
  | TypeError.

Inductive result (A : Type) : Type :=
  | Ok (a : A)
  | Raise (e : pyexn).
Arguments Ok {A} a.
Arguments Raise {A} e.

Definition result_bind {A B : Type} (r : result A) (f : A -> result B) : result B :=
  match r with
  | Ok a => f a
  | Raise e => Raise e
  end.

#[export] Instance result_ret : MRet result := fun A a => Ok a.
#[export] Instance result_mbind : MBind result := fun A B f r => result_bind r f.

(** Values produced by [json.loads] and accepted by [json.dumps].  A float is
    represented by the rational it denotes; rounding is not modelled. *)
#[warnings="-register-all"] Inductive json : Type :=
  | JNull
  | JBool (b : bool)
  | JInt (z : Z)
  | JFloat (q : Q)
  | JStr (s : string)
  | JList (l : list json)
  | JObj (l : list (string * json)).

Abbreviation dict := (gmap string json).

(** [payload[key]] *)
Definition getitem (payload : dict) (key : string) : result json :=
  match payload !! key with
  | Some v => Ok v
  | None => Raise (KeyError key)
  end.

(** [key in payload] *)
Definition contains (payload : dict) (key : string) : bool :=
  bool_decide (is_Some (payload !! key)).

(** Decimal literals accepted by [int(str)], for strings of ASCII
    characters: surrounding whitespace is dropped; what is left is an
    optional sign followed by digits, where two digits may be separated by a
    single underscore. *)
Definition digit_of_ascii (c : ascii) : option Z :=
  let n := Z.of_nat (nat_of_ascii c) in
  if bool_decide (48 <= n <= 57) then Some (n - 48) else None.

(** [c.isspace()]: the characters 9 to 13, 28 to 31 and the space. *)
Definition is_space (c : ascii) : bool :=
  let n := Z.of_nat (nat_of_ascii c) in
  bool_decide (9 <= n <= 13 \/ 28 <= n <= 32).

Fixpoint lstrip (cs : list ascii) : list ascii :=
  match cs with
  | c :: cs' => if is_space c then lstrip cs' else cs
  | [] => []
  end.

(** [s.strip()] *)
Definition strip (s : string) : string :=
  string_of_list_ascii (rev (lstrip (rev (lstrip (list_ascii_of_string s))))).

(** The digits that follow a digit: the end, a digit, or an underscore and
    a digit. *)
Fixpoint digits_value (acc : Z) (s : string) : option Z :=
  match s with
  | EmptyString => Some acc
  | String c s' =>
      match digit_of_ascii c with
      | Some d => digits_value (10 * acc + d) s'
      | None =>
          if bool_decide (c = "_"%char)
          then
            match s' with
            | String c' s'' =>
                match digit_of_ascii c' with
                | Some d => digits_value (10 * acc + d) s''
                | None => None
                end
            | EmptyString => None
            end
          else None
      end
  end.

(** An unsigned literal starts with a digit. *)
Definition unsigned_of_str (s : string) : option Z :=
  match s with
  | String c s' =>
      match digit_of_ascii c with
      | Some d => digits_value d s'
      | None => None
      end
  | EmptyString => None
  end.

Definition int_of_str (s : string) : option Z :=
  match strip s with
  | String "-" s' => Z.opp <$> unsigned_of_str s'
  | String "+" s' => unsigned_of_str s'
  | s' => unsigned_of_str s'
  end.

(** [int] of a float truncates towards zero. *)
Definition Qtruncate (q : Q) : Z := Z.quot (Qnum q) (Zpos (Qden q)).

(** [int(x)] for a value taken from a payload. *)
Definition py_int (v : json) : result Z :=
  match v with
  | JInt z => Ok z
  | JBool b => Ok (if b then 1 else 0)
  | JFloat q => Ok (Qtruncate q)
  | JStr s => match int_of_str s with Some z => Ok z | None => Raise ValueError end
  | JNull | JList _ | JObj _ => Raise TypeError
  end.

(** [x == True]: besides [True] itself, the integer 1 and the float 1.0
    compare equal. *)
Definition py_eq_True (v : json) : bool :=
  match v with
  | JBool b => b
  | JInt z => bool_decide (z = 1)
  | JFloat q => bool_decide (Qnum q = Zpos (Qden q))
  | JNull | JStr _ | JList _ | JObj _ => false
  end.

(** [x == s] for a string [s] *)
Definition py_eq_str (v : json) (s : string) : bool :=
  match v with
  | JStr s' => bool_decide (s' = s)
  | _ => false
  end.

(** [x == None] *)
Definition py_is_None (v : json) : bool :=
  match v with
  | JNull => true
  | _ => false
  end.

(** Truthiness, as used by [not x]. *)
Definition py_truthy (v : json) : bool :=
  match v with
  | JNull => false
  | JBool b => b
  | JInt z => negb (bool_decide (z = 0))
  | JFloat q => negb (bool_decide (Qnum q = 0))
  | JStr s => negb (bool_decide (s = ""))
  | JList l => match l with [] => false | _ => true end
  | JObj l => match l with [] => false | _ => true end
  end.

(** The value under [key] of a decoded JSON object, [None] when there is
    none. *)
Definition json_get (key : string) (v : json) : option json :=
  match v with
  | JObj fields => (fun ikv => ikv.2.2) <$> list_find (fun kv => kv.1 = key) fields
  | _ => None
  end.

(** [v[key]] for a string [key]: a [dict] raises [KeyError] when the key is
    missing; a list or a string takes no string index and the other values
    cannot be subscripted. *)
Definition json_getitem (v : json) (key : string) : result json :=
  match v with
  | JObj _ =>
      match json_get key v with
      | Some x => Ok x
      | None => Raise (KeyError key)
      end
  | _ => Raise TypeError
  end.

(** [for item in v]: the items of a list, the characters of a string, the
    keys of a [dict]; the other values are not iterable. *)
Definition py_iter (v : json) : result (list json) :=
  match v with
  | JList items => Ok items
  | JStr s => Ok ((fun c => JStr (String c EmptyString)) <$> list_ascii_of_string s)
  | JObj fields => Ok ((fun kv => JStr kv.1) <$> fields)
  | JNull | JBool _ | JInt _ | JFloat _ => Raise TypeError
  end.

(** ** Enumerations

    Every [enum.Enum] of the source is an inductive type in a module of the
    same name, with its [value], its [name] and the list of its [members].
    [Cls(v)] looks a member up by value and raises [ValueError] when there is
    none; [Cls[n]] looks it up by name and raises [KeyError]. *)

Definition enum_by_value {T : Type} (value : T -> Z) (members : list T) (z : Z) : result T :=
  match List.find (fun m => bool_decide (value m = z)) members with
  | Some m => Ok m
  | None => Raise ValueError
  end.

(** [Cls(v)] for a raw payload value: [True] and [False] hash and compare as
    1 and 0, a float as the integer it equals. *)
Definition enum_by_json_value {T : Type} (value : T -> Z) (members : list T) (v : json) : result T :=
  match v with
  | JInt z => enum_by_value value members z
  | JBool b => enum_by_value value members (if b then 1 else 0)
  | JFloat q =>
      if bool_decide (Z.rem (Qnum q) (Zpos (Qden q)) = 0)
      then enum_by_value value members (Qtruncate q)
      else Raise ValueError
  | JNull | JStr _ | JList _ | JObj _ => Raise ValueError
  end.

Definition enum_by_name {T : Type} (name : T -> string) (members : list T) (v : json) : result T :=
  match v with
  | JStr s =>
      match List.find (fun m => bool_decide (name m = s)) members with
      | Some m => Ok m
      | None => Raise (KeyError s)
      end
  | JList _ | JObj _ => Raise TypeError
  | JNull => Raise (KeyError "None")
  | JBool b => Raise (KeyError (if b then "True" else "False"))
  | JInt z => Raise (KeyError (pretty z))
  | JFloat _ => Raise (KeyError "float")
  end.

Module Code.
Inductive t : Type := OK | ERROR_1 | ERROR_2 | ERROR_3 | ERROR_4 | ERROR_DEVICE_NOT_BOUND.
#[global] Instance eq_dec : EqDecision t := ltac:(solve_decision).
Definition value (m : t) : Z :=
  match m with OK => 0 | ERROR_1 => 1 | ERROR_2 => 2 | ERROR_3 => 3 | ERROR_4 => 4 | ERROR_DEVICE_NOT_BOUND => 2030 end.
Definition name (m : t) : string :=
  match m with OK => "OK" | ERROR_1 => "ERROR_1" | ERROR_2 => "ERROR_2" | ERROR_3 => "ERROR_3" | ERROR_4 => "ERROR_4" | ERROR_DEVICE_NOT_BOUND => "ERROR_DEVICE_NOT_BOUND" end.
Definition members : list t := [OK; ERROR_1; ERROR_2; ERROR_3; ERROR_4; ERROR_DEVICE_NOT_BOUND].
Definition of_value (z : Z) : result t := enum_by_value value members z.
Definition of_json_value (v : json) : result t := enum_by_json_value value members v.
Definition of_name (v : json) : result t := enum_by_name name members v.

Definition is_ok (c : t) : bool := bool_decide (c = OK).
Definition is_error (c : t) : bool := negb (bool_decide (c = OK)).
End Code.

Module AgingType.
Inductive t : Type := INVALID | NON_SCHEDULED_ENABLED | SCHEDULED_ENABLED.
#[global] Instance eq_dec : EqDecision t := ltac:(solve_decision).
Definition value (m : t) : Z :=
  match m with INVALID => 0 | NON_SCHEDULED_ENABLED => 1 | SCHEDULED_ENABLED => 2 end.
Definition name (m : t) : string :=
  match m with INVALID => "INVALID" | NON_SCHEDULED_ENABLED => "NON_SCHEDULED_ENABLED" | SCHEDULED_ENABLED => "SCHEDULED_ENABLED" end.
Definition members : list t := [INVALID; NON_SCHEDULED_ENABLED; SCHEDULED_ENABLED].
Definition of_value (z : Z) : result t := enum_by_value value members z.
Definition of_json_value (v : json) : result t := enum_by_json_value value members v.
Definition of_name (v : json) : result t := enum_by_name name members v.
End AgingType.

Module NightVision.
Inductive t : Type := AUTOMATIC | OPEN | CLOSE.
#[global] Instance eq_dec : EqDecision t := ltac:(solve_decision).
Definition value (m : t) : Z :=
  match m with AUTOMATIC => 0 | OPEN => 1 | CLOSE => 2 end.
Definition name (m : t) : string :=
  match m with AUTOMATIC => "AUTOMATIC" | OPEN => "OPEN" | CLOSE => "CLOSE" end.
Definition members : list t := [AUTOMATIC; OPEN; CLOSE].
Definition of_value (z : Z) : result t := enum_by_value value members z.
Definition of_json_value (v : json) : result t := enum_by_json_value value members v.
Definition of_name (v : json) : result t := enum_by_name name members v.
End NightVision.

Module Resolution.
Inductive t : Type := P720 | P1080.
#[global] Instance eq_dec : EqDecision t := ltac:(solve_decision).
Definition value (m : t) : Z :=
  match m with P720 => 0 | P1080 => 1 end.
Definition name (m : t) : string :=
  match m with P720 => "P720" | P1080 => "P1080" end.
Definition members : list t := [P720; P1080].
Definition of_value (z : Z) : result t := enum_by_value value members z.
Definition of_json_value (v : json) : result t := enum_by_json_value value members v.
Definition of_name (v : json) : result t := enum_by_name name members v.
End Resolution.

Module VideoRecordMode.
Inductive t : Type := CONTINUOUS | MOTION_DETECTION.
#[global] Instance eq_dec : EqDecision t := ltac:(solve_decision).
Definition value (m : t) : Z :=
  match m with CONTINUOUS => 0 | MOTION_DETECTION => 1 end.
Definition name (m : t) : string :=
  match m with CONTINUOUS => "CONTINUOUS" | MOTION_DETECTION => "MOTION_DETECTION" end.
Definition members : list t := [CONTINUOUS; MOTION_DETECTION].
Definition of_value (z : Z) : result t := enum_by_value value members z.
Definition of_json_value (v : json) : result t := enum_by_json_value value members v.
Definition of_name (v : json) : result t := enum_by_name name members v.
End VideoRecordMode.

Module MotionDetectionSensitivity.
Inductive t : Type := LOW | MEDIUM | HIGH.
#[global] Instance eq_dec : EqDecision t := ltac:(solve_decision).
Definition value (m : t) : Z :=
  match m with LOW => 0 | MEDIUM => 1 | HIGH => 2 end.
Definition name (m : t) : string :=
  match m with LOW => "LOW" | MEDIUM => "MEDIUM" | HIGH => "HIGH" end.
Definition members : list t := [LOW; MEDIUM; HIGH].
Definition of_value (z : Z) : result t := enum_by_value value members z.
Definition of_json_value (v : json) : result t := enum_by_json_value value members v.
Definition of_name (v : json) : result t := enum_by_name name members v.
End MotionDetectionSensitivity.

Module MotionDetectionRange.
Inductive t : Type := SMALL | MEDIUM | LARGE.
#[global] Instance eq_dec : EqDecision t := ltac:(solve_decision).
Definition value (m : t) : Z :=
  match m with SMALL => 0 | MEDIUM => 1 | LARGE => 2 end.
Definition name (m : t) : string :=
  match m with SMALL => "SMALL" | MEDIUM => "MEDIUM" | LARGE => "LARGE" end.
Definition members : list t := [SMALL; MEDIUM; LARGE].
Definition of_value (z : Z) : result t := enum_by_value value members z.
Definition of_json_value (v : json) : result t := enum_by_json_value value members v.
Definition of_name (v : json) : result t := enum_by_name name members v.
End MotionDetectionRange.

Module SoundDetectionSensitivity.
Inductive t : Type := LOW | MEDIUM | HIGH.
#[global] Instance eq_dec : EqDecision t := ltac:(solve_decision).
Definition value (m : t) : Z :=
  match m with LOW => 0 | MEDIUM => 1 | HIGH => 2 end.
Definition name (m : t) : string :=
  match m with LOW => "LOW" | MEDIUM => "MEDIUM" | HIGH => "HIGH" end.
Definition members : list t := [LOW; MEDIUM; HIGH].
Definition of_value (z : Z) : result t := enum_by_value value members z.
Definition of_json_value (v : json) : result t := enum_by_json_value value members v.
Definition of_name (v : json) : result t := enum_by_name name members v.
End SoundDetectionSensitivity.

Module PowerMode.
Inductive t : Type := USB | BATTERY.
#[global] Instance eq_dec : EqDecision t := ltac:(solve_decision).
Definition value (m : t) : Z :=
  match m with USB => 1 | BATTERY => 2 end.
Definition name (m : t) : string :=
  match m with USB => "USB" | BATTERY => "BATTERY" end.
Definition members : list t := [USB; BATTERY].
Definition of_value (z : Z) : result t := enum_by_value value members z.
Definition of_json_value (v : json) : result t := enum_by_json_value value members v.
Definition of_name (v : json) : result t := enum_by_name name members v.
End PowerMode.

Module PowerType.
Inductive t : Type := INVALID | USB_ONLY | BATTERY_ONLY | USB_AND_BATTERY.
#[global] Instance eq_dec : EqDecision t := ltac:(solve_decision).
Definition value (m : t) : Z :=
  match m with INVALID => 0 | USB_ONLY => 1 | BATTERY_ONLY => 2 | USB_AND_BATTERY => 3 end.
Definition name (m : t) : string :=
  match m with INVALID => "INVALID" | USB_ONLY => "USB_ONLY" | BATTERY_ONLY => "BATTERY_ONLY" | USB_AND_BATTERY => "USB_AND_BATTERY" end.
Definition members : list t := [INVALID; USB_ONLY; BATTERY_ONLY; USB_AND_BATTERY].
Definition of_value (z : Z) : result t := enum_by_value value members z.
Definition of_json_value (v : json) : result t := enum_by_json_value value members v.
Definition of_name (v : json) : result t := enum_by_name name members v.
End PowerType.

Module SdCardState.
Inductive t : Type := NOT_AVAILABLE | AVAILABLE | INITIALIZING.
#[global] Instance eq_dec : EqDecision t := ltac:(solve_decision).
Definition value (m : t) : Z :=
  match m with NOT_AVAILABLE => 0 | AVAILABLE => 1 | INITIALIZING => 2 end.
Definition name (m : t) : string :=
  match m with NOT_AVAILABLE => "NOT_AVAILABLE" | AVAILABLE => "AVAILABLE" | INITIALIZING => "INITIALIZING" end.
Definition members : list t := [NOT_AVAILABLE; AVAILABLE; INITIALIZING].
Definition of_value (z : Z) : result t := enum_by_value value members z.
Definition of_json_value (v : json) : result t := enum_by_json_value value members v.
Definition of_name (v : json) : result t := enum_by_name name members v.
End SdCardState.

Module SdCardFileSystem.
Inductive t : Type := INVALID | FAT32 | FAT | EXFAT | NTFS | UNKNOWN.
#[global] Instance eq_dec : EqDecision t := ltac:(solve_decision).
Definition value (m : t) : Z :=
  match m with INVALID => 0 | FAT32 => 1 | FAT => 2 | EXFAT => 3 | NTFS => 4 | UNKNOWN => 5 end.
Definition name (m : t) : string :=
  match m with INVALID => "INVALID" | FAT32 => "FAT32" | FAT => "FAT" | EXFAT => "EXFAT" | NTFS => "NTFS" | UNKNOWN => "UNKNOWN" end.
Definition members : list t := [INVALID; FAT32; FAT; EXFAT; NTFS; UNKNOWN].
Definition of_value (z : Z) : result t := enum_by_value value members z.
Definition of_json_value (v : json) : result t := enum_by_json_value value members v.
Definition of_name (v : json) : result t := enum_by_name name members v.

Definition from_mqtt_payload_value (v : json) : t :=
  match v with
  | JStr s =>
      if bool_decide (s = "FAT32") then FAT32
      else if bool_decide (s = "FAT") then FAT
      else if bool_decide (s = "EXFAT") then EXFAT
      else if bool_decide (s = "NTFS") then NTFS
      else if bool_decide (s = "unknown type") then UNKNOWN
      else INVALID
  | _ => INVALID
  end.
End SdCardFileSystem.

Module WifiType.
Inductive t : Type := TYPE_0 | TYPE_1 | TYPE_2.
#[global] Instance eq_dec : EqDecision t := ltac:(solve_decision).
Definition value (m : t) : Z :=
  match m with TYPE_0 => 0 | TYPE_1 => 1 | TYPE_2 => 2 end.
Definition name (m : t) : string :=
  match m with TYPE_0 => "TYPE_0" | TYPE_1 => "TYPE_1" | TYPE_2 => "TYPE_2" end.
Definition members : list t := [TYPE_0; TYPE_1; TYPE_2].
Definition of_value (z : Z) : result t := enum_by_value value members z.
Definition of_json_value (v : json) : result t := enum_by_json_value value members v.
Definition of_name (v : json) : result t := enum_by_name name members v.
End WifiType.

Module ExecStep.
Inductive t : Type := INVALID | GRAIN_START | GRAIN_END | GRAIN_BLOCKING.
#[global] Instance eq_dec : EqDecision t := ltac:(solve_decision).
Definition value (m : t) : Z :=
  match m with INVALID => 0 | GRAIN_START => 1 | GRAIN_END => 2 | GRAIN_BLOCKING => 3 end.
Definition name (m : t) : string :=
  match m with INVALID => "INVALID" | GRAIN_START => "GRAIN_START" | GRAIN_END => "GRAIN_END" | GRAIN_BLOCKING => "GRAIN_BLOCKING" end.
Definition members : list t := [INVALID; GRAIN_START; GRAIN_END; GRAIN_BLOCKING].
Definition of_value (z : Z) : result t := enum_by_value value members z.
Definition of_json_value (v : json) : result t := enum_by_json_value value members v.
Definition of_name (v : json) : result t := enum_by_name name members v.

Definition from_mqtt_payload_value (v : json) : t :=
  match v with
  | JStr s =>
      if bool_decide (s = "GRAIN_START") then GRAIN_START
      else if bool_decide (s = "GRAIN_END") then GRAIN_END
      else if bool_decide (s = "GRAIN_BLOCKING") then GRAIN_BLOCKING
      else INVALID
  | _ => INVALID
  end.
End ExecStep.

Module GrainOutputType.
Inductive t : Type := INVALID | FEED_PLAN | MANUAL_FEED | MANUAL_FEED_BUTTON.
#[global] Instance eq_dec : EqDecision t := ltac:(solve_decision).
Definition value (m : t) : Z :=
  match m with INVALID => 0 | FEED_PLAN => 1 | MANUAL_FEED => 2 | MANUAL_FEED_BUTTON => 3 end.
Definition name (m : t) : string :=
  match m with INVALID => "INVALID" | FEED_PLAN => "FEED_PLAN" | MANUAL_FEED => "MANUAL_FEED" | MANUAL_FEED_BUTTON => "MANUAL_FEED_BUTTON" end.
Definition members : list t := [INVALID; FEED_PLAN; MANUAL_FEED; MANUAL_FEED_BUTTON].
Definition of_value (z : Z) : result t := enum_by_value value members z.
Definition of_json_value (v : json) : result t := enum_by_json_value value members v.
Definition of_name (v : json) : result t := enum_by_name name members v.
End GrainOutputType.

Module Weekday.
Inductive t : Type := INVALID | MONDAY | TUESDAY | WEDNESDAY | THURSDAY | FRIDAY | SATURDAY | SUNDAY.
#[global] Instance eq_dec : EqDecision t := ltac:(solve_decision).
Definition value (m : t) : Z :=
  match m with INVALID => 0 | MONDAY => 1 | TUESDAY => 2 | WEDNESDAY => 3 | THURSDAY => 4 | FRIDAY => 5 | SATURDAY => 6 | SUNDAY => 7 end.
Definition name (m : t) : string :=
  match m with INVALID => "INVALID" | MONDAY => "MONDAY" | TUESDAY => "TUESDAY" | WEDNESDAY => "WEDNESDAY" | THURSDAY => "THURSDAY" | FRIDAY => "FRIDAY" | SATURDAY => "SATURDAY" | SUNDAY => "SUNDAY" end.
Definition members : list t := [INVALID; MONDAY; TUESDAY; WEDNESDAY; THURSDAY; FRIDAY; SATURDAY; SUNDAY].
Definition of_value (z : Z) : result t := enum_by_value value members z.
Definition of_json_value (v : json) : result t := enum_by_json_value value members v.
Definition of_name (v : json) : result t := enum_by_name name members v.
End Weekday.

Module FoodOutputProgress.
Inductive t : Type := IDLE | RUNNING | BLOCKED | ERROR.
#[global] Instance eq_dec : EqDecision t := ltac:(solve_decision).
Definition value (m : t) : Z :=
  match m with IDLE => 0 | RUNNING => 1 | BLOCKED => 2 | ERROR => 3 end.
Definition name (m : t) : string :=
  match m with IDLE => "IDLE" | RUNNING => "RUNNING" | BLOCKED => "BLOCKED" | ERROR => "ERROR" end.
Definition members : list t := [IDLE; RUNNING; BLOCKED; ERROR].
Definition of_value (z : Z) : result t := enum_by_value value members z.
Definition of_json_value (v : json) : result t := enum_by_json_value value members v.
Definition of_name (v : json) : result t := enum_by_name name members v.
End FoodOutputProgress.

(** ** Time

    An aware [datetime.datetime] is an instant (microseconds since the epoch)
    together with the UTC offset of its zone.  A [datetime.timedelta] is a
    number of microseconds. *)

Record datetime : Type := { instant_us : Z; utcoffset_s : Z }.

(** A [datetime.time] carrying a fixed-offset [tzinfo]. *)
Record datetime_time : Type := { hour : Z; minute : Z; tzinfo_s : Z }.

(** [datetime.time(hour = h, minute = m, tzinfo = tz)] *)
Definition datetime_time_new (h m tz : Z) : result datetime_time :=
  if bool_decide (0 <= h <= 23 /\ 0 <= m <= 59)
  then Ok {| hour := h; minute := m; tzinfo_s := tz |}
  else Raise ValueError.

(** [timedelta(seconds = s)] *)
Definition timedelta_seconds (s : Z) : Z := s * 1000000.

(** The services of the process environment the engine reads: the wall clock
    ([now_at k] is the instant returned by the [k]-th call of
    [datetime.now()]), the local time zone ([tz_at i] is its UTC offset in
    seconds at instant [i]), the random message ids ([msgid_at k] is the
    [k]-th generated id) and the AppDaemon timer handles.
    [fromtimestamp_at ms] is what the platform makes of
    [datetime.fromtimestamp(ms / 1000).astimezone()] where that depends on
    the rounding of the float and on the C library: an instant in
    microseconds or an exception. *)
Record Sys : Type := {
  now_at : nat -> Z;
  tz_at : Z -> Z;
  fromtimestamp_at : Z -> result Z;
  msgid_at : nat -> string;
  clock_reads : nat;
  ids_made : nat;
  timers_made : nat;
}.

Definition Sys_tick_clock (y : Sys) : Sys :=
  {| now_at := now_at y; tz_at := tz_at y; fromtimestamp_at := fromtimestamp_at y;
     msgid_at := msgid_at y;
     clock_reads := S (clock_reads y); ids_made := ids_made y; timers_made := timers_made y |}.

Definition Sys_tick_ids (y : Sys) : Sys :=
  {| now_at := now_at y; tz_at := tz_at y; fromtimestamp_at := fromtimestamp_at y;
     msgid_at := msgid_at y;
     clock_reads := clock_reads y; ids_made := S (ids_made y); timers_made := timers_made y |}.

Definition Sys_tick_timers (y : Sys) : Sys :=
  {| now_at := now_at y; tz_at := tz_at y; fromtimestamp_at := fromtimestamp_at y;
     msgid_at := msgid_at y;
     clock_reads := clock_reads y; ids_made := ids_made y; timers_made := S (timers_made y) |}.

(** ** Codec value classes *)

Module PercentageInt.
Record t : Type := mk { value : json }.

(** [__init__]: the comparisons with 0 and 100 raise [TypeError] for values
    that are not numbers. *)
Definition init (percentage_value : json) : result t :=
  match percentage_value with
  | JInt z => if bool_decide (z < 0 \/ z > 100) then Raise ValueError else Ok (mk (JInt z))
  | JBool b => Ok (mk (JBool b))
  | JFloat q =>
      if bool_decide (Qnum q < 0 \/ Qnum q > 100 * Zpos (Qden q))
      then Raise ValueError else Ok (mk (JFloat q))
  | JNull | JStr _ | JList _ | JObj _ => Raise TypeError
  end.

Definition value_get (self : t) : json := value self.
End PercentageInt.

(** ["{:02}".format(n)] *)
Definition format_02 (n : Z) : string :=
  if bool_decide (0 <= n < 10) then "0" +:+ pretty n else pretty n.

Module HourMinTimestamp.
Record t : Type := mk { time : datetime_time }.

(** [_time_to_utc_timezone]: the local time of day is combined with today's
    date and moved to UTC; with a fixed-offset zone the result does not
    depend on the date. *)
Definition _time_to_utc_timezone (self : t) : datetime_time :=
  let secs := (hour (time self) * 3600 + minute (time self) * 60 - tzinfo_s (time self)) `mod` 86400 in
  {| hour := secs `div` 3600; minute := (secs `mod` 3600) `div` 60; tzinfo_s := 0 |}.

Definition to_mqtt_payload_value (self : t) : string :=
  let utc_time := _time_to_utc_timezone self in
  format_02 (hour utc_time) +:+ ":" +:+ format_02 (minute utc_time).

(** [create_from_utc]: the UTC time of day is built first; the next
    statement calls [astimezone] on a [datetime.date], which has no such
    attribute. *)
Definition create_from_utc (hour minute : Z) : result t :=
  utc_time ← datetime_time_new hour minute 0;
  Raise (AttributeError "astimezone").

(** [from_mqtt_payload_value(value)]: the body reads [time_string], a name
    that is bound nowhere (the parameter is called [value]). *)
Definition from_mqtt_payload_value (value : json) : result t :=
  Raise (NameError "time_string").

Definition to_dict (self : t) : json :=
  JObj [("hour", JInt (hour (time self))); ("minute", JInt (minute (time self)))].
End HourMinTimestamp.

Module WeekdaySchedule.
(** [value] is the sequence in which the held collection is iterated.  The
    field is annotated [set[Weekday]]; [from_list], the constructor the
    application uses for stored and user supplied plans, stores the list it
    built, so that repeated entries are kept. *)
Record t : Type := mk { value : list Weekday.t }.

Fixpoint from_list_loop (data : list json) (weekdays : list Weekday.t) : result (list Weekday.t) :=
  match data with
  | [] => Ok weekdays
  | item :: data' =>
      d ← Weekday.of_name item;
      from_list_loop data' (weekdays ++ [d])
  end.

Definition from_list (data : list json) : result t :=
  weekdays ← from_list_loop data [];
  Ok (mk weekdays).

Definition to_list (self : t) : list string := Weekday.name <$> value self.

Definition to_mqtt_payload_value (self : t) : list Z :=
  let data := Weekday.value <$> value self in
  (* Pad the array with 0s up to the full length of 7 elements *)
  data ++ replicate (Z.to_nat (7 - Z.of_nat (length data))) 0.
End WeekdaySchedule.

Module MessageId.
Record t : Type := mk { data : json }.
End MessageId.

Module Timestamp.
Record t : Type := mk { value : datetime }.

Definition to_timestamp_epoch_ms (self : t) : Z :=
  Z.quot (instant_us (value self)) 1000000 * 1000.

Definition to_timezone_offset_hours (self : t) : Q :=
  Qmake (utcoffset_s (value self)) 3600.

(** [abs(self.value - other.value)], in microseconds. *)
Definition abs_delta (self other : t) : Z :=
  Z.abs (instant_us (value self) - instant_us (value other)).
End Timestamp.

(** ** Values handed to the application layer *)

(** A Python object as it is stored in a decoded message and passed to a
    listener: a plain value ([None], [bool], [int], [float], [str], ...) or an
    instance of one of the codec classes. *)
Inductive pyval : Type :=
  | VJson (v : json)
  | VPowerMode (m : PowerMode.t)
  | VPowerType (m : PowerType.t)
  | VPercentageInt (p : PercentageInt.t)
  | VAgingType (m : AgingType.t)
  | VHourMinTimestamp (t : HourMinTimestamp.t)
  | VNightVision (m : NightVision.t)
  | VResolution (m : Resolution.t)
  | VSdCardState (m : SdCardState.t)
  | VSdCardFileSystem (m : SdCardFileSystem.t)
  | VVideoRecordMode (m : VideoRecordMode.t)
  | VMotionDetectionRange (m : MotionDetectionRange.t)
  | VMotionDetectionSensitivity (m : MotionDetectionSensitivity.t)
  | VSoundDetectionSensitivity (m : SoundDetectionSensitivity.t)
  | VWifiType (m : WifiType.t)
  | VGrainOutputType (m : GrainOutputType.t)
  | VFoodOutputProgress (m : FoodOutputProgress.t).

Definition VNone : pyval := VJson JNull.
Definition VBool (b : bool) : pyval := VJson (JBool b).
Definition VInt (z : Z) : pyval := VJson (JInt z).
Definition VStr (s : string) : pyval := VJson (JStr s).

(** [x == None] *)
Definition pyval_is_None (v : pyval) : bool :=
  match v with
  | VJson j => py_is_None j
  | _ => false
  end.

(** Truthiness: instances of the codec classes are always true. *)
Definition pyval_truthy (v : pyval) : bool :=
  match v with
  | VJson j => py_truthy j
  | _ => true
  end.

(** [not x] *)
Definition py_not (v : pyval) : pyval := VBool (negb (pyval_truthy v)).

(** An argument of a call: positional or by keyword. *)
Inductive arg : Type :=
  | Pos (v : pyval)
  | Kw (name : string) (v : pyval).

(** The listener slots of [Backend] ([self.<slot>_callback]). *)
Inductive listener : Type :=
  | went_online | went_offline | ntp_sync_status | error
  | device_info | device_wifi_info | device_sd_card_info
  | settings_audio | settings_camera | settings_recording
  | settings_motion_detection | settings_sound_detection
  | settings_cloud_video_recording | settings_sound | settings_button_lights
  | settings_feeding_video | settings_buttons_auto_lock
  | state_power | state_food
  | food_output_log_start | food_output_log_end | food_output_progress.

#[global] Instance listener_eq_dec : EqDecision listener := ltac:(solve_decision).

(** ** Effects

    What a handler does to the outside, in the order in which it does it.
    [Publish], [Callback], [CancelTimer] and [RunIn] are calls into the
    collaborators ([mqtt.mqtt_publish], a registered listener,
    [ad.cancel_timer], [ad.run_in]).  The last two record steps internal to
    the engine, so that their position between the calls can be stated: the
    assignment [self.is_online = b] and a call of
    [_device_timestamp_sync_drift_check]. *)
Inductive event : Type :=
  | Publish (topic : string) (payload : dict)
  | Callback (l : listener) (args : list arg)
  | CancelTimer (handle : option nat)
  | RunIn (period_sec : Z) (handle : nat)
  | Assign_is_online (b : bool)
  | DriftCheck (timestamp_backend timestamp_device : Timestamp.t).

(** ** The monad of engine code

    A computation runs on the environment [Sys] and on the object it is a
    method of ([S]); it ends normally or raises, and in both cases leaves the
    environment, the object and the effects performed so far. *)
Record run (S A : Type) : Type := Run {
  outcome : result A;
  sys_of : Sys;
  self_of : S;
  events : list event;
}.
Arguments Run {S A} _ _ _ _.
Arguments outcome {S A} _.
Arguments sys_of {S A} _.
Arguments self_of {S A} _.
Arguments events {S A} _.

Definition M (S A : Type) : Type := Sys -> S -> run S A.

Definition M_ret {S A : Type} (a : A) : M S A := fun y s => Run (Ok a) y s [].

Definition M_bind {S A B : Type} (m : M S A) (f : A -> M S B) : M S B :=
  fun y s =>
    let x := m y s in
    match outcome x with
    | Ok a =>
        let x' := f a (sys_of x) (self_of x) in
        Run (outcome x') (sys_of x') (self_of x') (events x ++ events x')
    | Raise e => Run (Raise e) (sys_of x) (self_of x) (events x)
    end.

#[global] Instance M_mret {S : Type} : MRet (M S) := fun A a => M_ret a.

Declare Scope M_scope.
Delimit Scope M_scope with M.
Bind Scope M_scope with M.
Notation "x ← y ; z" := (M_bind y%M (fun x => z%M))
  (at level 20, y at level 100, z at level 200, only parsing) : M_scope.
Notation "x ;; z" := (M_bind x%M (fun _ => z%M))
  (at level 100, z at level 200, only parsing, right associativity) : M_scope.

Definition raise {S A : Type} (e : pyexn) : M S A := fun y s => Run (Raise e) y s [].

Definition lift_result {S A : Type} (r : result A) : M S A := fun y s => Run r y s [].

Definition get_self {S : Type} : M S S := fun y s => Run (Ok s) y s [].
Definition put_self {S : Type} (s' : S) : M S unit := fun y s => Run (Ok tt) y s' [].
Definition get_sys {S : Type} : M S Sys := fun y s => Run (Ok y) y s [].
Definition put_sys {S : Type} (y' : Sys) : M S unit := fun y s => Run (Ok tt) y' s [].
Definition emit {S : Type} (e : event) : M S unit := fun y s => Run (Ok tt) y s [e].

(** A method of a member object run from a method of its owner. *)
Definition zoom {S T A : Type} (get : S -> T) (set : T -> S -> S) (m : M T A) : M S A :=
  fun y s =>
    let x := m y (get s) in
    Run (outcome x) (sys_of x) (set (self_of x) s) (events x).

(** [if c: body] *)
Definition when {S : Type} (c : bool) (body : M S unit) : M S unit :=
  if c then body else mret tt.

(** [for x in xs: body(x)] *)
Fixpoint for_each {S A : Type} (xs : list A) (body : A -> M S unit) : M S unit :=
  match xs with
  | [] => mret tt
  | x :: xs' => body x;; for_each xs' body
  end.

(** [datetime.datetime.now().astimezone()] *)
Definition datetime_now_astimezone {S : Type} : M S datetime :=
  y ← get_sys;
  put_sys (Sys_tick_clock y);;
  let i := now_at y (clock_reads y) in
  mret {| instant_us := i; utcoffset_s := tz_at y i |}.

(** [Timestamp.now()] *)
Definition Timestamp_now {S : Type} : M S Timestamp.t :=
  d ← datetime_now_astimezone;
  mret (Timestamp.mk d).

(** [Timestamp.from_timestamp_epoch_ms]: the device time is read in the zone
    of the backend.  [timestamp_epoch_ms / 1000] is a float.  From the epoch
    up to 2 ^ 33 seconds (the year 2242) the float is less than half a
    microsecond off, so that [fromtimestamp] rounds it to the millisecond
    given.  Elsewhere the result is that of the platform: a rounded instant,
    or [OverflowError], [OSError] or [ValueError] towards the ends of the
    range of [datetime]. *)
Definition Timestamp_from_timestamp_epoch_ms {S : Type} (timestamp_epoch_ms : Z) : M S Timestamp.t :=
  y ← get_sys;
  if bool_decide (0 <= timestamp_epoch_ms < 8589934592000)
  then
    let i := timestamp_epoch_ms * 1000 in
    mret (Timestamp.mk {| instant_us := i; utcoffset_s := tz_at y i |})
  else
    i ← lift_result (fromtimestamp_at y timestamp_epoch_ms);
    mret (Timestamp.mk {| instant_us := i; utcoffset_s := tz_at y i |}).

(** [MessageId.generate()]: 32 hexadecimal digits of the SHA-256 of a fresh
    random UUID. *)
Definition MessageId_generate {S : Type} : M S MessageId.t :=
  y ← get_sys;
  put_sys (Sys_tick_ids y);;
  mret (MessageId.mk (JStr (msgid_at y (ids_made y)))).

(** [HourMinTimestamp.create_from_local_timezone] *)
Definition HourMinTimestamp_create_from_local_timezone {S : Type} (hour minute : Z) : M S HourMinTimestamp.t :=
  now ← datetime_now_astimezone;
  t ← lift_result (datetime_time_new hour minute (utcoffset_s now));
  mret (HourMinTimestamp.mk t).

(** [HourMinTimestamp.from_dict] *)
Definition HourMinTimestamp_from_dict {S : Type} (data : json) : M S HourMinTimestamp.t :=
  h ← lift_result (json_getitem data "hour");
  hour ← lift_result (py_int h);
  m ← lift_result (json_getitem data "minute");
  minute ← lift_result (py_int m);
  HourMinTimestamp_create_from_local_timezone hour minute.

(** ** Commands *)

Module Commands.
Definition ATTR_GET_SERVICE : string := "ATTR_GET_SERVICE".
Definition ATTR_PUSH_EVENT : string := "ATTR_PUSH_EVENT".
Definition ATTR_SET_SERVICE : string := "ATTR_SET_SERVICE".
Definition BINDING : string := "BINDING".
Definition DETECTION_EVENT : string := "DETECTION_EVENT".
Definition DEVICE_FEEDING_PLAN_SERVICE : string := "DEVICE_FEEDING_PLAN_SERVICE".
Definition DEVICE_INFO_SERVICE : string := "DEVICE_INFO_SERVICE".
Definition DEVICE_PROPERTIES_SERVICE : string := "DEVICE_PROPERTIES_SERVICE".
Definition DEVICE_REBOOT : string := "DEVICE_REBOOT".
Definition DEVICE_START_EVENT : string := "DEVICE_START_EVENT".
Definition ERROR_EVENT : string := "ERROR_EVENT".
Definition FEEDING_PLAN_SERVICE : string := "FEEDING_PLAN_SERVICE".
Definition GET_CONFIG : string := "GET_CONFIG".
Definition GET_FEEDING_PLAN_EVENT : string := "GET_FEEDING_PLAN_EVENT".
Definition GRAIN_OUTPUT_EVENT : string := "GRAIN_OUTPUT_EVENT".
Definition HEARTBEAT : string := "HEARTBEAT".
Definition INITIALIZE_SD_CARD_SERVICE : string := "INITIALIZE_SD_CARD_SERVICE".
Definition MANUAL_FEEDING_SERVICE : string := "MANUAL_FEEDING_SERVICE".
Definition NTP : string := "NTP".
Definition NTP_SYNC : string := "NTP_SYNC".
Definition OTA_INFORM : string := "OTA_INFORM".
Definition OTA_PROGRESS : string := "OTA_PROGRESS".
Definition OTA_UPGRADE : string := "OTA_UPGRADE".
Definition RESET : string := "RESET".
Definition RESTORE : string := "RESTORE".
Definition SERVER_CONFIG_PUSH : string := "SERVER_CONFIG_PUSH".
Definition TUTK_CONTRACT_SERVICE : string := "TUTK_CONTRACT_SERVICE".
Definition UNBIND : string := "UNBIND".
Definition WIFI_CHANGE_SERVICE : string := "WIFI_CHANGE_SERVICE".
Definition WIFI_RECONNECT_SERVICE : string := "WIFI_RECONNECT_SERVICE".
End Commands.

Module MessageTopics.
Definition DEVICE_PRODUCT_ID : string := "PLAF203".

Record t : Type := mk { device_serial_number : string }.

Definition _topic_name_sub_get (self : t) (endpoint : string) : string :=
  "dl/" +:+ DEVICE_PRODUCT_ID +:+ "/" +:+ device_serial_number self +:+ "/device/" +:+ endpoint +:+ "/sub".

Definition _topic_name_post_get (self : t) (endpoint : string) : string :=
  "dl/" +:+ DEVICE_PRODUCT_ID +:+ "/" +:+ device_serial_number self +:+ "/device/" +:+ endpoint +:+ "/post".

Definition heart_post_get (self : t) : string := _topic_name_post_get self "heart".
Definition ntp_post_get (self : t) : string := _topic_name_post_get self "ntp".
Definition ntp_sub_get (self : t) : string := _topic_name_sub_get self "ntp".
Definition config_post_get (self : t) : string := _topic_name_post_get self "config".
Definition config_sub_get (self : t) : string := _topic_name_sub_get self "config".
Definition event_post_get (self : t) : string := _topic_name_post_get self "event".
Definition event_sub_get (self : t) : string := _topic_name_sub_get self "event".
Definition service_post_get (self : t) : string := _topic_name_post_get self "service".
Definition service_sub_get (self : t) : string := _topic_name_sub_get self "service".
Definition system_post_get (self : t) : string := _topic_name_post_get self "system".
Definition system_sub_get (self : t) : string := _topic_name_sub_get self "system".
End MessageTopics.

(** ** Inbound messages *)

(** [MessageId(payload['msgId'])] *)
Definition decode_message_id {S : Type} (payload : dict) : M S MessageId.t :=
  v ← lift_result (getitem payload "msgId");
  mret (MessageId.mk v).

(** [Timestamp.from_timestamp_epoch_ms(int(payload[key]))] *)
Definition decode_timestamp {S : Type} (payload : dict) (key : string) : M S Timestamp.t :=
  v ← lift_result (getitem payload key);
  z ← lift_result (py_int v);
  Timestamp_from_timestamp_epoch_ms z.

(** [int(payload[key])] *)
Definition decode_int {S : Type} (payload : dict) (key : string) : M S Z :=
  v ← lift_result (getitem payload key);
  lift_result (py_int v).

(** [Code(int(payload['code']))] *)
Definition decode_code {S : Type} (payload : dict) : M S Code.t :=
  z ← decode_int payload "code";
  lift_result (Code.of_value z).

(** [payload[key]] *)
Definition decode_raw {S : Type} (payload : dict) (key : string) : M S json :=
  lift_result (getitem payload key).

Module HeartbeatIn.
Record t : Type := mk {
  timestamp : Timestamp.t;
  count : Z;
  rssi : Z;
  wifi_type : WifiType.t;
}.

Definition from_mqtt_payload {S : Type} (payload : dict) : M S t :=
  timestamp ← decode_timestamp payload "ts";
  count ← decode_int payload "count";
  rssi ← decode_int payload "rssi";
  w ← decode_int payload "wifiType";
  wifi_type ← lift_result (WifiType.of_value w);
  mret (mk timestamp count rssi wifi_type).
End HeartbeatIn.

Module NtpIn.
Record t : Type := mk { timestamp : Timestamp.t }.

Definition from_mqtt_payload {S : Type} (payload : dict) : M S t :=
  timestamp ← decode_timestamp payload "ts";
  mret (mk timestamp).
End NtpIn.

Module NtpSyncIn.
Record t : Type := mk { message_id : MessageId.t; timestamp : Timestamp.t; code : Code.t }.

Definition from_mqtt_payload {S : Type} (payload : dict) : M S t :=
  message_id ← decode_message_id payload;
  timestamp ← decode_timestamp payload "ts";
  code ← decode_code payload;
  mret (mk message_id timestamp code).
End NtpSyncIn.

Module DeviceStartEventIn.
Record t : Type := mk {
  message_id : MessageId.t;
  timestamp : Timestamp.t;
  success : json;
  pid : json;
  uuid : json;
  mac : json;
  wpa3 : Z;
  hardware_version : json;
  software_version : json;
}.

Definition from_mqtt_payload {S : Type} (payload : dict) : M S t :=
  message_id ← decode_message_id payload;
  timestamp ← decode_timestamp payload "ts";
  success ← decode_raw payload "success";
  pid ← decode_raw payload "pid";
  uuid ← decode_raw payload "uuid";
  mac ← decode_raw payload "mac";
  wpa3 ← decode_int payload "wpa3";
  hardware_version ← decode_raw payload "hardwareVersion";
  software_version ← decode_raw payload "softwareVersion";
  mret (mk message_id timestamp success pid uuid mac wpa3 hardware_version software_version).
End DeviceStartEventIn.

Module GrainOutputEventIn.
Record t : Type := mk {
  message_id : MessageId.t;
  timestamp : Timestamp.t;
  finished : json;
  type_ : GrainOutputType.t;
  actual_grain_num : Z;
  expected_grain_num : Z;
  exec_time : Timestamp.t;
  exec_step : ExecStep.t;
  plan_id : json;
  retried : json;
}.

Definition from_mqtt_payload {S : Type} (payload : dict) : M S t :=
  message_id ← decode_message_id payload;
  timestamp ← decode_timestamp payload "ts";
  finished ← decode_raw payload "finished";
  ty ← decode_int payload "type";
  type_ ← lift_result (GrainOutputType.of_value ty);
  actual_grain_num ← decode_int payload "actualGrainNum";
  expected_grain_num ← decode_int payload "expectGrainNum";
  exec_time ← decode_timestamp payload "execTime";
  es ← decode_raw payload "execStep";
  exec_step ← lift_result (ExecStep.of_name es);
  plan_id ←
    (if contains payload "planId"
     then z ← decode_int payload "planId"; mret (JInt z)
     else mret JNull);
  retried ←
    (if contains payload "retried" then decode_raw payload "retried" else mret JNull);
  mret (mk message_id timestamp finished type_ actual_grain_num expected_grain_num
           exec_time exec_step plan_id retried).
End GrainOutputEventIn.

Module GetFeedingPlanEventIn.
Record t : Type := mk { message_id : MessageId.t; timestamp : Timestamp.t }.

Definition from_mqtt_payload {S : Type} (payload : dict) : M S t :=
  message_id ← decode_message_id payload;
  timestamp ← decode_timestamp payload "ts";
  mret (mk message_id timestamp).
End GetFeedingPlanEventIn.

Module ErrorEventIn.
Record t : Type := mk {
  message_id : MessageId.t;
  timestamp : Timestamp.t;
  error_code : json;
  trigger_time : Timestamp.t;
}.

Definition from_mqtt_payload {S : Type} (payload : dict) : M S t :=
  message_id ← decode_message_id payload;
  timestamp ← decode_timestamp payload "ts";
  error_code ← decode_raw payload "errorCode";
  trigger_time ← decode_timestamp payload "triggerTime";
  mret (mk message_id timestamp error_code trigger_time).
End ErrorEventIn.

Module DetectionEventIn.
Record t : Type := mk { message_id : MessageId.t; timestamp : Timestamp.t; type_ : json }.

Definition from_mqtt_payload {S : Type} (payload : dict) : M S t :=
  message_id ← decode_message_id payload;
  timestamp ← decode_timestamp payload "ts";
  type_ ← decode_raw payload "type";
  mret (mk message_id timestamp type_).
End DetectionEventIn.

Module GetConfigIn.
Record t : Type := mk {
  message_id : MessageId.t;
  timestamp : Timestamp.t;
  product_id : json;
  mac_address : json;
  hardware_version : json;
  software_version : json;
}.

Definition from_mqtt_payload {S : Type} (payload : dict) : M S t :=
  message_id ← decode_message_id payload;
  timestamp ← decode_timestamp payload "ts";
  product_id ← decode_raw payload "pid";
  mac_address ← decode_raw payload "mac";
  hardware_version ← decode_raw payload "hardwareVersion";
  software_version ← decode_raw payload "softwareVersion";
  mret (mk message_id timestamp product_id mac_address hardware_version software_version).
End GetConfigIn.

(** The replies of the device to server requests that carry only a status:
    each is a class of its own in the source, with the same three fields. *)
Module AttrSetServiceIn.
Record t : Type := mk { message_id : MessageId.t; timestamp : Timestamp.t; code : Code.t }.

Definition from_mqtt_payload {S : Type} (payload : dict) : M S t :=
  message_id ← decode_message_id payload;
  timestamp ← decode_timestamp payload "ts";
  code ← decode_code payload;
  mret (mk message_id timestamp code).
End AttrSetServiceIn.

Module ManualFeedingServiceIn.
Record t : Type := mk { message_id : MessageId.t; timestamp : Timestamp.t; code : Code.t }.

Definition from_mqtt_payload {S : Type} (payload : dict) : M S t :=
  message_id ← decode_message_id payload;
  timestamp ← decode_timestamp payload "ts";
  code ← decode_code payload;
  mret (mk message_id timestamp code).
End ManualFeedingServiceIn.

Module RestoreIn.
Record t : Type := mk { message_id : MessageId.t; timestamp : Timestamp.t; code : Code.t }.

Definition from_mqtt_payload {S : Type} (payload : dict) : M S t :=
  message_id ← decode_message_id payload;
  timestamp ← decode_timestamp payload "ts";
  code ← decode_code payload;
  mret (mk message_id timestamp code).
End RestoreIn.

Module DeviceRebootIn.
Record t : Type := mk { message_id : MessageId.t; timestamp : Timestamp.t; code : Code.t }.

Definition from_mqtt_payload {S : Type} (payload : dict) : M S t :=
  message_id ← decode_message_id payload;
  timestamp ← decode_timestamp payload "ts";
  code ← decode_code payload;
  mret (mk message_id timestamp code).
End DeviceRebootIn.

Module InitializeSdCardServiceIn.
Record t : Type := mk { message_id : MessageId.t; timestamp : Timestamp.t; code : Code.t }.

Definition from_mqtt_payload {S : Type} (payload : dict) : M S t :=
  message_id ← decode_message_id payload;
  timestamp ← decode_timestamp payload "ts";
  code ← decode_code payload;
  mret (mk message_id timestamp code).
End InitializeSdCardServiceIn.

Module WifiReconnectServiceIn.
Record t : Type := mk { message_id : MessageId.t; timestamp : Timestamp.t; code : Code.t }.

Definition from_mqtt_payload {S : Type} (payload : dict) : M S t :=
  message_id ← decode_message_id payload;
  timestamp ← decode_timestamp payload "ts";
  code ← decode_code payload;
  mret (mk message_id timestamp code).
End WifiReconnectServiceIn.

(** *** Attribute bags

    [AttrPushEventIn.from_mqtt_payload] and [AttrGetServiceIn.from_mqtt_payload]
    build the keyword dictionary [data] entry by entry: one line of the source
    per attribute, naming the payload key, the field and the conversion.  The
    lines are kept as a table, in source order. *)

Inductive conv : Type :=
  | CRaw                  (* payload[key] *)
  | CInt                  (* int(payload[key]) *)
  | CBoolFromInt          (* False if int(payload[key]) == 0 else True *)
  | CPowerMode            (* PowerMode(int(payload[key])) *)
  | CPowerType            (* PowerType(int(payload[key])) *)
  | CPercentageInt        (* PercentageInt(int(payload[key])) *)
  | CPercentageRaw        (* PercentageInt(payload[key]) *)
  | CAgingTypeInt         (* AgingType(int(payload[key])) *)
  | CAgingTypeRaw         (* AgingType(payload[key]) *)
  | CSdCardStateInt       (* SdCardState(int(payload[key])) *)
  | CSdCardStateRaw       (* SdCardState(payload[key]) *)
  | CSdCardFileSystem     (* SdCardFileSystem.from_mqtt_payload_value(payload[key]) *)
  | CHourMin              (* HourMinTimestamp.from_mqtt_payload_value(payload[key]) *)
  | CNightVision          (* NightVision[payload[key]] *)
  | CResolution           (* Resolution[payload[key]] *)
  | CVideoRecordMode      (* VideoRecordMode[payload[key]] *)
  | CMotionDetectionRange
  | CMotionDetectionSensitivity
  | CSoundDetectionSensitivity.

Definition convert (c : conv) (v : json) : result pyval :=
  match c with
  | CRaw => Ok (VJson v)
  | CInt => z ← py_int v; Ok (VInt z)
  | CBoolFromInt => z ← py_int v; Ok (VBool (negb (bool_decide (z = 0))))
  | CPowerMode => z ← py_int v; m ← PowerMode.of_value z; Ok (VPowerMode m)
  | CPowerType => z ← py_int v; m ← PowerType.of_value z; Ok (VPowerType m)
  | CPercentageInt => z ← py_int v; p ← PercentageInt.init (JInt z); Ok (VPercentageInt p)
  | CPercentageRaw => p ← PercentageInt.init v; Ok (VPercentageInt p)
  | CAgingTypeInt => z ← py_int v; m ← AgingType.of_value z; Ok (VAgingType m)
  | CAgingTypeRaw => m ← AgingType.of_json_value v; Ok (VAgingType m)
  | CSdCardStateInt => z ← py_int v; m ← SdCardState.of_value z; Ok (VSdCardState m)
  | CSdCardStateRaw => m ← SdCardState.of_json_value v; Ok (VSdCardState m)
  | CSdCardFileSystem => Ok (VSdCardFileSystem (SdCardFileSystem.from_mqtt_payload_value v))
  | CHourMin => t ← HourMinTimestamp.from_mqtt_payload_value v; Ok (VHourMinTimestamp t)
  | CNightVision => m ← NightVision.of_name v; Ok (VNightVision m)
  | CResolution => m ← Resolution.of_name v; Ok (VResolution m)
  | CVideoRecordMode => m ← VideoRecordMode.of_name v; Ok (VVideoRecordMode m)
  | CMotionDetectionRange => m ← MotionDetectionRange.of_name v; Ok (VMotionDetectionRange m)
  | CMotionDetectionSensitivity =>
      m ← MotionDetectionSensitivity.of_name v; Ok (VMotionDetectionSensitivity m)
  | CSoundDetectionSensitivity =>
      m ← SoundDetectionSensitivity.of_name v; Ok (VSoundDetectionSensitivity m)
  end.

(** One line [(key, field, c)] of a decoder. *)
Definition attr_line : Type := (string * string * conv)%type.

(** [if key in payload: data = data | { field: c(payload[key]) }], line by line *)
Fixpoint decode_sparse (lines : list attr_line) (payload : dict) (data : gmap string pyval)
  : result (gmap string pyval) :=
  match lines with
  | [] => Ok data
  | (key, field, c) :: rest =>
      if contains payload key
      then
        v ← getitem payload key;
        x ← convert c v;
        decode_sparse rest payload (<[field := x]> data)
      else decode_sparse rest payload data
  end.

(** [field: c(payload[key])], line by line, for the entries of a dictionary
    display *)
Fixpoint decode_required (lines : list attr_line) (payload : dict) (data : gmap string pyval)
  : result (gmap string pyval) :=
  match lines with
  | [] => Ok data
  | (key, field, c) :: rest =>
      v ← getitem payload key;
      x ← convert c v;
      decode_required rest payload (<[field := x]> data)
  end.

Module AttrPushEventIn.
(** [attrs] holds the optional fields that were given to the constructor;
    every other field has its default, [None]. *)
Record t : Type := mk {
  message_id : MessageId.t;
  timestamp : Timestamp.t;
  attrs : gmap string pyval;
}.

(** [self.<field>] *)
Definition get (self : t) (field : string) : pyval := default VNone (attrs self !! field).

Definition lines : list attr_line := [
  ("powerMode", "power_mode", CPowerMode);
  ("powerType", "power_type", CPowerType);
  ("electricQuantity", "electric_quantity", CPercentageInt);
  ("surplusGrain", "surplus_grain", CRaw);
  ("motorState", "motor_state", CInt);
  ("grainOutletState", "grain_outlet_state", CRaw);
  ("enableAudio", "enable_audio", CRaw);
  ("audioUrl", "audio_url", CRaw);
  ("volume", "volume", CPercentageRaw);
  ("lightSwitch", "light_switch", CRaw);
  ("lightAgingType", "light_aging_type", CAgingTypeRaw);
  ("lightingStartTimeUtc", "lighting_start_time_utc", CHourMin);
  ("lightingEndTimeUtc", "lighting_end_time_utc", CHourMin);
  ("lightingTimes", "lighting_times", CInt);
  ("soundSwitch", "sound_switch", CRaw);
  ("enableSound", "enable_sound", CRaw);
  ("soundAgingType", "sound_aging_type", CAgingTypeRaw);
  ("soundStartTimeUtc", "sound_start_time_utc", CHourMin);
  ("soundEndTimeUtc", "sound_end_time_utc", CHourMin);
  ("soundTimes", "sound_times", CRaw);
  ("autoChangeMode", "auto_change_mode", CRaw);
  ("autoThreshold", "auto_threshold", CRaw);
  ("cameraSwitch", "camera_switch", CRaw);
  ("enableCamera", "enable_camera", CRaw);
  ("cameraAgingType", "camera_aging_type", CAgingTypeRaw);
  ("nightVision", "night_vision", CNightVision);
  ("resolution", "resolution", CResolution);
  ("cameraStartTimeUtc", "camera_start_time_utc", CHourMin);
  ("cameraEndTimeUtc", "camera_end_time_utc", CHourMin);
  ("videoRecordSwitch", "video_record_switch", CRaw);
  ("enableVideoRecord", "enable_video_record", CRaw);
  ("sdCardState", "sd_card_state", CSdCardStateRaw);
  ("sdCardFileSystem", "sd_card_file_system", CSdCardFileSystem);
  ("sdCardTotalCapacity", "sd_card_total_capacity", CRaw);
  ("sdCardUsedCapacity", "sd_card_used_capacity", CRaw);
  ("videoRecordMode", "video_record_mode", CVideoRecordMode);
  ("videoRecordAgingType", "video_record_aging_type", CAgingTypeRaw);
  ("videoRecordStartTimeUtc", "video_record_start_time_utc", CHourMin);
  ("videoRecordEndTimeUtc", "video_record_end_time_utc", CHourMin);
  ("feedingVideoSwitch", "feeding_video_switch", CRaw);
  ("enableVideoStartFeedingPlan", "enable_video_start_feeding_plan", CRaw);
  ("enableVideoAfterManualFeeding", "enable_video_after_manual_feeding", CRaw);
  ("beforeFeedingPlanTime", "before_feeding_plan_time", CRaw);
  ("automaticRecording", "automatic_recording", CRaw);
  ("afterManualFeedingTime", "after_manual_feeding_time", CRaw);
  ("videoWatermarkSwitch", "video_watermark_switch", CRaw);
  ("cloudVideoRecordSwitch", "cloud_video_record_switch", CRaw);
  ("motionDetectionSwitch", "motion_detection_switch", CRaw);
  ("enableMotionDetection", "enable_motion_detection", CRaw);
  ("motionDetectionAgingType", "motion_detection_aging_type", CAgingTypeRaw);
  ("motionDetectionRange", "motion_detection_range", CMotionDetectionRange);
  ("motionDetectionSensitivity", "motion_detection_sensitivity", CMotionDetectionSensitivity);
  ("motionDetectionStartTimeUtc", "motion_detection_start_time_utc", CHourMin);
  ("motionDetectionEndTimeUtc", "motion_detection_end_time_utc", CHourMin);
  ("soundDetectionSwitch", "sound_detection_switch", CRaw);
  ("enableSoundDetection", "enable_sound_detection", CRaw);
  ("soundDetectionAgingType", "sound_detection_aging_type", CAgingTypeRaw);
  ("soundDetectionSensitivity", "sound_detection_sensitivity", CSoundDetectionSensitivity);
  ("soundDetectionStartTimeUtc", "sound_detection_start_time_utc", CHourMin);
  ("soundDetectionEndTimeUtc", "sound_detection_end_time_utc", CHourMin)
].

Definition from_mqtt_payload {S : Type} (payload : dict) : M S t :=
  message_id ← decode_message_id payload;
  timestamp ← decode_timestamp payload "ts";
  data ← lift_result (decode_sparse lines payload ∅);
  mret (mk message_id timestamp data).
End AttrPushEventIn.

Module AttrGetServiceIn.
Record t : Type := mk {
  message_id : MessageId.t;
  timestamp : Timestamp.t;
  code : Code.t;
  attrs : gmap string pyval;
}.

(** [self.<field>] *)
Definition get (self : t) (field : string) : pyval := default VNone (attrs self !! field).

Definition required_lines : list attr_line := [
  ("powerMode", "power_mode", CPowerMode);
  ("powerType", "power_type", CPowerType);
  ("electricQuantity", "electric_quantity", CPercentageInt);
  ("surplusGrain", "surplus_grain", CRaw);
  ("motorState", "motor_state", CInt);
  ("grainOutletState", "grain_outlet_state", CRaw);
  ("wifiSsid", "wifi_ssid", CRaw);
  ("enableAudio", "enable_audio", CBoolFromInt);
  ("audioUrl", "audio_url", CRaw);
  ("volume", "volume", CPercentageInt);
  ("enableLight", "enable_light", CRaw);
  ("lightSwitch", "light_switch", CRaw);
  ("lightAgingType", "light_aging_type", CAgingTypeInt);
  ("enableSound", "enable_sound", CRaw);
  ("soundSwitch", "sound_switch", CRaw);
  ("soundAgingType", "sound_aging_type", CAgingTypeInt);
  ("autoChangeMode", "auto_change_mode", CRaw);
  ("autoThreshold", "auto_threshold", CInt);
  ("cameraSwitch", "camera_switch", CRaw);
  ("enableCamera", "enable_camera", CRaw);
  ("cameraAgingType", "camera_aging_type", CAgingTypeInt);
  ("resolution", "resolution", CResolution);
  ("nightVision", "night_vision", CNightVision);
  ("videoRecordSwitch", "video_record_switch", CRaw);
  ("enableVideoRecord", "enable_video_record", CRaw);
  ("sdCardState", "sd_card_state", CSdCardStateInt);
  ("videoRecordMode", "video_record_mode", CVideoRecordMode);
  ("videoRecordAgingType", "video_record_aging_type", CAgingTypeInt);
  ("feedingVideoSwitch", "feeding_video_switch", CRaw);
  ("enableVideoStartFeedingPlan", "enable_video_start_feeding_plan", CRaw);
  ("enableVideoAfterManualFeeding", "enable_video_after_manual_feeding", CRaw);
  ("beforeFeedingPlanTime", "before_feeding_plan_time", CInt);
  ("automaticRecording", "automatic_recording", CInt);
  ("afterManualFeedingTime", "after_manual_feeding_time", CInt);
  ("videoWatermarkSwitch", "video_watermark_switch", CRaw);
  ("cloudVideoRecordSwitch", "cloud_video_record_switch", CRaw);
  ("motionDetectionSwitch", "motion_detection_switch", CRaw);
  ("enableMotionDetection", "enable_motion_detection", CRaw);
  ("motionDetectionAgingType", "motion_detection_aging_type", CAgingTypeInt);
  ("motionDetectionSensitivity", "motion_detection_sensitivity", CMotionDetectionSensitivity);
  ("motionDetectionRange", "motion_detection_range", CMotionDetectionRange);
  ("soundDetectionSwitch", "sound_detection_switch", CRaw);
  ("enableSoundDetection", "enable_sound_detection", CRaw);
  ("soundDetectionAgingType", "sound_detection_aging_type", CAgingTypeInt);
  ("soundDetectionSensitivity", "sound_detection_sensitivity", CSoundDetectionSensitivity)
].

Definition optional_lines : list attr_line := [
  ("lightingStartTimeUtc", "lighting_start_time_utc", CHourMin);
  ("lightingEndTimeUtc", "lighting_end_time_utc", CHourMin);
  ("lightingTimes", "lighting_times", CInt);
  ("soundStartTimeUtc", "sound_start_time_utc", CHourMin);
  ("soundEndTimeUtc", "sound_end_time_utc", CHourMin);
  ("soundTimes", "sound_times", CInt);
  ("cameraStartTimeUtc", "camera_start_time_utc", CHourMin);
  ("cameraEndTimeUtc", "camera_end_time_utc", CHourMin);
  ("sdCardFileSystem", "sd_card_file_system", CSdCardFileSystem);
  ("sdCardTotalCapacity", "sd_card_total_capacity", CInt);
  ("sdCardUsedCapacity", "sd_card_used_capacity", CInt);
  ("videoRecordStartTimeUtc", "video_record_start_time_utc", CHourMin);
  ("videoRecordEndTimeUtc", "video_record_end_time_utc", CHourMin);
  ("motionDetectionStartTimeUtc", "motion_detection_start_time_utc", CHourMin);
  ("motionDetectionEndTimeUtc", "motion_detection_end_time_utc", CHourMin);
  ("soundDetectionStartTimeUtc", "sound_detection_start_time_utc", CHourMin);
  ("soundDetectionEndTimeUtc", "sound_detection_end_time_utc", CHourMin)
].

Definition from_mqtt_payload {S : Type} (payload : dict) : M S t :=
  message_id ← decode_message_id payload;
  timestamp ← decode_timestamp payload "ts";
  code ← decode_code payload;
  data ← lift_result (decode_required required_lines payload ∅);
  data ← lift_result (decode_sparse optional_lines payload data);
  mret (mk message_id timestamp code data).
End AttrGetServiceIn.

Module FeedingPlanIn.
Record t : Type := mk { plan_id : json; sync_time : json }.
End FeedingPlanIn.

Module FeedingPlanServiceIn.
Record t : Type := mk {
  message_id : MessageId.t;
  timestamp : Timestamp.t;
  code : Code.t;
  plans : list FeedingPlanIn.t;
  msg : json;
}.

(** [plan[key]] for an item of [payload['plans']] *)
Definition plan_getitem (plan : json) (key : string) : result json :=
  match plan with
  | JObj l =>
      match List.find (fun kv => bool_decide (kv.1 = key)) l with
      | Some kv => Ok kv.2
      | None => Raise (KeyError key)
      end
  | _ => Raise TypeError
  end.

Fixpoint plans_loop (plans : list json) (plans_data : list FeedingPlanIn.t) : result (list FeedingPlanIn.t) :=
  match plans with
  | [] => Ok plans_data
  | plan :: rest =>
      plan_id ← plan_getitem plan "planId";
      sync_time ← plan_getitem plan "syncTime";
      plans_loop rest (plans_data ++ [FeedingPlanIn.mk plan_id sync_time])
  end.

(** [for plan in plans]: what the loop iterates over, by the type of
    [payload['plans']]. *)
Definition iterate (plans : json) : result (list json) :=
  match plans with
  | JList l => Ok l
  | JObj l => Ok ((fun kv => JStr kv.1) <$> l)
  | JStr s => Ok ((fun c => JStr (String c EmptyString)) <$> list_ascii_of_string s)
  | JNull | JBool _ | JInt _ | JFloat _ => Raise TypeError
  end.

Definition from_pqtt_payload {S : Type} (payload : dict) : M S t :=
  plans ← decode_raw payload "plans";
  items ← lift_result (iterate plans);
  plans_data ← lift_result (plans_loop items []);
  let msg := default JNull (payload !! "msg") in
  message_id ← decode_message_id payload;
  timestamp ← decode_timestamp payload "ts";
  code ← decode_code payload;
  mret (mk message_id timestamp code plans_data msg).
End FeedingPlanServiceIn.

(** ** Outbound messages *)

Module NtpOut.
Record t : Type := mk { code : Code.t; timestamp : Timestamp.t; calibration_tag : bool }.

Definition to_mqtt_payload (self : t) : dict :=
  {[ "cmd" := JStr Commands.NTP;
     "ts" := JInt (Timestamp.to_timestamp_epoch_ms (timestamp self));
     "code" := JInt (Code.value (code self));
     "calibrationTag" := JBool (calibration_tag self);
     "timezone" := JFloat (Timestamp.to_timezone_offset_hours (timestamp self)) ]}.
End NtpOut.

Module NtpSyncOut.
Record t : Type := mk { message_id : MessageId.t; timestamp : Timestamp.t }.

Definition create {S : Type} : M S t :=
  message_id ← MessageId_generate;
  timestamp ← Timestamp_now;
  mret (mk message_id timestamp).

Definition to_mqtt_payload (self : t) : dict :=
  {[ "cmd" := JStr Commands.NTP_SYNC;
     "msgId" := MessageId.data (message_id self);
     "ts" := JInt (Timestamp.to_timestamp_epoch_ms (timestamp self));
     "timezone" := JFloat (Timestamp.to_timezone_offset_hours (timestamp self)) ]}.
End NtpSyncOut.

Module DeviceStartEventOut.
Record t : Type := mk { message_id : MessageId.t; timestamp : Timestamp.t; code : Code.t }.

Definition create {S : Type} (message_id : MessageId.t) (code : Code.t) : M S t :=
  timestamp ← Timestamp_now;
  mret (mk message_id timestamp code).

Definition to_mqtt_payload (self : t) : dict :=
  {[ "cmd" := JStr Commands.DEVICE_START_EVENT;
     "msgId" := MessageId.data (message_id self);
     "ts" := JInt (Timestamp.to_timestamp_epoch_ms (timestamp self));
     "code" := JInt (Code.value (code self)) ]}.
End DeviceStartEventOut.

Module GrainOutputEventOut.
Record t : Type := mk {
  message_id : MessageId.t;
  timestamp : Timestamp.t;
  code : Code.t;
  exec_step : ExecStep.t;
}.

Definition create {S : Type} (message_id : MessageId.t) (code : Code.t) (exec_step : ExecStep.t) : M S t :=
  timestamp ← Timestamp_now;
  mret (mk message_id timestamp code exec_step).

Definition to_mqtt_payload (self : t) : dict :=
  {[ "cmd" := JStr Commands.GRAIN_OUTPUT_EVENT;
     "msgId" := MessageId.data (message_id self);
     "ts" := JInt (Timestamp.to_timestamp_epoch_ms (timestamp self));
     "code" := JInt (Code.value (code self));
     "execStep" := JStr (ExecStep.name (exec_step self)) ]}.
End GrainOutputEventOut.

Module AttrPushEventOut.
Record t : Type := mk { message_id : MessageId.t; timestamp : Timestamp.t; code : Code.t }.

Definition create {S : Type} (message_id : MessageId.t) (code : Code.t) : M S t :=
  timestamp ← Timestamp_now;
  mret (mk message_id timestamp code).

Definition to_mqtt_payload (self : t) : dict :=
  {[ "cmd" := JStr Commands.ATTR_PUSH_EVENT;
     "msgId" := MessageId.data (message_id self);
     "ts" := JInt (Timestamp.to_timestamp_epoch_ms (timestamp self));
     "code" := JInt (Code.value (code self)) ]}.
End AttrPushEventOut.

Module FeedingPlanOut.
Record t : Type := mk {
  plan_id : Z;
  execution_time : HourMinTimestamp.t;
  repeat_day : WeekdaySchedule.t;
  enable_audio : bool;
  audio_times : Z;
  grain_num : Z;
  sync_time : Timestamp.t;
  skip_end_time : json;
}.
End FeedingPlanOut.

Module FeedingPlanServiceOut.
Record t : Type := mk {
  message_id : MessageId.t;
  timestamp : Timestamp.t;
  plans : list FeedingPlanOut.t;
}.

Definition create {S : Type} (plans : list FeedingPlanOut.t) : M S t :=
  message_id ← MessageId_generate;
  timestamp ← Timestamp_now;
  mret (mk message_id timestamp plans).

Definition plan_to_dict (plan : FeedingPlanOut.t) : json :=
  JObj [
    ("planId", JInt (FeedingPlanOut.plan_id plan));
    ("executionTime", JStr (HourMinTimestamp.to_mqtt_payload_value (FeedingPlanOut.execution_time plan)));
    ("repeatDay", JList (JInt <$> WeekdaySchedule.to_mqtt_payload_value (FeedingPlanOut.repeat_day plan)));
    ("enableAudio", JBool (FeedingPlanOut.enable_audio plan));
    ("audioTimes", JInt (FeedingPlanOut.audio_times plan));
    ("grainNum", JInt (FeedingPlanOut.grain_num plan));
    ("syncTime", JInt (Timestamp.to_timestamp_epoch_ms (FeedingPlanOut.sync_time plan)));
    ("skipEndTime", FeedingPlanOut.skip_end_time plan)
  ].

Definition to_mqtt_payload (self : t) : dict :=
  {[ "cmd" := JStr Commands.FEEDING_PLAN_SERVICE;
     "msgId" := MessageId.data (message_id self);
     "ts" := JInt (Timestamp.to_timestamp_epoch_ms (timestamp self));
     "plans" := JList (plan_to_dict <$> plans self) ]}.
End FeedingPlanServiceOut.

Module GetFeedingPlanOut.
Record t : Type := mk {
  plan_id : Z;
  execution_time : HourMinTimestamp.t;
  repeat_day : WeekdaySchedule.t;
  enable_audio : bool;
  audio_times : Z;
  grain_num : Z;
  sync_time : Timestamp.t;
  skip_end_time : json;
}.
End GetFeedingPlanOut.

Module GetFeedingPlanEventOut.
Record t : Type := mk {
  message_id : MessageId.t;
  timestamp : Timestamp.t;
  code : Code.t;
  plans : list GetFeedingPlanOut.t;
}.

Definition create {S : Type} (code : Code.t) (plans : list GetFeedingPlanOut.t) : M S t :=
  message_id ← MessageId_generate;
  timestamp ← Timestamp_now;
  mret (mk message_id timestamp code plans).

Definition plan_to_dict (plan : GetFeedingPlanOut.t) : json :=
  let common := [
    ("planId", JInt (GetFeedingPlanOut.plan_id plan));
    ("executionTime", JStr (HourMinTimestamp.to_mqtt_payload_value (GetFeedingPlanOut.execution_time plan)));
    ("repeatDay", JList (JInt <$> WeekdaySchedule.to_mqtt_payload_value (GetFeedingPlanOut.repeat_day plan)));
    ("enableAudio", JBool (GetFeedingPlanOut.enable_audio plan));
    ("audioTimes", JInt (GetFeedingPlanOut.audio_times plan));
    ("grainNum", JInt (GetFeedingPlanOut.grain_num plan));
    ("syncTime", JInt (Timestamp.to_timestamp_epoch_ms (GetFeedingPlanOut.sync_time plan)))
  ] in
  if py_is_None (GetFeedingPlanOut.skip_end_time plan)
  then JObj common
  else JObj (common ++ [("skipEndTime", GetFeedingPlanOut.skip_end_time plan)]).

Definition to_mqtt_payload (self : t) : dict :=
  {[ "cmd" := JStr Commands.GET_FEEDING_PLAN_EVENT;
     "msgId" := MessageId.data (message_id self);
     "ts" := JInt (Timestamp.to_timestamp_epoch_ms (timestamp self));
     "code" := JInt (Code.value (code self));
     "plans" := JList (plan_to_dict <$> plans self) ]}.
End GetFeedingPlanEventOut.

Module ErrorEventOut.
Record t : Type := mk { message_id : MessageId.t; timestamp : Timestamp.t }.

Definition to_mqtt_payload (self : t) : dict :=
  {[ "cmd" := JStr Commands.ERROR_EVENT;
     "msgId" := MessageId.data (message_id self);
     "ts" := JInt (Timestamp.to_timestamp_epoch_ms (timestamp self)) ]}.
End ErrorEventOut.

Module GetConfigOut.
Record t : Type := mk { message_id : MessageId.t; timestamp : Timestamp.t }.

Definition create {S : Type} : M S t :=
  message_id ← MessageId_generate;
  timestamp ← Timestamp_now;
  mret (mk message_id timestamp).

Definition to_mqtt_payload (self : t) : dict :=
  {[ "cmd" := JStr Commands.GET_CONFIG;
     "msgId" := MessageId.data (message_id self);
     "ts" := JInt (Timestamp.to_timestamp_epoch_ms (timestamp self)) ]}.
End GetConfigOut.

Module AttrGetServiceOut.
Record t : Type := mk { message_id : MessageId.t; timestamp : Timestamp.t }.

Definition create {S : Type} : M S t :=
  message_id ← MessageId_generate;
  timestamp ← Timestamp_now;
  mret (mk message_id timestamp).

Definition to_mqtt_payload (self : t) : dict :=
  {[ "cmd" := JStr Commands.ATTR_GET_SERVICE;
     "msgId" := MessageId.data (message_id self);
     "ts" := JInt (Timestamp.to_timestamp_epoch_ms (timestamp self)) ]}.
End AttrGetServiceOut.

(** *** Requests of the server *)

Module ManualFeedingServiceOut.
Record t : Type := mk { message_id : MessageId.t; timestamp : Timestamp.t; grain_num : json }.

Definition create {S : Type} (grain_num : json) : M S t :=
  message_id ← MessageId_generate;
  timestamp ← Timestamp_now;
  mret (mk message_id timestamp grain_num).

Definition to_mqtt_payload (self : t) : dict :=
  {[ "cmd" := JStr Commands.MANUAL_FEEDING_SERVICE;
     "msgId" := MessageId.data (message_id self);
     "ts" := JInt (Timestamp.to_timestamp_epoch_ms (timestamp self));
     "grainNum" := grain_num self ]}.
End ManualFeedingServiceOut.

Module WifiReconnectServiceOut.
Record t : Type := mk { message_id : MessageId.t; timestamp : Timestamp.t }.

Definition create {S : Type} : M S t :=
  message_id ← MessageId_generate;
  timestamp ← Timestamp_now;
  mret (mk message_id timestamp).

Definition to_mqtt_payload (self : t) : dict :=
  {[ "cmd" := JStr Commands.WIFI_RECONNECT_SERVICE;
     "msgId" := MessageId.data (message_id self);
     "ts" := JInt (Timestamp.to_timestamp_epoch_ms (timestamp self)) ]}.
End WifiReconnectServiceOut.

Module RestoreOut.
Record t : Type := mk { message_id : MessageId.t; timestamp : Timestamp.t }.

Definition create {S : Type} : M S t :=
  message_id ← MessageId_generate;
  timestamp ← Timestamp_now;
  mret (mk message_id timestamp).

Definition to_mqtt_payload (self : t) : dict :=
  {[ "cmd" := JStr Commands.RESTORE;
     "msgId" := MessageId.data (message_id self);
     "ts" := JInt (Timestamp.to_timestamp_epoch_ms (timestamp self)) ]}.
End RestoreOut.

Module InitializeSdCardServiceOut.
Record t : Type := mk { message_id : MessageId.t; timestamp : Timestamp.t }.

Definition create {S : Type} : M S t :=
  message_id ← MessageId_generate;
  timestamp ← Timestamp_now;
  mret (mk message_id timestamp).

Definition to_mqtt_payload (self : t) : dict :=
  {[ "cmd" := JStr Commands.INITIALIZE_SD_CARD_SERVICE;
     "msgId" := MessageId.data (message_id self);
     "ts" := JInt (Timestamp.to_timestamp_epoch_ms (timestamp self)) ]}.
End InitializeSdCardServiceOut.

Module DeviceRebootOut.
Record t : Type := mk { message_id : MessageId.t; timestamp : Timestamp.t }.

Definition create {S : Type} : M S t :=
  message_id ← MessageId_generate;
  timestamp ← Timestamp_now;
  mret (mk message_id timestamp).

Definition to_mqtt_payload (self : t) : dict :=
  {[ "cmd" := JStr Commands.DEVICE_REBOOT;
     "msgId" := MessageId.data (message_id self);
     "ts" := JInt (Timestamp.to_timestamp_epoch_ms (timestamp self)) ]}.
End DeviceRebootOut.

(** *** Attribute updates

    [AttrSetServiceOut] holds what its constructor was given by keyword,
    every other field being [None].  The values are the objects of the
    caller: members of the enumerations, [PercentageInt] and
    [HourMinTimestamp] instances, plain values. *)

(** [x == True] *)
Definition pyval_eq_True (v : pyval) : bool :=
  match v with
  | VJson j => py_eq_True j
  | _ => false
  end.

(** [x.value]: the value of a member of an enumeration, the field of a
    [PercentageInt]. *)
Definition pyval_value (v : pyval) : result pyval :=
  match v with
  | VPowerMode m => Ok (VInt (PowerMode.value m))
  | VPowerType m => Ok (VInt (PowerType.value m))
  | VAgingType m => Ok (VInt (AgingType.value m))
  | VNightVision m => Ok (VInt (NightVision.value m))
  | VResolution m => Ok (VInt (Resolution.value m))
  | VSdCardState m => Ok (VInt (SdCardState.value m))
  | VSdCardFileSystem m => Ok (VInt (SdCardFileSystem.value m))
  | VVideoRecordMode m => Ok (VInt (VideoRecordMode.value m))
  | VMotionDetectionRange m => Ok (VInt (MotionDetectionRange.value m))
  | VMotionDetectionSensitivity m => Ok (VInt (MotionDetectionSensitivity.value m))
  | VSoundDetectionSensitivity m => Ok (VInt (SoundDetectionSensitivity.value m))
  | VWifiType m => Ok (VInt (WifiType.value m))
  | VGrainOutputType m => Ok (VInt (GrainOutputType.value m))
  | VFoodOutputProgress m => Ok (VInt (FoodOutputProgress.value m))
  | VPercentageInt p => Ok (VJson (PercentageInt.value p))
  | VJson _ | VHourMinTimestamp _ => Raise (AttributeError "value")
  end.

(** [x.name] *)
Definition pyval_name (v : pyval) : result pyval :=
  match v with
  | VPowerMode m => Ok (VStr (PowerMode.name m))
  | VPowerType m => Ok (VStr (PowerType.name m))
  | VAgingType m => Ok (VStr (AgingType.name m))
  | VNightVision m => Ok (VStr (NightVision.name m))
  | VResolution m => Ok (VStr (Resolution.name m))
  | VSdCardState m => Ok (VStr (SdCardState.name m))
  | VSdCardFileSystem m => Ok (VStr (SdCardFileSystem.name m))
  | VVideoRecordMode m => Ok (VStr (VideoRecordMode.name m))
  | VMotionDetectionRange m => Ok (VStr (MotionDetectionRange.name m))
  | VMotionDetectionSensitivity m => Ok (VStr (MotionDetectionSensitivity.name m))
  | VSoundDetectionSensitivity m => Ok (VStr (SoundDetectionSensitivity.name m))
  | VWifiType m => Ok (VStr (WifiType.name m))
  | VGrainOutputType m => Ok (VStr (GrainOutputType.name m))
  | VFoodOutputProgress m => Ok (VStr (FoodOutputProgress.name m))
  | VJson _ | VPercentageInt _ | VHourMinTimestamp _ => Raise (AttributeError "name")
  end.

(** [x.value_get()] *)
Definition pyval_value_get (v : pyval) : result pyval :=
  match v with
  | VPercentageInt p => Ok (VJson (PercentageInt.value_get p))
  | _ => Raise (AttributeError "value_get")
  end.

(** [x.to_mqtt_payload_value()], for the field types of an attribute update *)
Definition pyval_to_mqtt_payload_value (v : pyval) : result pyval :=
  match v with
  | VHourMinTimestamp t => Ok (VStr (HourMinTimestamp.to_mqtt_payload_value t))
  | _ => Raise (AttributeError "to_mqtt_payload_value")
  end.

(** How [to_mqtt_payload] writes a field. *)
Inductive enc : Type :=
  | EBool01     (* 1 if self.<field> == True else 0 *)
  | ERaw        (* self.<field> *)
  | EValueGet   (* self.<field>.value_get() *)
  | EValue      (* self.<field>.value *)
  | EName       (* self.<field>.name *)
  | EHourMin.   (* self.<field>.to_mqtt_payload_value() *)

Definition encode (e : enc) (v : pyval) : result pyval :=
  match e with
  | EBool01 => Ok (VInt (if pyval_eq_True v then 1 else 0))
  | ERaw => Ok v
  | EValueGet => pyval_value_get v
  | EValue => pyval_value v
  | EName => pyval_name v
  | EHourMin => pyval_to_mqtt_payload_value v
  end.

(** A Python [dict] under construction, in insertion order. *)
Abbreviation odict := (list (string * pyval)).

(** [json.dumps(payload)], read back as the receiver parses it: the members
    of the enumerations and the instances of the codec classes cannot be
    serialized. *)
Fixpoint json_dumps (payload : odict) : result dict :=
  match payload with
  | [] => Ok ∅
  | (key, VJson v) :: rest =>
      d ← json_dumps rest;
      Ok (<[key := v]> d)
  | (key, _) :: rest => Raise TypeError
  end.

Module AttrSetServiceOut.
Record t : Type := mk {
  message_id : MessageId.t;
  timestamp : Timestamp.t;
  attrs : gmap string pyval;
}.

(** The optional fields of the class. *)
Definition fields : list string := [
  "power_mode"; "enable_audio"; "audio_url"; "volume";
  "camera_switch"; "camera_aging_type"; "night_vision"; "resolution";
  "camera_start_time_utc"; "camera_end_time_utc"; "video_record_switch"; "video_record_mode";
  "video_record_aging_type"; "video_record_start_time_utc"; "video_record_end_time_utc"; "feeding_video_switch";
  "enable_video_start_feeding_plan"; "enable_video_after_manual_feeding"; "before_feeding_plan_time"; "automatic_recording";
  "after_manual_feeding_time"; "video_watermark_switch"; "cloud_video_record_switch"; "motion_detection_switch";
  "motion_detection_aging_type"; "motion_detection_range"; "motion_detection_sensitivity"; "motion_detection_start_time_utc";
  "motion_detection_end_time_utc"; "sound_detection_switch"; "sound_detection_aging_type"; "sound_detection_sensitivity";
  "sound_detection_start_time_utc"; "sound_detection_end_time_utc"; "sound_switch"; "sound_aging_type";
  "sound_start_time_utc"; "sound_end_time_utc"; "sound_times"; "light_switch";
  "light_aging_type"; "lighting_start_time_utc"; "lighting_end_time_utc"; "lighting_times";
  "auto_change_mode"; "auto_threshold"
].

(** [self.<field>] *)
Definition get (self : t) (field : string) : pyval := default VNone (attrs self !! field).

(** [create], called with keyword arguments: a keyword that is no field of
    the class is refused by the constructor. *)
Definition create {S : Type} (kwargs : list (string * pyval)) : M S t :=
  message_id ← MessageId_generate;
  timestamp ← Timestamp_now;
  if forallb (fun kv => bool_decide (kv.1 ∈ fields)) kwargs
  then mret (mk message_id timestamp (list_to_map kwargs))
  else raise TypeError.

(** One line [(field, key, e)] of [to_mqtt_payload]:
    [if not self.<field> == None: payload = payload | { key: e(self.<field>) }]. *)
Definition lines : list (string * string * enc) := [
  ("enable_audio", "enableAudio", EBool01);
  ("audio_url", "audioUrl", ERaw);
  ("volume", "volume", EValueGet);
  ("camera_switch", "cameraSwitch", ERaw);
  ("camera_aging_type", "cameraAgingType", EValue);
  ("night_vision", "nightVision", EName);
  ("resolution", "resolution", EName);
  ("camera_start_time_utc", "cameraStartTimeUtc", EHourMin);
  ("camera_end_time_utc", "cameraEndTimeUtc", EHourMin);
  ("video_record_switch", "videoRecordSwitch", ERaw);
  ("video_record_mode", "videoRecordMode", EName);
  ("video_record_aging_type", "videoRecordAgingType", EValue);
  ("video_record_start_time_utc", "videoRecordStartTimeUtc", EHourMin);
  ("video_record_end_time_utc", "videoRecordEndTimeUtc", EHourMin);
  ("feeding_video_switch", "feedingVideoSwitch", ERaw);
  ("enable_video_start_feeding_plan", "enableVideoStartFeedingPlan", ERaw);
  ("after_manual_feeding_time", "afterManualFeedingTime", ERaw);
  ("before_feeding_plan_time", "beforeFeedingPlanTime", ERaw);
  ("automatic_recording", "automaticRecording", ERaw);
  ("enable_video_after_manual_feeding", "enableVideoAfterManualFeeding", ERaw);
  ("video_watermark_switch", "videoWatermarkSwitch", ERaw);
  ("cloud_video_record_switch", "cloudVideoRecordSwitch", ERaw);
  ("motion_detection_switch", "motionDetectionSwitch", ERaw);
  ("motion_detection_aging_type", "motionDetectionAgingType", EValue);
  ("motion_detection_range", "motionDetectionRange", EName);
  ("motion_detection_sensitivity", "motionDetectionSensitivity", EName);
  ("motion_detection_start_time_utc", "motionDetectionStartTimeUtc", EHourMin);
  ("motion_detection_end_time_utc", "motionDetectionEndTimeUtc", EHourMin);
  ("sound_detection_switch", "soundDetectionSwitch", ERaw);
  ("sound_detection_aging_type", "soundDetectionAgingType", EValue);
  ("sound_detection_sensitivity", "soundDetectionSensitivity", EName);
  ("sound_detection_start_time_utc", "soundDetectionStartTimeUtc", EHourMin);
  ("sound_detection_end_time_utc", "soundDetectionEndTimeUtc", EHourMin);
  ("sound_switch", "soundSwitch", ERaw);
  ("sound_aging_type", "soundAgingType", EValue);
  ("sound_start_time_utc", "soundStartTimeUtc", EHourMin);
  ("sound_end_time_utc", "soundEndTimeUtc", EHourMin);
  ("sound_times", "soundTimes", ERaw);
  ("light_switch", "lightSwitch", ERaw);
  ("light_aging_type", "lightAgingType", ERaw);
  ("lighting_start_time_utc", "lightingStartTimeUtc", EHourMin);
  ("lighting_end_time_utc", "lightingEndTimeUtc", EHourMin);
  ("lighting_times", "lightingTimes", ERaw);
  ("auto_change_mode", "autoChangeMode", ERaw);
  ("auto_threshold", "autoThreshold", ERaw)
].

(** The keys of the lines differ from each other and from the three keys
    of the envelope, so that [payload | { key: x }] adds an entry at the
    end. *)
Fixpoint encode_lines (self : t) (ls : list (string * string * enc)) (payload : odict)
  : result odict :=
  match ls with
  | [] => Ok payload
  | (field, key, e) :: rest =>
      if negb (pyval_is_None (get self field))
      then
        x ← encode e (get self field);
        encode_lines self rest (payload ++ [(key, x)])
      else encode_lines self rest payload
  end.

Definition to_mqtt_payload (self : t) : result odict :=
  encode_lines self lines [
    ("cmd", VStr Commands.ATTR_SET_SERVICE);
    ("msgId", VJson (MessageId.data (message_id self)));
    ("ts", VInt (Timestamp.to_timestamp_epoch_ms (timestamp self)))
  ].
End AttrSetServiceOut.

(** ** Client

    The client object is embedded in two parts, because its callback slots
    hold bound methods of the backend that owns it: the topics (a field of the
    backend) and the slots (a record of handlers on the owner's state [S]). *)

Module Client.
Record t : Type := mk { message_topics : MessageTopics.t }.

(** [_mqtt_send]: the payload is serialized with [json.dumps] and handed to
    [mqtt.mqtt_publish]. *)
Definition _mqtt_send {S : Type} (self : t) (topic : string) (payload : dict) : M S unit :=
  emit (Publish topic payload).

Definition _mqtt_ntp_send {S : Type} (self : t) (payload : dict) : M S unit :=
  _mqtt_send self (MessageTopics.ntp_sub_get (message_topics self)) payload.

Definition _mqtt_config_send {S : Type} (self : t) (payload : dict) : M S unit :=
  _mqtt_send self (MessageTopics.config_sub_get (message_topics self)) payload.

Definition _mqtt_event_send {S : Type} (self : t) (payload : dict) : M S unit :=
  _mqtt_send self (MessageTopics.event_sub_get (message_topics self)) payload.

Definition _mqtt_service_send {S : Type} (self : t) (payload : dict) : M S unit :=
  _mqtt_send self (MessageTopics.service_sub_get (message_topics self)) payload.

Definition _mqtt_system_send {S : Type} (self : t) (payload : dict) : M S unit :=
  _mqtt_send self (MessageTopics.system_sub_get (message_topics self)) payload.

Definition ntp_send {S : Type} (self : t) (ntp_out : NtpOut.t) : M S unit :=
  _mqtt_ntp_send self (NtpOut.to_mqtt_payload ntp_out).

Definition ntp_sync_send {S : Type} (self : t) (ntp_sync_out : NtpSyncOut.t) : M S unit :=
  _mqtt_ntp_send self (NtpSyncOut.to_mqtt_payload ntp_sync_out).

Definition attr_get_service_send {S : Type} (self : t) (attr_get_service_out : AttrGetServiceOut.t) : M S unit :=
  _mqtt_service_send self (AttrGetServiceOut.to_mqtt_payload attr_get_service_out).

Definition feeding_plan_service_send {S : Type} (self : t) (feeding_plan_service_out : FeedingPlanServiceOut.t) : M S unit :=
  _mqtt_service_send self (FeedingPlanServiceOut.to_mqtt_payload feeding_plan_service_out).

Definition attr_push_event_send {S : Type} (self : t) (attr_push_event_out : AttrPushEventOut.t) : M S unit :=
  _mqtt_event_send self (AttrPushEventOut.to_mqtt_payload attr_push_event_out).

Definition device_start_event_send {S : Type} (self : t) (device_start_event_out : DeviceStartEventOut.t) : M S unit :=
  _mqtt_event_send self (DeviceStartEventOut.to_mqtt_payload device_start_event_out).

Definition error_event_send {S : Type} (self : t) (error_event_out : ErrorEventOut.t) : M S unit :=
  _mqtt_event_send self (ErrorEventOut.to_mqtt_payload error_event_out).

(** The next two are sent on the service topic, as in the source. *)
Definition get_feeding_plan_event_send {S : Type} (self : t) (get_feeding_plan_event_out : GetFeedingPlanEventOut.t) : M S unit :=
  _mqtt_service_send self (GetFeedingPlanEventOut.to_mqtt_payload get_feeding_plan_event_out).

Definition grain_output_event_send {S : Type} (self : t) (grain_output_event_out : GrainOutputEventOut.t) : M S unit :=
  _mqtt_service_send self (GrainOutputEventOut.to_mqtt_payload grain_output_event_out).

Definition get_config_send {S : Type} (self : t) (get_config_out : GetConfigOut.t) : M S unit :=
  _mqtt_config_send self (GetConfigOut.to_mqtt_payload get_config_out).

(** The callback slots read by the receivers of the heart and event topics;
    [None] is an empty slot. *)
Record callbacks (S : Type) : Type := mk_callbacks {
  heartbeat_callback : option (HeartbeatIn.t -> M S unit);
  attr_get_service_callback : option (AttrGetServiceIn.t -> M S unit);
  attr_push_event_callback : option (AttrPushEventIn.t -> M S unit);
  detection_event_callback : option (DetectionEventIn.t -> M S unit);
  device_start_event_callback : option (DeviceStartEventIn.t -> M S unit);
  error_event_callback : option (ErrorEventIn.t -> M S unit);
  get_feeding_plan_event_callback : option (GetFeedingPlanEventIn.t -> M S unit);
  grain_output_event_callback : option (GrainOutputEventIn.t -> M S unit);
}.
Arguments heartbeat_callback {S} _.
Arguments attr_get_service_callback {S} _.
Arguments attr_push_event_callback {S} _.
Arguments detection_event_callback {S} _.
Arguments device_start_event_callback {S} _.
Arguments error_event_callback {S} _.
Arguments get_feeding_plan_event_callback {S} _.
Arguments grain_output_event_callback {S} _.

(** [__init__]: every slot is [None]. *)
Definition no_callbacks {S : Type} : callbacks S :=
  mk_callbacks S None None None None None None None None.

(** [if not self.<slot> == None: x = decode(payload); self.<slot>(x)] *)
Definition dispatch {S In : Type} (slot : option (In -> M S unit)) (decode : M S In) : M S unit :=
  match slot with
  | Some callback => x ← decode; callback x
  | None => mret tt
  end.

(** [_mqtt_recv_heart_cb], from the parsed payload on. *)
Definition _mqtt_recv_heart_cb {S : Type} (self : callbacks S) (payload : dict) : M S unit :=
  cmd ← lift_result (getitem payload "cmd");
  if py_eq_str cmd Commands.HEARTBEAT
  then dispatch (heartbeat_callback self) (HeartbeatIn.from_mqtt_payload payload)
  else mret tt.

(** [_mqtt_recv_event_cb], from the parsed payload on. *)
Definition _mqtt_recv_event_cb {S : Type} (self : callbacks S) (payload : dict) : M S unit :=
  cmd ← lift_result (getitem payload "cmd");
  if py_eq_str cmd Commands.ATTR_GET_SERVICE
  then dispatch (attr_get_service_callback self) (AttrGetServiceIn.from_mqtt_payload payload)
  else if py_eq_str cmd Commands.ATTR_PUSH_EVENT
  then dispatch (attr_push_event_callback self) (AttrPushEventIn.from_mqtt_payload payload)
  else if py_eq_str cmd Commands.DETECTION_EVENT
  then dispatch (detection_event_callback self) (DetectionEventIn.from_mqtt_payload payload)
  else if py_eq_str cmd Commands.DEVICE_START_EVENT
  then dispatch (device_start_event_callback self) (DeviceStartEventIn.from_mqtt_payload payload)
  else if py_eq_str cmd Commands.ERROR_EVENT
  then dispatch (error_event_callback self) (ErrorEventIn.from_mqtt_payload payload)
  else if py_eq_str cmd Commands.GET_FEEDING_PLAN_EVENT
  then dispatch (get_feeding_plan_event_callback self) (GetFeedingPlanEventIn.from_mqtt_payload payload)
  else if py_eq_str cmd Commands.GRAIN_OUTPUT_EVENT
  then dispatch (grain_output_event_callback self) (GrainOutputEventIn.from_mqtt_payload payload)
  else mret tt.

(** [attr_set_service_send]: the payload is built by [to_mqtt_payload] and
    serialized by [_mqtt_send]; both can raise. *)
Definition attr_set_service_send {S : Type} (self : t) (attr_set_service_out : AttrSetServiceOut.t) : M S unit :=
  payload ← lift_result (AttrSetServiceOut.to_mqtt_payload attr_set_service_out);
  payload_json ← lift_result (json_dumps payload);
  _mqtt_service_send self payload_json.

Definition initialize_sd_card_service_send {S : Type} (self : t) (initialize_sd_card_service_out : InitializeSdCardServiceOut.t) : M S unit :=
  _mqtt_service_send self (InitializeSdCardServiceOut.to_mqtt_payload initialize_sd_card_service_out).

Definition manual_feeding_service_send {S : Type} (self : t) (manual_feeding_service_out : ManualFeedingServiceOut.t) : M S unit :=
  _mqtt_service_send self (ManualFeedingServiceOut.to_mqtt_payload manual_feeding_service_out).

Definition wifi_reconnect_service_send {S : Type} (self : t) (wifi_reconnect_service_out : WifiReconnectServiceOut.t) : M S unit :=
  _mqtt_service_send self (WifiReconnectServiceOut.to_mqtt_payload wifi_reconnect_service_out).

Definition device_reboot_send {S : Type} (self : t) (device_reboot_out : DeviceRebootOut.t) : M S unit :=
  _mqtt_system_send self (DeviceRebootOut.to_mqtt_payload device_reboot_out).

Definition restore_send {S : Type} (self : t) (restore_out : RestoreOut.t) : M S unit :=
  _mqtt_system_send self (RestoreOut.to_mqtt_payload restore_out).
End Client.

(** ** Watchdog *)

Module Watchdog.
(** [trigger_callback] tells whether a callback is registered; the only
    callback ever registered is the backend's [_heartbeat_watchdog_trigger]. *)
Record t : Type := mk {
  name : string;
  period_sec : Z;
  handle : option nat;
  trigger_callback : bool;
}.

Definition init (name : string) (period_sec : Z) : t := mk name period_sec None false.

Definition set_handle (h : option nat) (self : t) : t :=
  mk (name self) (period_sec self) h (trigger_callback self).

Definition trigger_listen : M t unit :=
  self ← get_self;
  put_self (mk (name self) (period_sec self) (handle self) true).

Definition _cancel : M t unit :=
  self ← get_self;
  emit (CancelTimer (handle self));;
  put_self (set_handle None self).

Definition _schedule : M t unit :=
  self ← get_self;
  y ← get_sys;
  put_sys (Sys_tick_timers y);;
  emit (RunIn (period_sec self) (timers_made y));;
  put_self (set_handle (Some (timers_made y)) self).

Definition reset : M t unit :=
  _cancel;;
  _schedule.

Definition cancel : M t unit := _cancel.
End Watchdog.

(** ** Food plans *)

Module FoodPlan.
Record t : Type := mk {
  id_ : Z;
  execution_time : HourMinTimestamp.t;
  scheduled_days : WeekdaySchedule.t;
  enable_audio : bool;
  play_audio_times : Z;
  grain_num : Z;
}.

(** [set]: every field of [self] is assigned from [other]. *)
Definition set (self other : t) : t :=
  {| id_ := id_ other;
     execution_time := execution_time other;
     scheduled_days := scheduled_days other;
     enable_audio := enable_audio other;
     play_audio_times := play_audio_times other;
     grain_num := grain_num other |}.

Definition from_dict {S : Type} (data : json) : M S t :=
  v ← lift_result (json_getitem data "id");
  id_ ← lift_result (py_int v);
  v ← lift_result (json_getitem data "execution_time");
  execution_time ← HourMinTimestamp_from_dict v;
  v ← lift_result (json_getitem data "scheduled_days");
  items ← lift_result (py_iter v);
  scheduled_days ← lift_result (WeekdaySchedule.from_list items);
  v ← lift_result (json_getitem data "enable_audio");
  let enable_audio := py_truthy v in
  v ← lift_result (json_getitem data "play_audio_times");
  play_audio_times ← lift_result (py_int v);
  v ← lift_result (json_getitem data "grain_num");
  grain_num ← lift_result (py_int v);
  mret (mk id_ execution_time scheduled_days enable_audio play_audio_times grain_num).

Definition to_dict (self : t) : json :=
  JObj [
    ("id", JInt (id_ self));
    ("execution_time", HourMinTimestamp.to_dict (execution_time self));
    ("scheduled_days", JList (JStr <$> WeekdaySchedule.to_list (scheduled_days self)));
    ("enable_audio", JBool (enable_audio self));
    ("play_audio_times", JInt (play_audio_times self));
    ("grain_num", JInt (grain_num self))
  ].
End FoodPlan.

(** [FoodPlan] objects are mutable and shared: [plan_set] stores the very
    object it is given and overwrites the fields of a stored one.  Objects
    live in a store, a [FoodPlans] holds references into it. *)
Abbreviation ref := positive.
Abbreviation store := (gmap positive FoodPlan.t).

Module FoodPlans.
(** [plans] is a Python list: [create_empty] and [from_dict], the
    constructors in use, build one. *)
Record t : Type := mk { plans : list ref }.

Definition create_empty : t := mk [].

(** The loop of [plan_set]: the first stored plan with the id of
    [food_plan] is overwritten and the loop is left.  The result is [None]
    only for a dangling reference, which a Python heap does not have. *)
Fixpoint plan_set_loop (plans : list ref) (food_plan : ref) (h : store) : option (bool * store) :=
  match plans with
  | [] => Some (false, h)
  | plan :: rest =>
      p ← h !! plan;
      fp ← h !! food_plan;
      if bool_decide (FoodPlan.id_ p = FoodPlan.id_ fp)
      then Some (true, <[plan := FoodPlan.set p fp]> h)
      else plan_set_loop rest food_plan h
  end.

Definition plan_set (self : t) (food_plan : ref) (h : store) : option (t * store) :=
  match plan_set_loop (plans self) food_plan h with
  | Some (plan_found, h') =>
      if plan_found
      then Some (self, h')
      else Some (mk (plans self ++ [food_plan]), h')
  | None => None
  end.

(** What the plan set holds, as [to_dict] and the synchronizer read it. *)
Definition contents (self : t) (h : store) : list FoodPlan.t :=
  omap (fun r => h !! r) (plans self).

(** The loop of [from_dict]: every decoded plan is a new object. *)
Fixpoint from_dict_loop {S : Type} (plans : list json) (food_plans : list ref) (h : store)
  : M S (t * store) :=
  match plans with
  | [] => mret (mk food_plans, h)
  | plan :: rest =>
      p ← FoodPlan.from_dict plan;
      let r := fresh (dom h) in
      from_dict_loop rest (food_plans ++ [r]) (<[r := p]> h)
  end.

Definition from_dict {S : Type} (data : json) (h : store) : M S (t * store) :=
  v ← lift_result (json_getitem data "plans");
  plans ← lift_result (py_iter v);
  from_dict_loop plans [] h.

Definition to_dict (self : t) (h : store) : json :=
  JObj [("plans", JList (FoodPlan.to_dict <$> contents self h))].
End FoodPlans.

Definition well_formed (h : store) (rs : list ref) : Prop :=
  Forall (fun r => is_Some (h !! r)) rs.

(** ** Backend *)

Module Backend.
Definition HEARTBEAT_WATCHDOG_PERIOD_SEC : Z := 51 + 30.
Definition DEVICE_INIT_WATCHDOG_PERIOD_SEC : Z := 10.
Definition NTP_SYNC_TIME_DIFF_THRESHOLD_SEC : Z := 10.

(** [food_plans] is the content of the plan set at the time a handler runs;
    [registered l] tells whether the listener slot [l] holds a callback. *)
Record t : Type := mk {
  mqtt_host : string;
  mqtt_port : Z;
  food_plans : list FoodPlan.t;
  device_serial : string;
  client : Client.t;
  heartbeat_watchdog : Watchdog.t;
  registered : listener -> bool;
  last_heartbeat_count : Z;
  is_online : bool;
  ntp_sync_error : bool;
  settings_audio_enabled : pyval;
  settings_audio_file_url : pyval;
}.

Definition set_food_plans (v : list FoodPlan.t) (b : t) : t :=
  mk (mqtt_host b) (mqtt_port b) v (device_serial b) (client b) (heartbeat_watchdog b)
     (registered b) (last_heartbeat_count b) (is_online b) (ntp_sync_error b)
     (settings_audio_enabled b) (settings_audio_file_url b).

Definition set_heartbeat_watchdog (v : Watchdog.t) (b : t) : t :=
  mk (mqtt_host b) (mqtt_port b) (food_plans b) (device_serial b) (client b) v
     (registered b) (last_heartbeat_count b) (is_online b) (ntp_sync_error b)
     (settings_audio_enabled b) (settings_audio_file_url b).

Definition set_registered (v : listener -> bool) (b : t) : t :=
  mk (mqtt_host b) (mqtt_port b) (food_plans b) (device_serial b) (client b) (heartbeat_watchdog b)
     v (last_heartbeat_count b) (is_online b) (ntp_sync_error b)
     (settings_audio_enabled b) (settings_audio_file_url b).

Definition set_last_heartbeat_count (v : Z) (b : t) : t :=
  mk (mqtt_host b) (mqtt_port b) (food_plans b) (device_serial b) (client b) (heartbeat_watchdog b)
     (registered b) v (is_online b) (ntp_sync_error b)
     (settings_audio_enabled b) (settings_audio_file_url b).

Definition set_is_online (v : bool) (b : t) : t :=
  mk (mqtt_host b) (mqtt_port b) (food_plans b) (device_serial b) (client b) (heartbeat_watchdog b)
     (registered b) (last_heartbeat_count b) v (ntp_sync_error b)
     (settings_audio_enabled b) (settings_audio_file_url b).

Definition set_settings_audio_enabled (v : pyval) (b : t) : t :=
  mk (mqtt_host b) (mqtt_port b) (food_plans b) (device_serial b) (client b) (heartbeat_watchdog b)
     (registered b) (last_heartbeat_count b) (is_online b) (ntp_sync_error b)
     v (settings_audio_file_url b).

Definition set_settings_audio_file_url (v : pyval) (b : t) : t :=
  mk (mqtt_host b) (mqtt_port b) (food_plans b) (device_serial b) (client b) (heartbeat_watchdog b)
     (registered b) (last_heartbeat_count b) (is_online b) (ntp_sync_error b)
     (settings_audio_enabled b) v.

(** [self.<field> = v] *)
Definition assign (f : t -> t) : M t unit :=
  self ← get_self;
  put_self (f self).

(** [self.is_online = v] *)
Definition assign_is_online (v : bool) : M t unit :=
  assign (set_is_online v);;
  emit (Assign_is_online v).

(** [<slot>_listen(callback)] *)
Definition listen (l : listener) : M t unit :=
  assign (fun b => set_registered (fun l' => if bool_decide (l' = l) then true else registered b l') b).

(** [if not self.<slot>_callback == None: self.<slot>_callback(args)] *)
Definition call (l : listener) (args : list arg) : M t unit :=
  self ← get_self;
  when (registered self l) (emit (Callback l args)).

(** [self.client.<name>_send(out)] *)
Definition send {Out : Type} (f : Client.t -> Out -> M t unit) (out : Out) : M t unit :=
  self ← get_self;
  f (client self) out.

(** [self.heartbeat_watchdog.<method>()] *)
Definition on_heartbeat_watchdog {A : Type} (m : M Watchdog.t A) : M t A :=
  zoom heartbeat_watchdog set_heartbeat_watchdog m.

Definition _error_report (message : string) : M t unit :=
  call error [Pos (VStr message)].

(** A call written [_error_report(message)], without [self.]: the name is
    looked up in the function and module scopes, where it is not bound (the
    method of that name lives in the class), so that evaluating it raises
    before anything is called. *)
Definition unbound_error_report {A : Type} (message : string) : M t A :=
  raise (NameError "_error_report").

Definition _device_timestamp_sync_drift_check (timestamp_backend timestamp_device : Timestamp.t) : bool :=
  let delta := Timestamp.abs_delta timestamp_backend timestamp_device in
  bool_decide (delta < timedelta_seconds NTP_SYNC_TIME_DIFF_THRESHOLD_SEC).

(** [self._device_timestamp_sync_drift_check(a, b)], recorded in the trace *)
Definition drift_check (timestamp_backend timestamp_device : Timestamp.t) : M t bool :=
  emit (DriftCheck timestamp_backend timestamp_device);;
  mret (_device_timestamp_sync_drift_check timestamp_backend timestamp_device).

Definition _device_timestamp_sync_drift_check_and_adjust (timestamp_device : Timestamp.t) : M t unit :=
  timestamp_now ← Timestamp_now;
  ok ← drift_check timestamp_now timestamp_device;
  when (negb ok) (
    ntp_sync_out ← NtpSyncOut.create;
    send Client.ntp_sync_send ntp_sync_out).

Definition _device_food_plans_sync (food_plans : list FoodPlan.t) : M t unit :=
  sync_time_now ← Timestamp_now;
  let feeding_plans_out :=
    (fun food_plan =>
       FeedingPlanOut.mk
         (FoodPlan.id_ food_plan)
         (FoodPlan.execution_time food_plan)
         (FoodPlan.scheduled_days food_plan)
         (FoodPlan.enable_audio food_plan)
         (FoodPlan.play_audio_times food_plan)
         (FoodPlan.grain_num food_plan)
         sync_time_now
         JNull) <$> food_plans in
  feeding_plan_service_out ← FeedingPlanServiceOut.create feeding_plans_out;
  send Client.feeding_plan_service_send feeding_plan_service_out.

Definition food_plans_set (food_plans : list FoodPlan.t) : M t unit :=
  assign (set_food_plans food_plans);;
  self ← get_self;
  _device_food_plans_sync (Backend.food_plans self).

Definition _heartbeat_watchdog_trigger : M t unit :=
  assign_is_online false;;
  call went_offline [].

(** [Watchdog._watchdog_run] of the heartbeat watchdog *)
Definition heartbeat_watchdog_run : M t unit :=
  assign (fun b => set_heartbeat_watchdog (Watchdog.set_handle None (heartbeat_watchdog b)) b);;
  self ← get_self;
  when (Watchdog.trigger_callback (heartbeat_watchdog self)) _heartbeat_watchdog_trigger.

Definition _heartbeat_cb (heartbeat_in : HeartbeatIn.t) : M t unit :=
  self ← get_self;
  (* Check if device restarted which might have not been detected by the
     watchdog between two heartbeat messages *)
  when (bool_decide (HeartbeatIn.count heartbeat_in < last_heartbeat_count self)) (
    (* [self.is_online == False]: a comparison, its value is dropped *)
    call went_offline []);;
  assign (set_last_heartbeat_count (HeartbeatIn.count heartbeat_in));;
  self ← get_self;
  (if negb (is_online self)
   then
     get_config_out ← GetConfigOut.create;
     send Client.get_config_send get_config_out;;
     attr_get_service_out ← AttrGetServiceOut.create;
     send Client.attr_get_service_send attr_get_service_out;;
     (* Re-sync food plans *)
     _device_food_plans_sync (food_plans self);;
     assign_is_online true;;
     call went_online [];;
     call device_info [Kw "device_serial" (VStr (device_serial self))];;
     call device_wifi_info [Kw "rssi" (VInt (HeartbeatIn.rssi heartbeat_in));
                            Kw "type_" (VWifiType (HeartbeatIn.wifi_type heartbeat_in))];;
     timestamp_now ← Timestamp_now;
     ok ← drift_check timestamp_now (HeartbeatIn.timestamp heartbeat_in);
     if negb ok
     then
       (* the arguments of the log call read [ntp_sync_in], which is not a
          name of this method *)
       raise (NameError "ntp_sync_in")
     else call ntp_sync_status [Pos (VBool true)]
   else
     attr_get_service_out ← AttrGetServiceOut.create;
     send Client.attr_get_service_send attr_get_service_out);;
  (* Periodic heartbeat resets the watchdog as long as the device keeps responding *)
  on_heartbeat_watchdog Watchdog.reset.

Definition _ntp_cb (ntp_in : NtpIn.t) : M t unit :=
  timestamp_now ← Timestamp_now;
  ok ← drift_check timestamp_now (NtpIn.timestamp ntp_in);
  let force_time_calbiration := negb ok in
  let ntp_out := NtpOut.mk Code.OK timestamp_now force_time_calbiration in
  send Client.ntp_send ntp_out;;
  call ntp_sync_status [Pos (VBool true)].

Definition _ntp_sync_cb (ntp_sync_in : NtpSyncIn.t) : M t unit :=
  timestamp_now ← Timestamp_now;
  ok ← drift_check timestamp_now (NtpSyncIn.timestamp ntp_sync_in);
  if negb ok
  then call ntp_sync_status [Pos (VBool false)]
  else call ntp_sync_status [Pos (VBool true)].

Definition _device_start_event_cb (device_start_event : DeviceStartEventIn.t) : M t unit :=
  (if py_eq_True (DeviceStartEventIn.success device_start_event)
   then
     call device_info [
       Kw "product_id" (VJson (DeviceStartEventIn.pid device_start_event));
       Kw "uuid" (VJson (DeviceStartEventIn.uuid device_start_event));
       Kw "hardware_version" (VJson (DeviceStartEventIn.hardware_version device_start_event));
       Kw "software_version" (VJson (DeviceStartEventIn.software_version device_start_event))];;
     call device_wifi_info [Kw "mac_address" (VJson (DeviceStartEventIn.mac device_start_event))]
   else unbound_error_report "Device initialization failed");;
  device_start_event_out ←
    DeviceStartEventOut.create (DeviceStartEventIn.message_id device_start_event) Code.OK;
  send Client.device_start_event_send device_start_event_out;;
  _device_timestamp_sync_drift_check_and_adjust (DeviceStartEventIn.timestamp device_start_event).

Definition _device_reboot_cb (device_reboot_in : DeviceRebootIn.t) : M t unit :=
  if negb (bool_decide (DeviceRebootIn.code device_reboot_in = Code.OK))
  then unbound_error_report "Rebooting failed"
  else
    assign_is_online false;;
    call went_offline [].
    (* No need for sync drift check on device reboot *)

Definition _restore_cb (restore_in : RestoreIn.t) : M t unit :=
  if negb (bool_decide (RestoreIn.code restore_in = Code.OK))
  then unbound_error_report "Factory reset failed"
  else
    assign_is_online false;;
    call went_offline [].
    (* No need for sync drift check on device restore *)

Definition _initialize_sd_card_service_cb (initialize_sd_card_service_in : InitializeSdCardServiceIn.t) : M t unit :=
  if negb (bool_decide (InitializeSdCardServiceIn.code initialize_sd_card_service_in = Code.OK))
  then unbound_error_report "Formatting SD card failed"
  else
    _device_timestamp_sync_drift_check_and_adjust
      (InitializeSdCardServiceIn.timestamp initialize_sd_card_service_in).

Definition _wifi_reconnect_service_cb (wifi_reconnect_service_in : WifiReconnectServiceIn.t) : M t unit :=
  if negb (bool_decide (WifiReconnectServiceIn.code wifi_reconnect_service_in = Code.OK))
  then unbound_error_report "Wifi force reconnect failed"
  else
    assign_is_online false;;
    call went_offline [].
    (* No need for sync drift check, reconnect triggers NTP call again *)

(** The listener calls shared by [_attr_get_service_cb] and
    [_attr_push_event_cb]; [a] reads a field of the message. *)
Definition report_audio (a : string -> pyval) : M t unit :=
  call settings_audio [Kw "enable" (a "enable_audio"); Kw "url" (a "audio_url")];;
  (* Update cached values *)
  when (negb (pyval_is_None (a "enable_audio"))) (assign (set_settings_audio_enabled (a "enable_audio")));;
  when (negb (pyval_is_None (a "audio_url"))) (assign (set_settings_audio_file_url (a "audio_url"))).

Definition report_detection_settings (a : string -> pyval) : M t unit :=
  call settings_camera [
    Kw "feature_enabled" (a "enable_camera");
    Kw "enable" (a "camera_switch");
    Kw "aging_type" (a "camera_aging_type");
    Kw "night_vision" (a "night_vision");
    Kw "resolution" (a "resolution")];;
  call settings_recording [
    Kw "feature_enabled" (a "enable_video_record");
    Kw "enable" (a "video_record_switch");
    Kw "aging_type" (a "video_record_aging_type");
    Kw "mode" (a "video_record_mode")];;
  call settings_motion_detection [
    Kw "feature_enabled" (a "enable_motion_detection");
    Kw "enable" (a "motion_detection_switch");
    Kw "aging_type" (a "motion_detection_aging_type");
    Kw "range_" (a "motion_detection_range");
    Kw "sensitivity" (a "motion_detection_sensitivity")];;
  call settings_sound_detection [
    Kw "feature_enabled" (a "enable_sound_detection");
    Kw "enable" (a "sound_detection_switch");
    Kw "aging_type" (a "sound_detection_aging_type");
    Kw "sensitivity" (a "sound_detection_sensitivity")];;
  call settings_cloud_video_recording [Kw "enable" (a "cloud_video_record_switch")];;
  call settings_sound [
    Kw "feature_enabled" (a "enable_sound");
    Kw "enable" (a "sound_switch");
    Kw "aging_type" (a "sound_aging_type");
    Kw "volume" (a "volume")].

Definition report_state (a : string -> pyval) : M t unit :=
  call state_power [
    Kw "battery_level" (a "electric_quantity");
    Kw "mode" (a "power_mode");
    Kw "type_" (a "power_type")];;
  call state_food [
    Kw "motor_state" (a "motor_state");
    Kw "outlet_blocked" (py_not (a "grain_outlet_state"));
    Kw "low_fill_level" (py_not (a "surplus_grain"))].

Definition report_sd_card_and_video (a : string -> pyval) : M t unit :=
  call device_sd_card_info [
    Kw "state" (a "sd_card_state");
    Kw "file_system" (a "sd_card_file_system");
    Kw "total_capacity_mb" (a "sd_card_total_capacity");
    Kw "used_capacity_mb" (a "sd_card_used_capacity")];;
  call settings_feeding_video [
    Kw "enable" (a "feeding_video_switch");
    Kw "video_on_start_feeding_plan" (a "enable_video_start_feeding_plan");
    Kw "video_after_manual_feeding" (a "enable_video_after_manual_feeding");
    Kw "recording_length_before_feeding_plan_time" (a "before_feeding_plan_time");
    Kw "recording_length_after_manual_feeding_time" (a "after_manual_feeding_time");
    Kw "video_watermark" (a "video_watermark_switch");
    Kw "automatic_recording" (a "automatic_recording")];;
  call settings_buttons_auto_lock [
    Kw "enable" (a "auto_change_mode");
    Kw "threshold" (a "auto_threshold")].

Definition _attr_get_service_cb (attr_get_service_in : AttrGetServiceIn.t) : M t unit :=
  let a := AttrGetServiceIn.get attr_get_service_in in
  report_audio a;;
  report_detection_settings a;;
  call settings_button_lights [
    Kw "feature_enabled" (a "enable_light");
    Kw "enable" (a "light_switch");
    Kw "aging_type" (a "light_aging_type")];;
  report_state a;;
  call device_wifi_info [Kw "ssid" (a "wifi_ssid")];;
  report_sd_card_and_video a;;
  _device_timestamp_sync_drift_check_and_adjust (AttrGetServiceIn.timestamp attr_get_service_in).

Definition _attr_push_event_cb (attr_push_event_in : AttrPushEventIn.t) : M t unit :=
  let a := AttrPushEventIn.get attr_push_event_in in
  report_audio a;;
  report_detection_settings a;;
  call settings_button_lights [
    Kw "enable" (a "light_switch");
    Kw "aging_type" (a "light_aging_type")];;
  report_state a;;
  report_sd_card_and_video a;;
  attr_push_event_out ←
    AttrPushEventOut.create (AttrPushEventIn.message_id attr_push_event_in) Code.OK;
  send Client.attr_push_event_send attr_push_event_out;;
  _device_timestamp_sync_drift_check_and_adjust (AttrPushEventIn.timestamp attr_push_event_in).

Definition _attr_set_service_cb (attr_set_service_in : AttrSetServiceIn.t) : M t unit :=
  if negb (bool_decide (AttrSetServiceIn.code attr_set_service_in = Code.OK))
  then unbound_error_report "Updating device attribute(s) failed"
  else _device_timestamp_sync_drift_check_and_adjust (AttrSetServiceIn.timestamp attr_set_service_in).

Definition _get_config_cb (get_config_in : GetConfigIn.t) : M t unit :=
  call device_info [
    Kw "product_id" (VJson (GetConfigIn.product_id get_config_in));
    Kw "hardware_version" (VJson (GetConfigIn.hardware_version get_config_in));
    Kw "software_version" (VJson (GetConfigIn.software_version get_config_in))];;
  call device_wifi_info [Kw "mac_address" (VJson (GetConfigIn.mac_address get_config_in))];;
  _device_timestamp_sync_drift_check_and_adjust (GetConfigIn.timestamp get_config_in).

Definition _get_feeding_plan_event_cb (get_feeding_plan_event_in : GetFeedingPlanEventIn.t) : M t unit :=
  self ← get_self;
  let food_plans := food_plans self in
  timestamp_now ← Timestamp_now;
  let get_feeding_plans_out :=
    (fun food_plan =>
       GetFeedingPlanOut.mk
         (FoodPlan.id_ food_plan)
         (FoodPlan.execution_time food_plan)
         (FoodPlan.scheduled_days food_plan)
         (FoodPlan.enable_audio food_plan)
         (FoodPlan.play_audio_times food_plan)
         (FoodPlan.grain_num food_plan)
         timestamp_now
         JNull) <$> food_plans in
  let get_feeding_plan_event_out :=
    GetFeedingPlanEventOut.mk
      (GetFeedingPlanEventIn.message_id get_feeding_plan_event_in)
      timestamp_now
      Code.OK
      get_feeding_plans_out in
  send Client.get_feeding_plan_event_send get_feeding_plan_event_out;;
  _device_timestamp_sync_drift_check_and_adjust (GetFeedingPlanEventIn.timestamp get_feeding_plan_event_in).

Definition _manual_feeding_service_cb (manual_feeding_service_in : ManualFeedingServiceIn.t) : M t unit :=
  if negb (bool_decide (ManualFeedingServiceIn.code manual_feeding_service_in = Code.OK))
  then unbound_error_report "Manual feeding failed"
  else _device_timestamp_sync_drift_check_and_adjust (ManualFeedingServiceIn.timestamp manual_feeding_service_in).

Definition _feeding_plan_service_cb (feeding_plan_service_in : FeedingPlanServiceIn.t) : M t unit :=
  if negb (bool_decide (FeedingPlanServiceIn.code feeding_plan_service_in = Code.OK))
  then unbound_error_report "Configuring feeding plan failed"
  else _device_timestamp_sync_drift_check_and_adjust (FeedingPlanServiceIn.timestamp feeding_plan_service_in).

Definition _grain_output_event_cb (grain_output_event_in : GrainOutputEventIn.t) : M t unit :=
  let exec_step := GrainOutputEventIn.exec_step grain_output_event_in in
  (if bool_decide (exec_step = ExecStep.GRAIN_START)
   then
     call food_output_log_start [
       Pos (VGrainOutputType (GrainOutputEventIn.type_ grain_output_event_in));
       Pos (VInt (GrainOutputEventIn.expected_grain_num grain_output_event_in))];;
     call food_output_progress [Pos (VFoodOutputProgress FoodOutputProgress.RUNNING)]
   else if bool_decide (exec_step = ExecStep.GRAIN_BLOCKING)
   then call food_output_progress [Pos (VFoodOutputProgress FoodOutputProgress.BLOCKED)]
   else if bool_decide (exec_step = ExecStep.GRAIN_END)
   then
     call food_output_log_end [
       Pos (VGrainOutputType (GrainOutputEventIn.type_ grain_output_event_in));
       Pos (VInt (GrainOutputEventIn.actual_grain_num grain_output_event_in))];;
     when (negb (bool_decide (GrainOutputEventIn.expected_grain_num grain_output_event_in
                              = GrainOutputEventIn.actual_grain_num grain_output_event_in))) (
       _error_report ("Food output actual != expected: "
                      +:+ pretty (GrainOutputEventIn.actual_grain_num grain_output_event_in)
                      +:+ " != "
                      +:+ pretty (GrainOutputEventIn.expected_grain_num grain_output_event_in)));;
     call food_output_progress [Pos (VFoodOutputProgress FoodOutputProgress.IDLE)]
   else mret tt);;
  grain_output_event_out ←
    GrainOutputEventOut.create (GrainOutputEventIn.message_id grain_output_event_in) Code.OK exec_step;
  send Client.grain_output_event_send grain_output_event_out;;
  _device_timestamp_sync_drift_check_and_adjust (GrainOutputEventIn.timestamp grain_output_event_in).

(** The slots of the client after [initialize]: the handlers registered
    there; the detection and error event slots are left empty. *)
Definition client_callbacks : Client.callbacks t :=
  {| Client.heartbeat_callback := Some _heartbeat_cb;
     Client.attr_get_service_callback := Some _attr_get_service_cb;
     Client.attr_push_event_callback := Some _attr_push_event_cb;
     Client.detection_event_callback := None;
     Client.device_start_event_callback := Some _device_start_event_cb;
     Client.error_event_callback := None;
     Client.get_feeding_plan_event_callback := Some _get_feeding_plan_event_cb;
     Client.grain_output_event_callback := Some _grain_output_event_cb |}.

(** The state [initialize] leaves: no listener registered, offline, count 0,
    the heartbeat watchdog armed. *)
Definition initialize (device_serial mqtt_host : string) (mqtt_port : Z) (food_plans : list FoodPlan.t) : M t unit :=
  put_self
    {| mqtt_host := mqtt_host;
       mqtt_port := mqtt_port;
       food_plans := food_plans;
       device_serial := device_serial;
       client := Client.mk (MessageTopics.mk device_serial);
       heartbeat_watchdog := Watchdog.init "Heartbeat" HEARTBEAT_WATCHDOG_PERIOD_SEC;
       registered := fun _ => false;
       last_heartbeat_count := 0;
       is_online := false;
       ntp_sync_error := false;
       settings_audio_enabled := VBool false;
       settings_audio_file_url := VStr "" |};;
  on_heartbeat_watchdog Watchdog.reset;;
  on_heartbeat_watchdog Watchdog.trigger_listen.

(** *** The calls of the application

    An argument left out by the caller is [None]. *)

Definition settings_audio (enable file_url : pyval) : M t unit :=
  self ← get_self;
  attr_set_service_out ← AttrSetServiceOut.create [
    ("enable_audio", if negb (pyval_is_None enable) then enable else settings_audio_enabled self);
    ("audio_url", if negb (pyval_is_None file_url) then file_url else settings_audio_file_url self)];
  when (negb (pyval_is_None enable)) (assign (set_settings_audio_enabled enable));;
  when (negb (pyval_is_None file_url)) (assign (set_settings_audio_file_url file_url));;
  send Client.attr_set_service_send attr_set_service_out.

Definition settings_camera (enable aging_type night_vision resolution : pyval) : M t unit :=
  attr_set_service_out ← AttrSetServiceOut.create [
    ("camera_switch", enable);
    ("camera_aging_type", aging_type);
    ("night_vision", night_vision);
    ("resolution", resolution)];
  send Client.attr_set_service_send attr_set_service_out.

Definition settings_recording (enable aging_type mode : pyval) : M t unit :=
  attr_set_service_out ← AttrSetServiceOut.create [
    ("video_record_switch", enable);
    ("video_record_aging_type", aging_type);
    ("video_record_mode", mode)];
  send Client.attr_set_service_send attr_set_service_out.

Definition settings_sound (enable aging_type volume : pyval) : M t unit :=
  attr_set_service_out ← AttrSetServiceOut.create [
    ("sound_switch", enable);
    ("sound_aging_type", aging_type);
    ("volume", volume)];
  send Client.attr_set_service_send attr_set_service_out.

Definition settings_motion_detection (enable aging_type range_ sensitivity : pyval) : M t unit :=
  attr_set_service_out ← AttrSetServiceOut.create [
    ("motion_detection_switch", enable);
    ("motion_detection_aging_type", aging_type);
    ("motion_detection_range", range_);
    ("motion_detection_sensitivity", sensitivity)];
  send Client.attr_set_service_send attr_set_service_out.

Definition settings_sound_detection (enable aging_type sensitivity : pyval) : M t unit :=
  attr_set_service_out ← AttrSetServiceOut.create [
    ("sound_detection_switch", enable);
    ("sound_detection_aging_type", aging_type);
    ("sound_detection_sensitivity", sensitivity)];
  send Client.attr_set_service_send attr_set_service_out.

Definition settings_cloud_video_recording (enable : pyval) : M t unit :=
  attr_set_service_out ← AttrSetServiceOut.create [
    ("cloud_video_record_switch", enable)];
  send Client.attr_set_service_send attr_set_service_out.

Definition settings_button_lights (enable aging_type : pyval) : M t unit :=
  attr_set_service_out ← AttrSetServiceOut.create [
    ("light_switch", enable);
    ("light_aging_type", aging_type)];
  send Client.attr_set_service_send attr_set_service_out.

Definition settings_buttons_auto_lock (enable threshold : pyval) : M t unit :=
  attr_set_service_out ← AttrSetServiceOut.create [
    ("auto_change_mode", enable);
    ("auto_threshold", threshold)];
  send Client.attr_set_service_send attr_set_service_out.

Definition settings_feeding_video
    (enable video_on_start_feeding_plan video_after_manual_feeding
     recording_length_before_feeding_plan_time recording_length_after_manual_feeding_time
     video_watermark automatic_recording : pyval) : M t unit :=
  attr_set_service_out ← AttrSetServiceOut.create [
    ("feeding_video_switch", enable);
    ("enable_video_start_feeding_plan", video_on_start_feeding_plan);
    ("enable_video_after_manual_feeding", video_after_manual_feeding);
    ("before_feeding_plan_time", recording_length_before_feeding_plan_time);
    ("automatic_recording", automatic_recording);
    ("after_manual_feeding_time", recording_length_after_manual_feeding_time);
    ("video_watermark_switch", video_watermark)];
  send Client.attr_set_service_send attr_set_service_out.

Definition food_manual_feed_now (grain_num : json) : M t unit :=
  manual_feeding_service_out ← ManualFeedingServiceOut.create grain_num;
  send Client.manual_feeding_service_send manual_feeding_service_out.

Definition device_reboot : M t unit :=
  device_reboot_out ← DeviceRebootOut.create;
  send Client.device_reboot_send device_reboot_out.

Definition device_factory_reset : M t unit :=
  restore_out ← RestoreOut.create;
  send Client.restore_send restore_out.

Definition device_wifi_reconnect : M t unit :=
  wifi_reconnect_service_out ← WifiReconnectServiceOut.create;
  send Client.wifi_reconnect_service_send wifi_reconnect_service_out.

Definition device_sd_card_format : M t unit :=
  initialize_sd_card_service_out ← InitializeSdCardServiceOut.create;
  send Client.initialize_sd_card_service_send initialize_sd_card_service_out.
End Backend.

(** ** Inbound messages and their handlers

    The messages for which [Backend.initialize] registers a handler, and the
    handler the client calls for each. *)

Inductive inbound : Type :=
  | InHeartbeat (m : HeartbeatIn.t)
  | InNtp (m : NtpIn.t)
  | InNtpSync (m : NtpSyncIn.t)
  | InDeviceStartEvent (m : DeviceStartEventIn.t)
  | InDeviceReboot (m : DeviceRebootIn.t)
  | InRestore (m : RestoreIn.t)
  | InInitializeSdCardService (m : InitializeSdCardServiceIn.t)
  | InWifiReconnectService (m : WifiReconnectServiceIn.t)
  | InAttrGetService (m : AttrGetServiceIn.t)
  | InAttrPushEvent (m : AttrPushEventIn.t)
  | InAttrSetService (m : AttrSetServiceIn.t)
  | InGetConfig (m : GetConfigIn.t)
  | InGetFeedingPlanEvent (m : GetFeedingPlanEventIn.t)
  | InManualFeedingService (m : ManualFeedingServiceIn.t)
  | InFeedingPlanService (m : FeedingPlanServiceIn.t)
  | InGrainOutputEvent (m : GrainOutputEventIn.t).

Definition handle (m : inbound) : M Backend.t unit :=
  match m with
  | InHeartbeat m => Backend._heartbeat_cb m
  | InNtp m => Backend._ntp_cb m
  | InNtpSync m => Backend._ntp_sync_cb m
  | InDeviceStartEvent m => Backend._device_start_event_cb m
  | InDeviceReboot m => Backend._device_reboot_cb m
  | InRestore m => Backend._restore_cb m
  | InInitializeSdCardService m => Backend._initialize_sd_card_service_cb m
  | InWifiReconnectService m => Backend._wifi_reconnect_service_cb m
  | InAttrGetService m => Backend._attr_get_service_cb m
  | InAttrPushEvent m => Backend._attr_push_event_cb m
  | InAttrSetService m => Backend._attr_set_service_cb m
  | InGetConfig m => Backend._get_config_cb m
  | InGetFeedingPlanEvent m => Backend._get_feeding_plan_event_cb m
  | InManualFeedingService m => Backend._manual_feeding_service_cb m
  | InFeedingPlanService m => Backend._feeding_plan_service_cb m
  | InGrainOutputEvent m => Backend._grain_output_event_cb m
  end.

(** The device timestamp a message carries. *)
Definition device_timestamp (m : inbound) : Timestamp.t :=
  match m with
  | InHeartbeat m => HeartbeatIn.timestamp m
  | InNtp m => NtpIn.timestamp m
  | InNtpSync m => NtpSyncIn.timestamp m
  | InDeviceStartEvent m => DeviceStartEventIn.timestamp m
  | InDeviceReboot m => DeviceRebootIn.timestamp m
  | InRestore m => RestoreIn.timestamp m
  | InInitializeSdCardService m => InitializeSdCardServiceIn.timestamp m
  | InWifiReconnectService m => WifiReconnectServiceIn.timestamp m
  | InAttrGetService m => AttrGetServiceIn.timestamp m
  | InAttrPushEvent m => AttrPushEventIn.timestamp m
  | InAttrSetService m => AttrSetServiceIn.timestamp m
  | InGetConfig m => GetConfigIn.timestamp m
  | InGetFeedingPlanEvent m => GetFeedingPlanEventIn.timestamp m
  | InManualFeedingService m => ManualFeedingServiceIn.timestamp m
  | InFeedingPlanService m => FeedingPlanServiceIn.timestamp m
  | InGrainOutputEvent m => GrainOutputEventIn.timestamp m
  end.

(** The device reports success: the status of a reply is [OK], a device
    start event has [success] set.  Other messages report no status. *)
Definition reports_success (m : inbound) : bool :=
  match m with
  | InDeviceStartEvent m => py_eq_True (DeviceStartEventIn.success m)
  | InDeviceReboot m => bool_decide (DeviceRebootIn.code m = Code.OK)
  | InRestore m => bool_decide (RestoreIn.code m = Code.OK)
  | InInitializeSdCardService m => bool_decide (InitializeSdCardServiceIn.code m = Code.OK)
  | InWifiReconnectService m => bool_decide (WifiReconnectServiceIn.code m = Code.OK)
  | InAttrSetService m => bool_decide (AttrSetServiceIn.code m = Code.OK)
  | InManualFeedingService m => bool_decide (ManualFeedingServiceIn.code m = Code.OK)
  | InFeedingPlanService m => bool_decide (FeedingPlanServiceIn.code m = Code.OK)
  | _ => true
  end.

(** The messages whose handler checks the clock drift: all but the
    acknowledgements that take the session offline, and a heartbeat only
    while the session is offline. *)
Definition checks_drift (m : inbound) (b : Backend.t) : bool :=
  match m with
  | InHeartbeat _ => negb (Backend.is_online b)
  | InDeviceReboot _ | InRestore _ | InWifiReconnectService _ => false
  | _ => true
  end.

(** ** Observations on traces *)

Definition published (tr : list event) : list (string * dict) :=
  omap (fun e => match e with Publish topic payload => Some (topic, payload) | _ => None end) tr.

Definition drift_checks (tr : list event) : list (Timestamp.t * Timestamp.t) :=
  omap (fun e => match e with DriftCheck a b => Some (a, b) | _ => None end) tr.

Definition called (tr : list event) : list (listener * list arg) :=
  omap (fun e => match e with Callback l args => Some (l, args) | _ => None end) tr.

Definition is_callback (e : event) : Prop :=
  match e with
  | Callback _ _ => True
  | _ => False
  end.

(** An effect without the details of the payload: a published envelope is
    reduced to its topic, its [cmd] and its [msgId]. *)
Inductive effect : Type :=
  | Sent (topic : string) (cmd msgId : option json)
  | Called (l : listener) (args : list arg)
  | TimerCancelled (handle : option nat)
  | TimerStarted (period_sec : Z) (handle : nat)
  | IsOnline (b : bool)
  | DriftChecked (timestamp_backend timestamp_device : Timestamp.t).

Definition summary (e : event) : effect :=
  match e with
  | Publish topic payload => Sent topic (payload !! "cmd") (payload !! "msgId")
  | Callback l args => Called l args
  | CancelTimer h => TimerCancelled h
  | RunIn p h => TimerStarted p h
  | Assign_is_online b => IsOnline b
  | DriftCheck a b => DriftChecked a b
  end.

(** The timestamp [Timestamp.now()] returns at the [k]-th reading of the
    clock from [y] on. *)
Definition now_ts (y : Sys) (k : nat) : Timestamp.t :=
  let i := now_at y (k + clock_reads y)%nat in
  Timestamp.mk {| instant_us := i; utcoffset_s := tz_at y i |}.

(** The [k]-th message id generated from [y] on. *)
Definition fresh_id (y : Sys) (k : nat) : json := JStr (msgid_at y (k + ids_made y)%nat).

(** The timestamp [seconds] later, in the same zone. *)
Definition later (t : Timestamp.t) (seconds : Z) : Timestamp.t :=
  Timestamp.mk {| instant_us := instant_us (Timestamp.value t) + timedelta_seconds seconds;
                  utcoffset_s := utcoffset_s (Timestamp.value t) |}.

(** ** A concrete session

    The environment and the backend used where a statement is evaluated: the
    clock starts on 2023-11-14 22:13:20 UTC and advances by a millisecond per
    reading, the zone is UTC+1, device times outside the years 1970 to 2242
    are refused, every listener is registered as the application does. *)

Definition example_sys : Sys :=
  {| now_at := fun k => 1700000000000000 + 1000 * Z.of_nat k;
     tz_at := fun _ => 3600;
     fromtimestamp_at := fun _ => Raise ValueError;
     msgid_at := fun k => "generated-" +:+ pretty (Z.of_nat k);
     clock_reads := 0;
     ids_made := 0;
     timers_made := 1 |}.

Definition example_plan : FoodPlan.t :=
  {| FoodPlan.id_ := 1;
     FoodPlan.execution_time := HourMinTimestamp.mk {| hour := 8; minute := 30; tzinfo_s := 3600 |};
     FoodPlan.scheduled_days := WeekdaySchedule.mk [Weekday.MONDAY; Weekday.FRIDAY];
     FoodPlan.enable_audio := false;
     FoodPlan.play_audio_times := 0;
     FoodPlan.grain_num := 5 |}.

Definition example_backend (online : bool) (last_count : Z) : Backend.t :=
  {| Backend.mqtt_host := "broker";
     Backend.mqtt_port := 1883;
     Backend.food_plans := [example_plan];
     Backend.device_serial := "SN0001";
     Backend.client := Client.mk (MessageTopics.mk "SN0001");
     Backend.heartbeat_watchdog := Watchdog.mk "Heartbeat" Backend.HEARTBEAT_WATCHDOG_PERIOD_SEC (Some 0%nat) true;
     Backend.registered := fun _ => true;
     Backend.last_heartbeat_count := last_count;
     Backend.is_online := online;
     Backend.ntp_sync_error := false;
     Backend.settings_audio_enabled := VBool false;
     Backend.settings_audio_file_url := VStr "" |}.

(** A device time [ms] milliseconds after the start of the example clock. *)
Definition example_device_time (ms : Z) : Timestamp.t :=
  Timestamp.mk {| instant_us := 1700000000000000 + 1000 * ms; utcoffset_s := 3600 |}.

Definition example_heartbeat (count : Z) (timestamp : Timestamp.t) : HeartbeatIn.t :=
  {| HeartbeatIn.timestamp := timestamp;
     HeartbeatIn.count := count;
     HeartbeatIn.rssi := -52;
     HeartbeatIn.wifi_type := WifiType.TYPE_1 |}.

(** ** Auxiliary definitions of the statements *)

(** No plan of [rs] has the id of [fp]. *)
Definition no_match (h : store) (fp : FoodPlan.t) (rs : list ref) : Prop :=
  Forall (fun r => exists q, h !! r = Some q /\ FoodPlan.id_ q <> FoodPlan.id_ fp) rs.

(** A store of three plan objects: the plans of ids 1 and 2 of a set, and
    another plan of id 2. *)
Definition example_store : store :=
  {[ 1%positive := example_plan;
     2%positive := FoodPlan.mk 2 (FoodPlan.execution_time example_plan)
                     (WeekdaySchedule.mk [Weekday.SUNDAY]) true 3 2;
     3%positive := FoodPlan.mk 2 (FoodPlan.execution_time example_plan)
                     (WeekdaySchedule.mk [Weekday.SATURDAY]) false 0 1 ]}.

(** The envelopes of the resynchronization, as the offline branch of
    [_heartbeat_cb] publishes them from [y] on. *)
Definition resync_envelopes (y : Sys) (b : Backend.t) : list event :=
  let topics := Client.message_topics (Backend.client b) in
  [ Publish (MessageTopics.config_sub_get topics)
      (GetConfigOut.to_mqtt_payload (GetConfigOut.mk (MessageId.mk (fresh_id y 0)) (now_ts y 0)));
    Publish (MessageTopics.service_sub_get topics)
      (AttrGetServiceOut.to_mqtt_payload (AttrGetServiceOut.mk (MessageId.mk (fresh_id y 1)) (now_ts y 1)));
    Publish (MessageTopics.service_sub_get topics)
      (FeedingPlanServiceOut.to_mqtt_payload
         (FeedingPlanServiceOut.mk (MessageId.mk (fresh_id y 2)) (now_ts y 3)
            ((fun food_plan =>
                FeedingPlanOut.mk
                  (FoodPlan.id_ food_plan)
                  (FoodPlan.execution_time food_plan)
                  (FoodPlan.scheduled_days food_plan)
                  (FoodPlan.enable_audio food_plan)
                  (FoodPlan.play_audio_times food_plan)
                  (FoodPlan.grain_num food_plan)
                  (now_ts y 2)
                  JNull) <$> Backend.food_plans b))) ].

(** The call of the listener [l], when one is registered. *)
Definition if_registered (b : Backend.t) (l : listener) (args : list arg) : list event :=
  if Backend.registered b l then [Callback l args] else [].

(** The command tags of the envelopes published, in order. *)
Definition published_cmds (tr : list event) : list (option json) :=
  (fun tp => tp.2 !! "cmd") <$> published tr.

(** A correlation id as the device generates them. *)
Definition example_message_id : MessageId.t := MessageId.mk (JStr "0123456789abcdef0123456789abcdef").

(** The envelope of a device start event. *)
Definition device_start_payload (success : bool) : dict :=
  {[ "cmd" := JStr "DEVICE_START_EVENT";
     "msgId" := MessageId.data example_message_id;
     "ts" := JInt 1700000000000;
     "success" := JBool success;
     "pid" := JStr "PLAF203";
     "uuid" := JStr "0001";
     "mac" := JStr "00:11:22:33:44:55";
     "wpa3" := JInt 0;
     "hardwareVersion" := JStr "1.0.7";
     "softwareVersion" := JStr "3.0.14" ]}.

(** The envelope of an error event. *)
Definition error_event_payload : dict :=
  {[ "cmd" := JStr "ERROR_EVENT";
     "msgId" := MessageId.data example_message_id;
     "ts" := JInt 1700000000000;
     "errorCode" := JStr "MOTOR";
     "triggerTime" := JInt 1700000000000 ]}.

(** The backend after [report_audio]: the cached audio settings take the
    values of the message that are not [None]. *)
Definition audio_cached (a : string -> pyval) (b : Backend.t) : Backend.t :=
  let b1 :=
    if negb (pyval_is_None (a "enable_audio"))
    then Backend.set_settings_audio_enabled (a "enable_audio") b else b in
  if negb (pyval_is_None (a "audio_url"))
  then Backend.set_settings_audio_file_url (a "audio_url") b1 else b1.

(** The grain output event of a feed at [step]: [expected] portions asked
    for, [actual] delivered. *)
Definition example_grain_output (step : ExecStep.t) (expected actual : Z) : GrainOutputEventIn.t :=
  {| GrainOutputEventIn.message_id := example_message_id;
     GrainOutputEventIn.timestamp := example_device_time 0;
     GrainOutputEventIn.finished := JBool (bool_decide (step = ExecStep.GRAIN_END));
     GrainOutputEventIn.type_ := GrainOutputType.FEED_PLAN;
     GrainOutputEventIn.actual_grain_num := actual;
     GrainOutputEventIn.expected_grain_num := expected;
     GrainOutputEventIn.exec_time := example_device_time 0;
     GrainOutputEventIn.exec_step := step;
     GrainOutputEventIn.plan_id := JInt 1;
     GrainOutputEventIn.retried := JNull |}.

(** An attribute delta: the volume and the start of the camera schedule. *)
Definition attr_push_payload : dict :=
  {[ "cmd" := JStr "ATTR_PUSH_EVENT";
     "msgId" := MessageId.data example_message_id;
     "ts" := JInt 1700000000000;
     "volume" := JInt 40;
     "cameraStartTimeUtc" := JStr "08:30" ]}.

(** ** Auxiliary definitions of the further properties *)

(** A published envelope reduced to its topic, its command tag and its
    correlation id. *)
Definition envelope_of (tp : string * dict) : string * option json * option json :=
  (tp.1, tp.2 !! "cmd", tp.2 !! "msgId").

(** The envelopes published, in order. *)
Definition envelopes (tr : list event) : list (string * option json * option json) :=
  envelope_of <$> published tr.

(** The plan ids listed under [plans] in an envelope, in order. *)
Definition plan_ids (payload : dict) : list json :=
  match payload !! "plans" with
  | Some (JList plans) => omap (json_get "planId") plans
  | _ => []
  end.

(** The operations of a watchdog its owner can call. *)
Inductive watchdog_op : Type := WReset | WCancel.

Definition watchdog_do (op : watchdog_op) : M Watchdog.t unit :=
  match op with
  | WReset => Watchdog.reset
  | WCancel => Watchdog.cancel
  end.

(** The timers AppDaemon holds after the calls of a trace, [live] being the
    ones it held before: [run_in] adds one, [cancel_timer] removes the one it
    is given. *)
Definition live_timers (tr : list event) (live : list nat) : list nat :=
  foldl (fun live e =>
           match e with
           | RunIn _ h => live ++ [h]
           | CancelTimer (Some h) => filter (fun h' => h' <> h) live
           | _ => live
           end) live tr.

(** The execution time of a plan is a [datetime.time]: its hour and minute
    are in range. *)
Definition valid_time (p : FoodPlan.t) : Prop :=
  0 <= hour (HourMinTimestamp.time (FoodPlan.execution_time p)) <= 23
  /\ 0 <= minute (HourMinTimestamp.time (FoodPlan.execution_time p)) <= 59.

(** The plan [p] with the hour and minute of its execution time read in the
    zone of offset [tz]. *)
Definition in_zone (tz : Z) (p : FoodPlan.t) : FoodPlan.t :=
  FoodPlan.mk (FoodPlan.id_ p)
    (HourMinTimestamp.mk
       {| hour := hour (HourMinTimestamp.time (FoodPlan.execution_time p));
          minute := minute (HourMinTimestamp.time (FoodPlan.execution_time p));
          tzinfo_s := tz |})
    (FoodPlan.scheduled_days p) (FoodPlan.enable_audio p)
    (FoodPlan.play_audio_times p) (FoodPlan.grain_num p).

(** * Properties *)

(** ** Clock drift *)

Lemma drift_check_spec (timestamp_backend timestamp_device : Timestamp.t) :
  Backend._device_timestamp_sync_drift_check timestamp_backend timestamp_device = true
  <-> Z.abs (instant_us (Timestamp.value timestamp_backend)
             - instant_us (Timestamp.value timestamp_device)) < 10 * 1000000.
Proof.
  unfold Backend._device_timestamp_sync_drift_check, Timestamp.abs_delta,
    timedelta_seconds, Backend.NTP_SYNC_TIME_DIFF_THRESHOLD_SEC.
  rewrite bool_decide_eq_true. reflexivity.
Qed.

(** C5: the drift check accepts a pair of times exactly when they are less
    than 10 seconds apart; a time agrees with itself and with the time 9
    seconds later, and not with the time 11 seconds later. *)
Theorem C5_drift_check_threshold :
  (forall timestamp_backend timestamp_device : Timestamp.t,
     Backend._device_timestamp_sync_drift_check timestamp_backend timestamp_device = true
     <-> Z.abs (instant_us (Timestamp.value timestamp_backend)
                - instant_us (Timestamp.value timestamp_device)) < 10 * 1000000)
  /\ (forall t : Timestamp.t,
        Backend._device_timestamp_sync_drift_check t t = true
        /\ Backend._device_timestamp_sync_drift_check t (later t 9) = true
        /\ Backend._device_timestamp_sync_drift_check t (later t 11) = false).
Proof.
  split; [exact drift_check_spec |].
  intros t. repeat split.
  - apply drift_check_spec. lia.
  - apply drift_check_spec. unfold later, timedelta_seconds. cbn. lia.
  - apply not_true_is_false. rewrite drift_check_spec.
    unfold later, timedelta_seconds. cbn. lia.
Qed.

(** ** Weekday schedules *)

Lemma to_mqtt_payload_value_length (ws : WeekdaySchedule.t) :
  length (WeekdaySchedule.to_mqtt_payload_value ws)
  = Nat.max 7 (length (WeekdaySchedule.value ws)).
Proof.
  unfold WeekdaySchedule.to_mqtt_payload_value.
  rewrite length_app, length_replicate, length_fmap. lia.
Qed.

(** A schedule whose collection has at most 7 entries is encoded as exactly
    7 integers, the values of its entries followed by zeros.  That is the
    case of every set of at most 7 weekdays, which is what the field is
    declared to hold and what [create] stores. *)
Lemma to_mqtt_payload_value_seven (ws : WeekdaySchedule.t) :
  (length (WeekdaySchedule.value ws) <= 7)%nat ->
  WeekdaySchedule.to_mqtt_payload_value ws
  = (Weekday.value <$> WeekdaySchedule.value ws)
    ++ replicate (7 - length (WeekdaySchedule.value ws)) 0
  /\ length (WeekdaySchedule.to_mqtt_payload_value ws) = 7%nat.
Proof.
  intros Hlen. split.
  - unfold WeekdaySchedule.to_mqtt_payload_value. rewrite length_fmap.
    f_equal. f_equal. lia.
  - rewrite to_mqtt_payload_value_length. lia.
Qed.

(** C10: the code does not do what the claim says.  [from_list] stores the
    list it builds in the field declared as a set, so that repeated names
    are kept: the schedule built from eight times ["MONDAY"] contains one
    distinct weekday, and [to_mqtt_payload_value] returns eight integers for
    it, not seven. *)
Theorem C10_from_list_schedule_not_seven :
  let ws := WeekdaySchedule.mk (replicate 8 Weekday.MONDAY) in
  WeekdaySchedule.from_list (replicate 8 (JStr "MONDAY")) = Ok ws
  /\ remove_dups (WeekdaySchedule.value ws) = [Weekday.MONDAY]
  /\ WeekdaySchedule.to_mqtt_payload_value ws = [1; 1; 1; 1; 1; 1; 1; 1]
  /\ length (WeekdaySchedule.to_mqtt_payload_value ws) <> 7%nat.
Proof. vm_compute. repeat split. discriminate. Qed.

(** ** Food plans *)

Lemma FoodPlan_set_eq (self other : FoodPlan.t) : FoodPlan.set self other = other.
Proof. destruct other. reflexivity. Qed.

Lemma plan_set_loop_no_match (h : store) (food_plan : ref) (fp : FoodPlan.t) (rs : list ref) :
  h !! food_plan = Some fp ->
  no_match h fp rs ->
  FoodPlans.plan_set_loop rs food_plan h = Some (false, h).
Proof.
  intros Hfp. induction 1 as [| r rs (q & Hq & Hne) _ IH]; [reflexivity |].
  cbn. rewrite Hq, Hfp. cbn. rewrite bool_decide_false by exact Hne. exact IH.
Qed.

Lemma plan_set_loop_match (h : store) (food_plan : ref) (fp p : FoodPlan.t)
    (before after : list ref) (plan : ref) :
  h !! food_plan = Some fp ->
  no_match h fp before ->
  h !! plan = Some p ->
  FoodPlan.id_ p = FoodPlan.id_ fp ->
  FoodPlans.plan_set_loop (before ++ plan :: after) food_plan h = Some (true, <[plan := fp]> h).
Proof.
  intros Hfp Hbefore Hp Hid.
  induction Hbefore as [| r rs (q & Hq & Hne) _ IH]; cbn.
  - rewrite Hp, Hfp. cbn. rewrite bool_decide_true by exact Hid.
    rewrite FoodPlan_set_eq. reflexivity.
  - rewrite Hq, Hfp. cbn. rewrite bool_decide_false by exact Hne. exact IH.
Qed.

(** The stored plans either contain a first plan with the id of [fp] or
    none. *)
Lemma first_match_or_none (h : store) (fp : FoodPlan.t) (rs : list ref) :
  well_formed h rs ->
  no_match h fp rs
  \/ exists before plan p after,
       rs = before ++ plan :: after /\ no_match h fp before
       /\ h !! plan = Some p /\ FoodPlan.id_ p = FoodPlan.id_ fp.
Proof.
  induction 1 as [| r rs [q Hq] _ IH].
  - left. constructor.
  - destruct (decide (FoodPlan.id_ q = FoodPlan.id_ fp)) as [Heq | Hne].
    + right. exists [], r, q, rs. repeat split; [constructor | exact Hq | exact Heq].
    + destruct IH as [Hnone | (before & plan & p & after & -> & Hb & Hp & Hid)].
      * left. constructor; [exists q; split; assumption | exact Hnone].
      * right. exists (r :: before), plan, p, after.
        repeat split; [| exact Hp | exact Hid].
        constructor; [exists q; split; assumption | exact Hb].
Qed.

Lemma no_match_insert (h : store) (fp p : FoodPlan.t) (plan : ref) (rs : list ref) :
  h !! plan = Some p ->
  FoodPlan.id_ p = FoodPlan.id_ fp ->
  no_match h fp rs ->
  no_match (<[plan := fp]> h) fp rs.
Proof.
  intros Hp Hid Hn. eapply Forall_impl; [exact Hn |]. intros r (q & Hq & Hne).
  exists q. split; [| exact Hne].
  rewrite lookup_insert_ne; [exact Hq |].
  intros ->. rewrite Hp in Hq. injection Hq as <-. contradiction.
Qed.

(** C9: [plan_set] is keyed by the plan id.  When a stored plan has the id
    of the given plan, the first such plan takes the fields of the given
    plan, in place: the set holds the same objects.  Otherwise the given
    plan is appended.  Applying a plan with the same fields again changes
    neither the set nor the store, hence not what the set contains. *)
Theorem C9_plan_set_keyed_by_id
    (self : FoodPlans.t) (food_plan : ref) (fp : FoodPlan.t) (h : store) :
  well_formed h (FoodPlans.plans self) ->
  h !! food_plan = Some fp ->
  (forall before plan p after,
      FoodPlans.plans self = before ++ plan :: after ->
      no_match h fp before ->
      h !! plan = Some p ->
      FoodPlan.id_ p = FoodPlan.id_ fp ->
      FoodPlans.plan_set self food_plan h = Some (self, <[plan := fp]> h))
  /\ (no_match h fp (FoodPlans.plans self) ->
      FoodPlans.plan_set self food_plan h
      = Some (FoodPlans.mk (FoodPlans.plans self ++ [food_plan]), h))
  /\ exists self' h',
       FoodPlans.plan_set self food_plan h = Some (self', h')
       /\ forall again : ref,
            h' !! again = Some fp ->
            FoodPlans.plan_set self' again h' = Some (self', h').
Proof.
  intros Hwf Hfp. destruct self as [rs]. cbn in *.
  assert (Hmatch : forall before plan p after,
             rs = before ++ plan :: after -> no_match h fp before ->
             h !! plan = Some p -> FoodPlan.id_ p = FoodPlan.id_ fp ->
             FoodPlans.plan_set (FoodPlans.mk rs) food_plan h
             = Some (FoodPlans.mk rs, <[plan := fp]> h)).
  { intros before plan p after -> Hb Hp Hid. unfold FoodPlans.plan_set. cbn.
    rewrite (plan_set_loop_match h food_plan fp p before after plan) by assumption.
    reflexivity. }
  assert (Hnone : no_match h fp rs ->
             FoodPlans.plan_set (FoodPlans.mk rs) food_plan h
             = Some (FoodPlans.mk (rs ++ [food_plan]), h)).
  { intros Hn. unfold FoodPlans.plan_set. cbn.
    rewrite (plan_set_loop_no_match h food_plan fp rs) by assumption. reflexivity. }
  split; [exact Hmatch |]. split; [exact Hnone |].
  destruct (first_match_or_none h fp rs Hwf)
    as [Hn | (before & plan & p & after & Hrs & Hb & Hp & Hid)].
  - exists (FoodPlans.mk (rs ++ [food_plan])), h. split; [exact (Hnone Hn) |].
    intros again Hagain.
    unfold FoodPlans.plan_set. cbn.
    rewrite (plan_set_loop_match h again fp fp rs [] food_plan) by (assumption || reflexivity).
    rewrite insert_id by exact Hfp. reflexivity.
  - exists (FoodPlans.mk rs), (<[plan := fp]> h).
    split; [exact (Hmatch before plan p after Hrs Hb Hp Hid) |].
    intros again Hagain.
    unfold FoodPlans.plan_set. cbn. rewrite Hrs.
    rewrite (plan_set_loop_match (<[plan := fp]> h) again fp fp before after plan).
    + rewrite insert_insert_eq. reflexivity.
    + exact Hagain.
    + exact (no_match_insert h fp p plan before Hp Hid Hb).
    + apply lookup_insert_eq.
    + reflexivity.
Qed.

(** C9 at a set of two plans, with ids 1 and 2, given a third plan object
    with id 2: the second stored plan takes its fields. *)
Lemma C9_plan_set_keyed_by_id_witness :
  well_formed example_store [1%positive; 2%positive]
  /\ example_store !! 3%positive
     = Some (FoodPlan.mk 2 (FoodPlan.execution_time example_plan)
               (WeekdaySchedule.mk [Weekday.SATURDAY]) false 0 1)
  /\ FoodPlans.plan_set (FoodPlans.mk [1%positive; 2%positive]) 3%positive example_store
     = Some (FoodPlans.mk [1%positive; 2%positive],
             <[2%positive := FoodPlan.mk 2 (FoodPlan.execution_time example_plan)
                               (WeekdaySchedule.mk [Weekday.SATURDAY]) false 0 1]> example_store).
Proof.
  assert (Hwf : well_formed example_store [1%positive; 2%positive])
    by (repeat constructor; eexists; vm_compute; reflexivity).
  split; [exact Hwf |]. split; [vm_compute; reflexivity |].
  refine (proj1 (C9_plan_set_keyed_by_id
                   (FoodPlans.mk [1%positive; 2%positive]) 3%positive _ example_store Hwf _)
            [1%positive] 2%positive _ [] _ _ _ _).
  - vm_compute. reflexivity.
  - reflexivity.
  - repeat constructor. eexists. split; [vm_compute; reflexivity | vm_compute; discriminate].
  - vm_compute. reflexivity.
  - reflexivity.
Defined.

(** ** Running engine code

    Equations for the monad, and a tactic that runs a computation step by
    step: [run_tac] solves a goal [m y s = ?x] by instantiating [?x] with the
    run of [m]. *)

Lemma bind_ok {S A B : Type} (m : M S A) (f : A -> M S B) y s a y1 s1 t1 r y2 s2 t2 :
  m y s = Run (Ok a) y1 s1 t1 ->
  f a y1 s1 = Run r y2 s2 t2 ->
  M_bind m f y s = Run r y2 s2 (t1 ++ t2).
Proof. intros H1 H2. unfold M_bind. rewrite H1. cbn. rewrite H2. reflexivity. Qed.

Lemma bind_raise {S A B : Type} (m : M S A) (f : A -> M S B) y s e y1 s1 t1 :
  m y s = Run (Raise e) y1 s1 t1 ->
  M_bind m f y s = Run (Raise e) y1 s1 t1.
Proof. intros H1. unfold M_bind. rewrite H1. reflexivity. Qed.

Lemma when_run {S : Type} (c : bool) (body : M S unit) y s y1 s1 tr :
  body y s = Run (Ok tt) y1 s1 tr ->
  when c body y s = Run (Ok tt) (if c then y1 else y) (if c then s1 else s) (if c then tr else []).
Proof. intros H. destruct c; cbn; [exact H | reflexivity]. Qed.

Lemma when_run_quiet {S : Type} (c : bool) (body : M S unit) y s tr :
  body y s = Run (Ok tt) y s tr ->
  when c body y s = Run (Ok tt) y s (if c then tr else []).
Proof. intros H. destruct c; cbn; [exact H | reflexivity]. Qed.

Lemma zoom_run {S T A : Type} (get : S -> T) (set : T -> S -> S) (m : M T A) y s r y1 t1 tr :
  m y (get s) = Run r y1 t1 tr ->
  zoom get set m y s = Run r y1 (set t1 s) tr.
Proof. intros H. unfold zoom. rewrite H. reflexivity. Qed.

Lemma call_run (l : listener) (args : list arg) (y : Sys) (b : Backend.t) :
  Backend.call l args y b
  = Run (Ok tt) y b (if Backend.registered b l then [Callback l args] else []).
Proof.
  unfold Backend.call, M_bind, get_self, when. cbn.
  destruct (Backend.registered b l); reflexivity.
Qed.

Arguments M_bind : simpl never.
Arguments when : simpl never.
Arguments zoom : simpl never.
Arguments Backend.call : simpl never.
Arguments Backend._device_timestamp_sync_drift_check : simpl never.
Arguments NtpOut.to_mqtt_payload : simpl never.
Arguments NtpSyncOut.to_mqtt_payload : simpl never.
Arguments DeviceStartEventOut.to_mqtt_payload : simpl never.
Arguments GrainOutputEventOut.to_mqtt_payload : simpl never.
Arguments AttrPushEventOut.to_mqtt_payload : simpl never.
Arguments FeedingPlanServiceOut.to_mqtt_payload : simpl never.
Arguments GetFeedingPlanEventOut.to_mqtt_payload : simpl never.
Arguments GetConfigOut.to_mqtt_payload : simpl never.
Arguments AttrGetServiceOut.to_mqtt_payload : simpl never.
Arguments MessageTopics.ntp_sub_get : simpl never.
Arguments MessageTopics.config_sub_get : simpl never.
Arguments MessageTopics.event_sub_get : simpl never.
Arguments MessageTopics.service_sub_get : simpl never.
Arguments pretty : simpl never.
Arguments Backend.set_food_plans _ _ /.
Arguments Backend.set_heartbeat_watchdog _ _ /.
Arguments Backend.set_registered _ _ /.
Arguments Backend.set_last_heartbeat_count _ _ /.
Arguments Backend.set_is_online _ _ /.
Arguments Backend.set_settings_audio_enabled _ _ /.
Arguments Backend.set_settings_audio_file_url _ _ /.
Arguments Watchdog.set_handle _ _ /.
Arguments Sys_tick_clock _ /.
Arguments Sys_tick_ids _ /.
Arguments Sys_tick_timers _ /.

Ltac head_of t :=
  lazymatch t with
  | ?f _ => head_of f
  | _ => t
  end.

Ltac run_tac :=
  cbn;
  lazymatch goal with
  | |- M_bind _ _ _ _ = _ =>
      first [ eapply bind_ok; [ run_tac | run_tac ]
            | eapply bind_raise; run_tac ]
  | |- Backend.call _ _ _ _ = _ => apply call_run
  | |- when _ _ _ _ = _ =>
      first [ eapply when_run_quiet; run_tac | eapply when_run; run_tac ]
  | |- zoom _ _ _ _ _ = _ => eapply zoom_run; run_tac
  | |- Run _ _ _ _ = _ => reflexivity
  | |- (if _ then _ else _) _ _ = _ =>
      match goal with H : _ = _ |- _ => rewrite H; run_tac end
  | |- ?lhs = _ => let h := head_of lhs in progress unfold h; run_tac
  end.

(** [run_eq] proves [m y s = x] for a given [x]. *)
Ltac rewrite_hyps :=
  repeat match goal with
         | H : _ = true |- _ => rewrite H
         | H : _ = false |- _ => rewrite H
         end.

Ltac run_eq := etransitivity; [ run_tac | cbn; rewrite_hyps; cbn; try reflexivity ].

Lemma drift_check_and_adjust_run (timestamp_device : Timestamp.t) (y : Sys) (b : Backend.t) :
  Backend._device_timestamp_sync_drift_check_and_adjust timestamp_device y b
  = if Backend._device_timestamp_sync_drift_check (now_ts y 0) timestamp_device
    then Run (Ok tt) (Sys_tick_clock y) b [DriftCheck (now_ts y 0) timestamp_device]
    else Run (Ok tt) (Sys_tick_clock (Sys_tick_ids (Sys_tick_clock y))) b
           [DriftCheck (now_ts y 0) timestamp_device;
            Publish (MessageTopics.ntp_sub_get (Client.message_topics (Backend.client b)))
              (NtpSyncOut.to_mqtt_payload (NtpSyncOut.mk (MessageId.mk (fresh_id y 0)) (now_ts y 1)))].
Proof.
  unfold Backend._device_timestamp_sync_drift_check_and_adjust, now_ts, fresh_id. cbn.
  destruct (Backend._device_timestamp_sync_drift_check _ _) eqn:Hok; run_eq.
Qed.

(** ** Heartbeats *)

Lemma heartbeat_offline_events (heartbeat_in : HeartbeatIn.t) (y : Sys) (b : Backend.t) :
  Backend.is_online b = false ->
  exists rest,
    events (Backend._heartbeat_cb heartbeat_in y b)
    = (if bool_decide (HeartbeatIn.count heartbeat_in < Backend.last_heartbeat_count b)
       then if_registered b went_offline [] else [])
      ++ resync_envelopes y b
      ++ [Assign_is_online true]
      ++ if_registered b went_online []
      ++ rest
    /\ Backend.is_online (self_of (Backend._heartbeat_cb heartbeat_in y b)) = true.
Proof.
  intros Hoff.
  destruct (Backend._device_timestamp_sync_drift_check (now_ts y 4) (HeartbeatIn.timestamp heartbeat_in))
    eqn:Hok; unfold now_ts in Hok; cbn in Hok.
  all: eassert (Hrun : Backend._heartbeat_cb heartbeat_in y b = _);
    [ unfold Backend._heartbeat_cb; run_tac | rewrite Hrun; clear Hrun ].
  all: eexists; split; [| reflexivity].
  all: unfold resync_envelopes, if_registered, now_ts, fresh_id; cbn;
    rewrite <- ?app_assoc; cbn; reflexivity.
Qed.

(** ** Envelopes: the command tag and the correlation id of each encoder *)

Ltac envelope := intros; split; reflexivity.

Lemma NtpOut_envelope (out : NtpOut.t) :
  NtpOut.to_mqtt_payload out !! "cmd" = Some (JStr "NTP")
  /\ NtpOut.to_mqtt_payload out !! "msgId" = None.
Proof. envelope. Qed.

Lemma NtpSyncOut_envelope (out : NtpSyncOut.t) :
  NtpSyncOut.to_mqtt_payload out !! "cmd" = Some (JStr "NTP_SYNC")
  /\ NtpSyncOut.to_mqtt_payload out !! "msgId" = Some (MessageId.data (NtpSyncOut.message_id out)).
Proof. envelope. Qed.

Lemma DeviceStartEventOut_envelope (out : DeviceStartEventOut.t) :
  DeviceStartEventOut.to_mqtt_payload out !! "cmd" = Some (JStr "DEVICE_START_EVENT")
  /\ DeviceStartEventOut.to_mqtt_payload out !! "msgId"
     = Some (MessageId.data (DeviceStartEventOut.message_id out)).
Proof. envelope. Qed.

Lemma GrainOutputEventOut_envelope (out : GrainOutputEventOut.t) :
  GrainOutputEventOut.to_mqtt_payload out !! "cmd" = Some (JStr "GRAIN_OUTPUT_EVENT")
  /\ GrainOutputEventOut.to_mqtt_payload out !! "msgId"
     = Some (MessageId.data (GrainOutputEventOut.message_id out)).
Proof. envelope. Qed.

Lemma AttrPushEventOut_envelope (out : AttrPushEventOut.t) :
  AttrPushEventOut.to_mqtt_payload out !! "cmd" = Some (JStr "ATTR_PUSH_EVENT")
  /\ AttrPushEventOut.to_mqtt_payload out !! "msgId"
     = Some (MessageId.data (AttrPushEventOut.message_id out)).
Proof. envelope. Qed.

Lemma FeedingPlanServiceOut_envelope (out : FeedingPlanServiceOut.t) :
  FeedingPlanServiceOut.to_mqtt_payload out !! "cmd" = Some (JStr "FEEDING_PLAN_SERVICE")
  /\ FeedingPlanServiceOut.to_mqtt_payload out !! "msgId"
     = Some (MessageId.data (FeedingPlanServiceOut.message_id out)).
Proof. envelope. Qed.

Lemma GetFeedingPlanEventOut_envelope (out : GetFeedingPlanEventOut.t) :
  GetFeedingPlanEventOut.to_mqtt_payload out !! "cmd" = Some (JStr "GET_FEEDING_PLAN_EVENT")
  /\ GetFeedingPlanEventOut.to_mqtt_payload out !! "msgId"
     = Some (MessageId.data (GetFeedingPlanEventOut.message_id out)).
Proof. envelope. Qed.

Lemma GetConfigOut_envelope (out : GetConfigOut.t) :
  GetConfigOut.to_mqtt_payload out !! "cmd" = Some (JStr "GET_CONFIG")
  /\ GetConfigOut.to_mqtt_payload out !! "msgId" = Some (MessageId.data (GetConfigOut.message_id out)).
Proof. envelope. Qed.

Lemma AttrGetServiceOut_envelope (out : AttrGetServiceOut.t) :
  AttrGetServiceOut.to_mqtt_payload out !! "cmd" = Some (JStr "ATTR_GET_SERVICE")
  /\ AttrGetServiceOut.to_mqtt_payload out !! "msgId"
     = Some (MessageId.data (AttrGetServiceOut.message_id out)).
Proof. envelope. Qed.

Lemma summary_if_registered (b : Backend.t) (l : listener) (args : list arg) :
  summary <$> if_registered b l args
  = if Backend.registered b l then [Called l args] else [].
Proof. unfold if_registered. destruct (Backend.registered b l); reflexivity. Qed.

(** C3, as stated, fails: on a heartbeat with count 41 received while
    offline, the first request published is the config read, the attribute
    read comes second. *)
Lemma C3_counterexample :
  let x := Backend._heartbeat_cb (example_heartbeat 41 (example_device_time 0))
             example_sys (example_backend false 0) in
  published_cmds (events x)
  = [Some (JStr "GET_CONFIG"); Some (JStr "ATTR_GET_SERVICE"); Some (JStr "FEEDING_PLAN_SERVICE")]
  /\ published_cmds (events x)
     <> [Some (JStr "ATTR_GET_SERVICE"); Some (JStr "GET_CONFIG"); Some (JStr "FEEDING_PLAN_SERVICE")].
Proof. vm_compute. split; [reflexivity | discriminate]. Qed.

(** C3, amended: on a heartbeat received while offline the engine publishes
    the config read request, then the attribute read request, then the
    feeding plan push, which lists every plan the backend holds with all its
    fields, then sets the online flag, then notifies the went-online
    listener.  Only the went-offline listener can be called before the first
    request (when the count went down). *)
Theorem C3_offline_heartbeat_resync (heartbeat_in : HeartbeatIn.t) (y : Sys) (b : Backend.t) :
  Backend.is_online b = false ->
  let x := Backend._heartbeat_cb heartbeat_in y b in
  let topics := Client.message_topics (Backend.client b) in
  let ts k := JInt (Timestamp.to_timestamp_epoch_ms (now_ts y k)) in
  exists after,
    events x
    = (if bool_decide (HeartbeatIn.count heartbeat_in < Backend.last_heartbeat_count b)
       then if_registered b went_offline []
       else [])
      ++ [ Publish (MessageTopics.config_sub_get topics)
             {[ "cmd" := JStr "GET_CONFIG";
                "msgId" := fresh_id y 0;
                "ts" := ts 0%nat ]};
           Publish (MessageTopics.service_sub_get topics)
             {[ "cmd" := JStr "ATTR_GET_SERVICE";
                "msgId" := fresh_id y 1;
                "ts" := ts 1%nat ]};
           Publish (MessageTopics.service_sub_get topics)
             {[ "cmd" := JStr "FEEDING_PLAN_SERVICE";
                "msgId" := fresh_id y 2;
                "ts" := ts 3%nat;
                "plans" :=
                  JList
                    ((fun food_plan =>
                        JObj [
                          ("planId", JInt (FoodPlan.id_ food_plan));
                          ("executionTime",
                           JStr (HourMinTimestamp.to_mqtt_payload_value
                                   (FoodPlan.execution_time food_plan)));
                          ("repeatDay",
                           JList (JInt <$> WeekdaySchedule.to_mqtt_payload_value
                                             (FoodPlan.scheduled_days food_plan)));
                          ("enableAudio", JBool (FoodPlan.enable_audio food_plan));
                          ("audioTimes", JInt (FoodPlan.play_audio_times food_plan));
                          ("grainNum", JInt (FoodPlan.grain_num food_plan));
                          ("syncTime", ts 2%nat);
                          ("skipEndTime", JNull)
                        ]) <$> Backend.food_plans b) ]};
           Assign_is_online true ]
      ++ if_registered b went_online []
      ++ after
    /\ Backend.is_online (self_of x) = true.
Proof.
  intros Hoff x topics ts.
  destruct (heartbeat_offline_events heartbeat_in y b Hoff) as (rest & Hev & Hon).
  exists rest. split; [| exact Hon].
  subst x. rewrite Hev. f_equal.
  unfold resync_envelopes, FeedingPlanServiceOut.to_mqtt_payload.
  cbn [FeedingPlanServiceOut.plans].
  rewrite <- list_fmap_compose.
  reflexivity.
Qed.

(** C3, amended, at a heartbeat with count 41 for a backend that holds one
    plan: 08:30 in the zone UTC+1 on Mondays and Fridays, 5 portions. *)
Lemma C3_offline_heartbeat_resync_witness :
  Backend.is_online (example_backend false 0) = false
  /\ exists after,
       events (Backend._heartbeat_cb (example_heartbeat 41 (example_device_time 0))
                 example_sys (example_backend false 0))
       = [ Publish "dl/PLAF203/SN0001/device/config/sub"
             {[ "cmd" := JStr "GET_CONFIG";
                "msgId" := JStr "generated-0";
                "ts" := JInt 1700000000000 ]};
           Publish "dl/PLAF203/SN0001/device/service/sub"
             {[ "cmd" := JStr "ATTR_GET_SERVICE";
                "msgId" := JStr "generated-1";
                "ts" := JInt 1700000000000 ]};
           Publish "dl/PLAF203/SN0001/device/service/sub"
             {[ "cmd" := JStr "FEEDING_PLAN_SERVICE";
                "msgId" := JStr "generated-2";
                "ts" := JInt 1700000000000;
                "plans" :=
                  JList [
                    JObj [
                      ("planId", JInt 1);
                      ("executionTime", JStr "07:30");
                      ("repeatDay", JList [JInt 1; JInt 5; JInt 0; JInt 0; JInt 0; JInt 0; JInt 0]);
                      ("enableAudio", JBool false);
                      ("audioTimes", JInt 0);
                      ("grainNum", JInt 5);
                      ("syncTime", JInt 1700000000000);
                      ("skipEndTime", JNull)
                    ]
                  ] ]};
           Assign_is_online true;
           Callback went_online [] ] ++ after.
Proof.
  split; [reflexivity |].
  destruct (C3_offline_heartbeat_resync (example_heartbeat 41 (example_device_time 0))
              example_sys (example_backend false 0) eq_refl) as (after & Hev & _).
  exists after. exact Hev.
Defined.

Lemma heartbeat_online_run (heartbeat_in : HeartbeatIn.t) (y : Sys) (b : Backend.t) :
  Backend.is_online b = true ->
  let x := Backend._heartbeat_cb heartbeat_in y b in
  outcome x = Ok tt
  /\ Backend.is_online (self_of x) = true
  /\ events x
     = (if bool_decide (HeartbeatIn.count heartbeat_in < Backend.last_heartbeat_count b)
        then if_registered b went_offline [] else [])
       ++ [ Publish (MessageTopics.service_sub_get (Client.message_topics (Backend.client b)))
              (AttrGetServiceOut.to_mqtt_payload
                 (AttrGetServiceOut.mk (MessageId.mk (fresh_id y 0)) (now_ts y 0)));
            CancelTimer (Watchdog.handle (Backend.heartbeat_watchdog b));
            RunIn (Watchdog.period_sec (Backend.heartbeat_watchdog b)) (timers_made y) ].
Proof.
  intros Hon x. subst x.
  eassert (Hrun : Backend._heartbeat_cb heartbeat_in y b = _);
    [ unfold Backend._heartbeat_cb; run_tac | rewrite Hrun; clear Hrun ].
  cbn. repeat split.
Qed.

(** C2: the code does not do what the claim says.  With the session online
    and 52 as the last count, a heartbeat with count 3 calls the went-offline
    listener, but the online flag stays set: no assignment to it takes place,
    and the handler goes on as for any heartbeat of an online session. *)
Theorem C2_count_drop_leaves_online_flag :
  let x := Backend._heartbeat_cb (example_heartbeat 3 (example_device_time 0))
             example_sys (example_backend true 52) in
  outcome x = Ok tt
  /\ Backend.is_online (self_of x) = true
  /\ summary <$> events x
     = [ Called went_offline [];
         Sent "dl/PLAF203/SN0001/device/service/sub" (Some (JStr "ATTR_GET_SERVICE")) (Some (JStr "generated-0"));
         TimerCancelled (Some 0%nat);
         TimerStarted 81 1 ].
Proof. vm_compute. repeat split. Qed.

(** No heartbeat leaves the session offline. *)
Lemma heartbeat_never_leaves_offline (heartbeat_in : HeartbeatIn.t) (y : Sys) (b : Backend.t) :
  Backend.is_online (self_of (Backend._heartbeat_cb heartbeat_in y b)) = true
  /\ ~ In (Assign_is_online false) (events (Backend._heartbeat_cb heartbeat_in y b)).
Proof.
  destruct (Backend.is_online b) eqn:Hon.
  - destruct (heartbeat_online_run heartbeat_in y b Hon) as (_ & Hflag & Hev).
    split; [exact Hflag |]. rewrite Hev. unfold if_registered.
    destruct (bool_decide _), (Backend.registered b went_offline); cbn; intuition discriminate.
  - split.
    + destruct (heartbeat_offline_events heartbeat_in y b Hon) as (rest & _ & Hflag). exact Hflag.
    + destruct (Backend._device_timestamp_sync_drift_check (now_ts y 4)
                  (HeartbeatIn.timestamp heartbeat_in)) eqn:Hok;
        unfold now_ts in Hok; cbn in Hok.
      all: eassert (Hrun : Backend._heartbeat_cb heartbeat_in y b = _);
        [ unfold Backend._heartbeat_cb; run_tac | rewrite Hrun; clear Hrun ].
      all: cbn; rewrite ?in_app_iff; cbn.
      all: destruct (bool_decide _), (Backend.registered b went_offline),
             (Backend.registered b went_online), (Backend.registered b device_info),
             (Backend.registered b device_wifi_info), (Backend.registered b ntp_sync_status);
        cbn; intuition discriminate.
Qed.

(** ** Replies of the device that report a failure *)

(** A handler that finds a failure reported raises at the unbound name
    [_error_report]: nothing is published, no listener is called, the
    session is as before. *)
Lemma failure_report_raises (m : inbound) (y : Sys) (b : Backend.t) :
  reports_success m = false ->
  handle m y b = Run (Raise (NameError "_error_report")) y b [].
Proof.
  intros Hfail. destruct m; cbn in Hfail; try discriminate; cbn [handle].
  - unfold Backend._device_start_event_cb. run_eq.
  - unfold Backend._device_reboot_cb. run_eq.
  - unfold Backend._restore_cb. run_eq.
  - unfold Backend._initialize_sd_card_service_cb. run_eq.
  - unfold Backend._wifi_reconnect_service_cb. run_eq.
  - unfold Backend._attr_set_service_cb. run_eq.
  - unfold Backend._manual_feeding_service_cb. run_eq.
  - unfold Backend._feeding_plan_service_cb. run_eq.
Qed.

(** C7: the code does not do what the claim says.  With the error listener
    registered, a reply with a non-OK code to an attribute-set, manual
    feeding, feeding plan or restore request makes the handler raise
    [NameError]; the error listener is not called. *)
Theorem C7_failure_reply_raises_NameError :
  let b := example_backend true 52 in
  let ts := example_device_time 0 in
  Backend.registered b error = true
  /\ Backend._attr_set_service_cb (AttrSetServiceIn.mk example_message_id ts Code.ERROR_1) example_sys b
     = Run (Raise (NameError "_error_report")) example_sys b []
  /\ Backend._manual_feeding_service_cb (ManualFeedingServiceIn.mk example_message_id ts Code.ERROR_2) example_sys b
     = Run (Raise (NameError "_error_report")) example_sys b []
  /\ Backend._feeding_plan_service_cb
       (FeedingPlanServiceIn.mk example_message_id ts Code.ERROR_3 [] (JStr "FeedPlanErro")) example_sys b
     = Run (Raise (NameError "_error_report")) example_sys b []
  /\ Backend._restore_cb (RestoreIn.mk example_message_id ts Code.ERROR_4) example_sys b
     = Run (Raise (NameError "_error_report")) example_sys b [].
Proof. repeat split. Qed.

(** ** Device-initiated exchanges *)

(** C1: the code does not do what the claim says.  A device start event that
    reports a failure makes the handler raise before the reply is sent, and
    an error event finds no handler registered: in both cases nothing is
    published.  (A successful device start event is answered.) *)
Theorem C1_exchanges_left_unanswered :
  let b := example_backend true 52 in
  let failed := Client._mqtt_recv_event_cb Backend.client_callbacks (device_start_payload false) example_sys b in
  let err := Client._mqtt_recv_event_cb Backend.client_callbacks error_event_payload example_sys b in
  let started := Client._mqtt_recv_event_cb Backend.client_callbacks (device_start_payload true) example_sys b in
  (outcome failed = Raise (NameError "_error_report") /\ published (events failed) = [])
  /\ (outcome err = Ok tt /\ published (events err) = [])
  /\ (outcome started = Ok tt
      /\ (fun tp => (tp.1, tp.2 !! "cmd", tp.2 !! "msgId")) <$> published (events started)
         = [("dl/PLAF203/SN0001/device/event/sub", Some (JStr "DEVICE_START_EVENT"),
             Some (MessageId.data example_message_id))]).
Proof. vm_compute. repeat split. Qed.

(** ** Where the clock drift is checked *)

Lemma drift_check_and_adjust_trace (timestamp_device : Timestamp.t) (y : Sys) (b : Backend.t) :
  Backend._device_timestamp_sync_drift_check_and_adjust timestamp_device y b
  = Run (Ok tt)
      (if Backend._device_timestamp_sync_drift_check (now_ts y 0) timestamp_device
       then Sys_tick_clock y
       else Sys_tick_clock (Sys_tick_ids (Sys_tick_clock y)))
      b
      (DriftCheck (now_ts y 0) timestamp_device
       :: if Backend._device_timestamp_sync_drift_check (now_ts y 0) timestamp_device
          then []
          else [Publish (MessageTopics.ntp_sub_get (Client.message_topics (Backend.client b)))
                  (NtpSyncOut.to_mqtt_payload
                     (NtpSyncOut.mk (MessageId.mk (fresh_id y 0)) (now_ts y 1)))]).
Proof.
  rewrite drift_check_and_adjust_run.
  destruct (Backend._device_timestamp_sync_drift_check _ _); reflexivity.
Qed.

Lemma audio_cached_client a b : Backend.client (audio_cached a b) = Backend.client b.
Proof.
  unfold audio_cached.
  destruct (negb (pyval_is_None (a "enable_audio"))), (negb (pyval_is_None (a "audio_url")));
    reflexivity.
Qed.

Lemma audio_cached_registered a b : Backend.registered (audio_cached a b) = Backend.registered b.
Proof.
  unfold audio_cached.
  destruct (negb (pyval_is_None (a "enable_audio"))), (negb (pyval_is_None (a "audio_url")));
    reflexivity.
Qed.

Lemma report_audio_run (a : string -> pyval) (y : Sys) (b : Backend.t) :
  Backend.report_audio a y b
  = Run (Ok tt) y (audio_cached a b)
      (if_registered b settings_audio [Kw "enable" (a "enable_audio"); Kw "url" (a "audio_url")]).
Proof.
  unfold Backend.report_audio, audio_cached, if_registered.
  destruct (negb (pyval_is_None (a "enable_audio"))) eqn:H1,
           (negb (pyval_is_None (a "audio_url"))) eqn:H2.
  all: run_eq.
  all: rewrite ?app_nil_r; reflexivity.
Qed.

Arguments Backend.report_audio : simpl never.
Arguments audio_cached : simpl never.

(** The condition of a branch is settled by a hypothesis about one of its
    subterms, or by deciding it. *)
Ltac resolve_condition c :=
  first
    [ match goal with
      | H : ?l = _ |- _ =>
          lazymatch c with context [l] => rewrite H end
      end
    | lazymatch c with
      | context [bool_decide ?P] =>
          first [ rewrite (bool_decide_true P) by (reflexivity || assumption || lia)
                | rewrite (bool_decide_false P) by (discriminate || congruence || lia) ]
      end ].

Ltac run_tac ::=
  cbn;
  lazymatch goal with
  | |- M_bind _ _ _ _ = _ =>
      first [ eapply bind_ok; [ run_tac | run_tac ]
            | eapply bind_raise; run_tac ]
  | |- Backend.call _ _ _ _ = _ => apply call_run
  | |- Backend.report_audio _ _ _ = _ => apply report_audio_run
  | |- Backend._device_timestamp_sync_drift_check_and_adjust _ _ _ = _ =>
      apply drift_check_and_adjust_trace
  | |- when _ _ _ _ = _ =>
      first [ eapply when_run_quiet; run_tac | eapply when_run; run_tac ]
  | |- zoom _ _ _ _ _ = _ => eapply zoom_run; run_tac
  | |- Run _ _ _ _ = _ => reflexivity
  | |- (if ?c then _ else _) _ _ = _ => resolve_condition c; run_tac
  | |- ?lhs = _ => let h := head_of lhs in progress unfold h; run_tac
  end.

Arguments Backend._device_timestamp_sync_drift_check_and_adjust : simpl never.
Arguments now_ts : simpl never.
Arguments fresh_id : simpl never.

Lemma drift_checks_app (l1 l2 : list event) :
  drift_checks (l1 ++ l2) = drift_checks l1 ++ drift_checks l2.
Proof. apply omap_app. Qed.

Lemma drift_checks_if (c : bool) (l1 l2 : list event) :
  drift_checks (if c then l1 else l2) = if c then drift_checks l1 else drift_checks l2.
Proof. destruct c; reflexivity. Qed.

Lemma drift_checks_cons (e : event) (l : list event) :
  drift_checks (e :: l) = drift_checks [e] ++ drift_checks l.
Proof. destruct e; reflexivity. Qed.

Lemma if_same {A : Type} (c : bool) (x : A) : (if c then x else x) = x.
Proof. destruct c; reflexivity. Qed.

Ltac drift_checks_tac :=
  unfold if_registered;
  repeat first
    [ rewrite drift_checks_app
    | rewrite drift_checks_if
    | rewrite if_same
    | rewrite app_nil_r
    | progress cbn ].

(** C4, as stated, fails: a heartbeat received while the session is online
    is handled without a drift check, also when the device clock is an hour
    ahead: the attribute read is published and the watchdog is reset. *)
Lemma C4_counterexample :
  let m := InHeartbeat (example_heartbeat 53 (example_device_time 3600000)) in
  let x := handle m example_sys (example_backend true 52) in
  Backend._device_timestamp_sync_drift_check (now_ts example_sys 0) (device_timestamp m) = false
  /\ outcome x = Ok tt
  /\ drift_checks (events x) = []
  /\ summary <$> events x
     = [ Sent "dl/PLAF203/SN0001/device/service/sub" (Some (JStr "ATTR_GET_SERVICE")) (Some (JStr "generated-0"));
         TimerCancelled (Some 0%nat);
         TimerStarted 81 1 ].
Proof. vm_compute. repeat split. Qed.

(** C4, amended: for a message that reports no failure, the handler checks
    the device timestamp against a reading of the server clock exactly once,
    unless the message is a heartbeat received while the session is online or
    the acknowledgement of a reboot, a restore or a wifi reconnect, for which
    no check is made. *)
Theorem C4_drift_check_where_run (m : inbound) (y : Sys) (b : Backend.t) :
  reports_success m = true ->
  (checks_drift m b = true ->
   exists k, drift_checks (events (handle m y b)) = [(now_ts y k, device_timestamp m)])
  /\ (checks_drift m b = false -> drift_checks (events (handle m y b)) = []).
Proof.
  intros Hok. destruct m; cbn [handle device_timestamp checks_drift]; cbn in Hok.
  - (* heartbeat *)
    destruct (Backend.is_online b) eqn:Hon; cbn; split; try discriminate; intros _.
    + destruct (heartbeat_online_run m y b Hon) as (_ & _ & ->). drift_checks_tac. reflexivity.
    + exists 4%nat.
      destruct (Backend._device_timestamp_sync_drift_check (now_ts y 4) (HeartbeatIn.timestamp m))
        eqn:Hdrift; unfold now_ts in Hdrift; cbn in Hdrift.
      all: eassert (Hrun : Backend._heartbeat_cb m y b = _);
        [ unfold Backend._heartbeat_cb; run_tac | rewrite Hrun; clear Hrun ].
      all: cbn [events]; drift_checks_tac; reflexivity.
  - (* NTP *)
    split; [intros _ | discriminate]. exists 0%nat.
    eassert (Hrun : Backend._ntp_cb m y b = _);
      [ unfold Backend._ntp_cb; run_tac | rewrite Hrun; clear Hrun ].
    cbn [events]; drift_checks_tac; reflexivity.
  - (* NTP sync *)
    split; [intros _ | discriminate]. exists 0%nat.
    destruct (Backend._device_timestamp_sync_drift_check (now_ts y 0) (NtpSyncIn.timestamp m))
      eqn:Hdrift; unfold now_ts in Hdrift; cbn in Hdrift.
    all: eassert (Hrun : Backend._ntp_sync_cb m y b = _);
      [ unfold Backend._ntp_sync_cb; run_tac | rewrite Hrun; clear Hrun ].
    all: cbn [events]; drift_checks_tac; reflexivity.
  - (* device start *)
    split; [intros _ | discriminate]. exists 1%nat.
    eassert (Hrun : Backend._device_start_event_cb m y b = _);
      [ unfold Backend._device_start_event_cb; run_tac | rewrite Hrun; clear Hrun ].
    cbn [events]; drift_checks_tac; reflexivity.
  - (* reboot *)
    split; [discriminate | intros _].
    eassert (Hrun : Backend._device_reboot_cb m y b = _);
      [ unfold Backend._device_reboot_cb; run_tac | rewrite Hrun; clear Hrun ].
    cbn [events]; drift_checks_tac; reflexivity.
  - (* restore *)
    split; [discriminate | intros _].
    eassert (Hrun : Backend._restore_cb m y b = _);
      [ unfold Backend._restore_cb; run_tac | rewrite Hrun; clear Hrun ].
    cbn [events]; drift_checks_tac; reflexivity.
  - (* SD card *)
    split; [intros _ | discriminate]. exists 0%nat.
    eassert (Hrun : Backend._initialize_sd_card_service_cb m y b = _);
      [ unfold Backend._initialize_sd_card_service_cb; run_tac | rewrite Hrun; clear Hrun ].
    cbn [events]; drift_checks_tac; reflexivity.
  - (* wifi reconnect *)
    split; [discriminate | intros _].
    eassert (Hrun : Backend._wifi_reconnect_service_cb m y b = _);
      [ unfold Backend._wifi_reconnect_service_cb; run_tac | rewrite Hrun; clear Hrun ].
    cbn [events]; drift_checks_tac; reflexivity.
  - (* attribute read reply *)
    split; [intros _ | discriminate]. exists 0%nat.
    eassert (Hrun : Backend._attr_get_service_cb m y b = _);
      [ unfold Backend._attr_get_service_cb; run_tac | rewrite Hrun; clear Hrun ].
    cbn [events]; drift_checks_tac; reflexivity.
  - (* attribute push *)
    split; [intros _ | discriminate]. exists 1%nat.
    eassert (Hrun : Backend._attr_push_event_cb m y b = _);
      [ unfold Backend._attr_push_event_cb; run_tac | rewrite Hrun; clear Hrun ].
    cbn [events]; drift_checks_tac; reflexivity.
  - (* attribute set reply *)
    split; [intros _ | discriminate]. exists 0%nat.
    eassert (Hrun : Backend._attr_set_service_cb m y b = _);
      [ unfold Backend._attr_set_service_cb; run_tac | rewrite Hrun; clear Hrun ].
    cbn [events]; drift_checks_tac; reflexivity.
  - (* config reply *)
    split; [intros _ | discriminate]. exists 0%nat.
    eassert (Hrun : Backend._get_config_cb m y b = _);
      [ unfold Backend._get_config_cb; run_tac | rewrite Hrun; clear Hrun ].
    cbn [events]; drift_checks_tac; reflexivity.
  - (* feeding plan request *)
    split; [intros _ | discriminate]. exists 1%nat.
    eassert (Hrun : Backend._get_feeding_plan_event_cb m y b = _);
      [ unfold Backend._get_feeding_plan_event_cb; run_tac | rewrite Hrun; clear Hrun ].
    cbn [events]; drift_checks_tac; reflexivity.
  - (* manual feeding reply *)
    split; [intros _ | discriminate]. exists 0%nat.
    eassert (Hrun : Backend._manual_feeding_service_cb m y b = _);
      [ unfold Backend._manual_feeding_service_cb; run_tac | rewrite Hrun; clear Hrun ].
    cbn [events]; drift_checks_tac; reflexivity.
  - (* feeding plan reply *)
    split; [intros _ | discriminate]. exists 0%nat.
    eassert (Hrun : Backend._feeding_plan_service_cb m y b = _);
      [ unfold Backend._feeding_plan_service_cb; run_tac | rewrite Hrun; clear Hrun ].
    cbn [events]; drift_checks_tac; reflexivity.
  - (* grain output *)
    split; [intros _ | discriminate]. exists 1%nat.
    destruct (GrainOutputEventIn.exec_step m) eqn:Hstep.
    all: eassert (Hrun : Backend._grain_output_event_cb m y b = _);
      [ unfold Backend._grain_output_event_cb; run_tac | rewrite Hrun; clear Hrun ].
    all: cbn [events]; drift_checks_tac; reflexivity.
Qed.

Lemma C4_drift_check_where_run_witness :
  let m := InAttrSetService (AttrSetServiceIn.mk example_message_id (example_device_time 0) Code.OK) in
  reports_success m = true
  /\ checks_drift m (example_backend true 52) = true
  /\ exists k, drift_checks (events (handle m example_sys (example_backend true 52)))
               = [(now_ts example_sys k, example_device_time 0)].
Proof.
  split; [reflexivity |]. split; [reflexivity |].
  exact (proj1 (C4_drift_check_where_run
                  (InAttrSetService (AttrSetServiceIn.mk example_message_id (example_device_time 0) Code.OK))
                  example_sys (example_backend true 52) eq_refl) eq_refl).
Defined.

(** ** Grain output *)

Lemma mismatch_message : "Food output actual != expected: " +:+ pretty 4 +:+ " != " +:+ pretty 5
                         = "Food output actual != expected: 4 != 5".
Proof. reflexivity. Qed.

(** C8, amended: a grain output event of step GRAIN_START with expected
    quantity 5, followed directly by a grain output event of step GRAIN_END
    whose fields give the expected quantity 5 and the actual quantity 4,
    makes the engine report the mismatch to the error listener and then
    signal the progress IDLE, the two listeners being registered.  The
    mismatch is decided on the fields of the GRAIN_END event alone. *)
Theorem C8_grain_start_then_end_mismatch
    (y : Sys) (b : Backend.t) (grain_start grain_end : GrainOutputEventIn.t) :
  Backend.registered b error = true ->
  Backend.registered b food_output_progress = true ->
  GrainOutputEventIn.exec_step grain_start = ExecStep.GRAIN_START ->
  GrainOutputEventIn.expected_grain_num grain_start = 5 ->
  GrainOutputEventIn.exec_step grain_end = ExecStep.GRAIN_END ->
  GrainOutputEventIn.expected_grain_num grain_end = 5 ->
  GrainOutputEventIn.actual_grain_num grain_end = 4 ->
  let x := M_bind (Backend._grain_output_event_cb grain_start)
             (fun _ => Backend._grain_output_event_cb grain_end) y b in
  outcome x = Ok tt
  /\ exists before after,
       events x
       = before
         ++ [ Callback error [Pos (VStr "Food output actual != expected: 4 != 5")];
              Callback food_output_progress [Pos (VFoodOutputProgress FoodOutputProgress.IDLE)] ]
         ++ after.
Proof.
  intros Herr Hprog Hs1 He1 Hs2 He2 Ha2 x. subst x.
  eassert (Hrun : M_bind (Backend._grain_output_event_cb grain_start)
                    (fun _ => Backend._grain_output_event_cb grain_end) y b = _);
    [ unfold Backend._grain_output_event_cb; run_tac | rewrite Hrun; clear Hrun ].
  split; [reflexivity |].
  cbn [events]. rewrite Herr, Hprog, He2, Ha2.
  rewrite (bool_decide_false (5 = 4)) by discriminate. cbn [negb].
  rewrite mismatch_message.
  match goal with
  | |- exists before after, ?X ++ (?L ++ _ ++ _) ++ ?R = _ => exists (X ++ L), R
  end.
  rewrite <- !app_assoc. reflexivity.
Qed.

(** C8, as stated, fails: the handler keeps nothing of the GRAIN_START
    event.  When the GRAIN_END event that follows a GRAIN_START with expected
    quantity 5 has the actual quantity 4 and itself gives 4 as the expected
    quantity, the error listener is not called. *)
Lemma C8_counterexample :
  let x := M_bind (Backend._grain_output_event_cb (example_grain_output ExecStep.GRAIN_START 5 0))
             (fun _ => Backend._grain_output_event_cb (example_grain_output ExecStep.GRAIN_END 4 4))
             example_sys (example_backend true 52) in
  outcome x = Ok tt
  /\ called (events x)
     = [ (food_output_log_start, [Pos (VGrainOutputType GrainOutputType.FEED_PLAN); Pos (VInt 5)]);
         (food_output_progress, [Pos (VFoodOutputProgress FoodOutputProgress.RUNNING)]);
         (food_output_log_end, [Pos (VGrainOutputType GrainOutputType.FEED_PLAN); Pos (VInt 4)]);
         (food_output_progress, [Pos (VFoodOutputProgress FoodOutputProgress.IDLE)]) ].
Proof. vm_compute. repeat split. Qed.

(** C8, amended, at a feed of 5 portions of which 4 were delivered. *)
Lemma C8_grain_start_then_end_mismatch_witness :
  Backend.registered (example_backend true 52) error = true
  /\ Backend.registered (example_backend true 52) food_output_progress = true
  /\ outcome (M_bind (Backend._grain_output_event_cb (example_grain_output ExecStep.GRAIN_START 5 0))
                (fun _ => Backend._grain_output_event_cb (example_grain_output ExecStep.GRAIN_END 5 4))
                example_sys (example_backend true 52)) = Ok tt
  /\ exists before after,
       events (M_bind (Backend._grain_output_event_cb (example_grain_output ExecStep.GRAIN_START 5 0))
                 (fun _ => Backend._grain_output_event_cb (example_grain_output ExecStep.GRAIN_END 5 4))
                 example_sys (example_backend true 52))
       = before
         ++ [ Callback error [Pos (VStr "Food output actual != expected: 4 != 5")];
              Callback food_output_progress [Pos (VFoodOutputProgress FoodOutputProgress.IDLE)] ]
         ++ after.
Proof.
  split; [reflexivity |]. split; [reflexivity |].
  apply (C8_grain_start_then_end_mismatch example_sys (example_backend true 52)
           (example_grain_output ExecStep.GRAIN_START 5 0)
           (example_grain_output ExecStep.GRAIN_END 5 4)); reflexivity.
Defined.

(** ** Attribute deltas *)

(** A field whose key is not in the payload is not set by the decoder. *)
Lemma decode_sparse_absent (lines : list attr_line) (payload : dict) (field : string) :
  (forall key c, (key, field, c) ∈ lines -> payload !! key = None) ->
  forall data data', decode_sparse lines payload data = Ok data' -> data' !! field = data !! field.
Proof.
  induction lines as [| [[key f] c] rest IH]; intros Habsent data data' Hdec; cbn in Hdec.
  - injection Hdec as <-. reflexivity.
  - assert (Hrest : forall key c, (key, field, c) ∈ rest -> payload !! key = None).
    { intros k c' Hin. apply (Habsent k c'). apply elem_of_cons. right. exact Hin. }
    unfold contains in Hdec. destruct (payload !! key) as [v |] eqn:Hkey.
    + rewrite bool_decide_true in Hdec by (eexists; reflexivity).
      unfold getitem in Hdec. rewrite Hkey in Hdec. cbn in Hdec.
      destruct (convert c v) as [x | e]; cbn in Hdec; [| discriminate].
      rewrite (IH Hrest _ _ Hdec).
      apply lookup_insert_ne. intros ->.
      assert (Hnone : payload !! key = None)
        by (apply (Habsent key c); apply elem_of_cons; left; reflexivity).
      congruence.
    + rewrite bool_decide_false in Hdec by (intros [? ?]; discriminate).
      exact (IH Hrest _ _ Hdec).
Qed.

(** C6: the code does not do what the claim says.  The decoder of a time of
    day raises [NameError] at the unbound name [time_string] whatever the
    value is, so an attribute delta with a time of day field is not decoded:
    the handler of the event is not run and no reply is published. *)
Theorem C6_time_of_day_field_raises_NameError :
  let b := example_backend true 52 in
  let x := Client._mqtt_recv_event_cb Backend.client_callbacks attr_push_payload example_sys b in
  (forall value, HourMinTimestamp.from_mqtt_payload_value value = Raise (NameError "time_string"))
  /\ outcome (AttrPushEventIn.from_mqtt_payload attr_push_payload example_sys b)
     = Raise (NameError "time_string")
  /\ outcome x = Raise (NameError "time_string")
  /\ events x = [].
Proof. split; [reflexivity |]. vm_compute. repeat split. Qed.

(** * Further properties *)

(** ** The session: heartbeats and the watchdog *)

Lemma published_app (l1 l2 : list event) : published (l1 ++ l2) = published l1 ++ published l2.
Proof. apply omap_app. Qed.

Lemma published_if_registered (b : Backend.t) (l : listener) (args : list arg) :
  published (if_registered b l args) = [].
Proof. unfold if_registered. destruct (Backend.registered b l); reflexivity. Qed.

(** X1: whatever the state of the session, after a heartbeat has been handled
    the session is online and the count of the heartbeat is the last count
    recorded, also when the handler raises. *)
Theorem X1_heartbeat_leaves_online (heartbeat_in : HeartbeatIn.t) (y : Sys) (b : Backend.t) :
  let x := Backend._heartbeat_cb heartbeat_in y b in
  Backend.is_online (self_of x) = true
  /\ Backend.last_heartbeat_count (self_of x) = HeartbeatIn.count heartbeat_in.
Proof.
  intros x. subst x.
  destruct (Backend.is_online b) eqn:Hon.
  - eassert (Hrun : Backend._heartbeat_cb heartbeat_in y b = _);
      [ unfold Backend._heartbeat_cb; run_tac | rewrite Hrun; clear Hrun ].
    cbn. split; [first [exact Hon | reflexivity] | reflexivity].
  - destruct (Backend._device_timestamp_sync_drift_check (now_ts y 4)
                (HeartbeatIn.timestamp heartbeat_in)) eqn:Hok;
      unfold now_ts in Hok; cbn in Hok.
    all: eassert (Hrun : Backend._heartbeat_cb heartbeat_in y b = _);
      [ unfold Backend._heartbeat_cb; run_tac | rewrite Hrun; clear Hrun ].
    all: cbn; split; reflexivity.
Qed.

(** X2: a heartbeat received while the session is offline, from a device
    whose clock is 10 seconds or more off, makes the handler raise
    [NameError] once the session has been resynchronized and declared
    online: the watchdog is not reset and the time sync listener is not
    told. *)
Theorem X2_offline_heartbeat_with_drift_raises
    (heartbeat_in : HeartbeatIn.t) (y : Sys) (b : Backend.t) :
  Backend.is_online b = false ->
  Backend._device_timestamp_sync_drift_check (now_ts y 4) (HeartbeatIn.timestamp heartbeat_in) = false ->
  let x := Backend._heartbeat_cb heartbeat_in y b in
  outcome x = Raise (NameError "ntp_sync_in")
  /\ Backend.heartbeat_watchdog (self_of x) = Backend.heartbeat_watchdog b
  /\ events x
     = (if bool_decide (HeartbeatIn.count heartbeat_in < Backend.last_heartbeat_count b)
        then if_registered b went_offline [] else [])
       ++ resync_envelopes y b
       ++ [Assign_is_online true]
       ++ if_registered b went_online []
       ++ if_registered b device_info [Kw "device_serial" (VStr (Backend.device_serial b))]
       ++ if_registered b device_wifi_info
            [Kw "rssi" (VInt (HeartbeatIn.rssi heartbeat_in));
             Kw "type_" (VWifiType (HeartbeatIn.wifi_type heartbeat_in))]
       ++ [DriftCheck (now_ts y 4) (HeartbeatIn.timestamp heartbeat_in)].
Proof.
  intros Hoff Hdrift x. subst x.
  unfold now_ts in Hdrift; cbn in Hdrift.
  eassert (Hrun : Backend._heartbeat_cb heartbeat_in y b = _);
    [ unfold Backend._heartbeat_cb; run_tac | rewrite Hrun; clear Hrun ].
  cbn. split; [reflexivity |]. split; [reflexivity |].
  unfold resync_envelopes, if_registered, now_ts, fresh_id; cbn.
  rewrite <- ?app_assoc; cbn. reflexivity.
Qed.

(** X2 at a heartbeat of a device whose clock is an hour ahead. *)
Lemma X2_offline_heartbeat_with_drift_raises_witness :
  Backend.is_online (example_backend false 0) = false
  /\ Backend._device_timestamp_sync_drift_check (now_ts example_sys 4)
       (HeartbeatIn.timestamp (example_heartbeat 41 (example_device_time 3600000))) = false
  /\ outcome (Backend._heartbeat_cb (example_heartbeat 41 (example_device_time 3600000))
                example_sys (example_backend false 0))
     = Raise (NameError "ntp_sync_in").
Proof.
  split; [reflexivity |]. split; [reflexivity |].
  exact (proj1 (X2_offline_heartbeat_with_drift_raises
                  (example_heartbeat 41 (example_device_time 3600000))
                  example_sys (example_backend false 0) eq_refl eq_refl)).
Defined.

Lemma ends_with_suffix (tail tr : list event) :
  tail `suffix_of` tr -> exists before, tr = before ++ tail.
Proof. intros [before ->]. exists before. reflexivity. Qed.

Ltac solve_suffix :=
  first [ reflexivity
        | apply suffix_app_r; solve_suffix
        | apply suffix_cons_r; solve_suffix ].

(** X3: a heartbeat that is handled to the end (the session was online, or
    the device clock is less than 10 seconds off) resets the watchdog as the
    last thing: the pending timer is cancelled, a new one is started with the
    period of the watchdog, and its handle is kept. *)
Theorem X3_heartbeat_resets_watchdog (heartbeat_in : HeartbeatIn.t) (y : Sys) (b : Backend.t) :
  Backend.is_online b = true
  \/ Backend._device_timestamp_sync_drift_check (now_ts y 4) (HeartbeatIn.timestamp heartbeat_in) = true ->
  let x := Backend._heartbeat_cb heartbeat_in y b in
  outcome x = Ok tt
  /\ Watchdog.handle (Backend.heartbeat_watchdog (self_of x)) = Some (timers_made y)
  /\ exists before,
       events x
       = before
         ++ [ CancelTimer (Watchdog.handle (Backend.heartbeat_watchdog b));
              RunIn (Watchdog.period_sec (Backend.heartbeat_watchdog b)) (timers_made y) ].
Proof.
  intros Hcase x. subst x.
  destruct (Backend.is_online b) eqn:Hon.
  - eassert (Hrun : Backend._heartbeat_cb heartbeat_in y b = _);
      [ unfold Backend._heartbeat_cb; run_tac | rewrite Hrun; clear Hrun ].
    cbn. split; [reflexivity |]. split; [reflexivity |].
    apply ends_with_suffix. solve_suffix.
  - destruct Hcase as [Hcase | Hok]; [discriminate |].
    unfold now_ts in Hok; cbn in Hok.
    eassert (Hrun : Backend._heartbeat_cb heartbeat_in y b = _);
      [ unfold Backend._heartbeat_cb; run_tac | rewrite Hrun; clear Hrun ].
    cbn. split; [reflexivity |]. split; [reflexivity |].
    apply ends_with_suffix. solve_suffix.
Qed.

(** X3 at the next heartbeat of an online session. *)
Lemma X3_heartbeat_resets_watchdog_witness :
  (Backend.is_online (example_backend true 52) = true
   \/ Backend._device_timestamp_sync_drift_check (now_ts example_sys 4)
        (HeartbeatIn.timestamp (example_heartbeat 53 (example_device_time 0))) = true)
  /\ Watchdog.handle
       (Backend.heartbeat_watchdog
          (self_of (Backend._heartbeat_cb (example_heartbeat 53 (example_device_time 0))
                      example_sys (example_backend true 52))))
     = Some 1%nat.
Proof.
  split; [left; reflexivity |].
  exact (proj1 (proj2 (X3_heartbeat_resets_watchdog
                         (example_heartbeat 53 (example_device_time 0))
                         example_sys (example_backend true 52) (or_introl eq_refl)))).
Defined.

Lemma published_cmds_app (l1 l2 : list event) :
  published_cmds (l1 ++ l2) = published_cmds l1 ++ published_cmds l2.
Proof. unfold published_cmds. rewrite published_app, fmap_app. reflexivity. Qed.

Lemma published_cmds_if_registered (b : Backend.t) (l : listener) (args : list arg) :
  published_cmds (if_registered b l args) = [].
Proof. unfold published_cmds. rewrite published_if_registered. reflexivity. Qed.

(** The run of the heartbeat watchdog, its trigger being registered. *)
Lemma heartbeat_watchdog_run_armed (y : Sys) (b : Backend.t) :
  Watchdog.trigger_callback (Backend.heartbeat_watchdog b) = true ->
  Backend.heartbeat_watchdog_run y b
  = Run (Ok tt) y
      (Backend.set_is_online false
         (Backend.set_heartbeat_watchdog (Watchdog.set_handle None (Backend.heartbeat_watchdog b)) b))
      (Assign_is_online false :: if_registered b went_offline []).
Proof.
  intros Harmed.
  eassert (Hrun : Backend.heartbeat_watchdog_run y b = _);
    [ unfold Backend.heartbeat_watchdog_run; run_tac | rewrite Hrun; clear Hrun ].
  cbn. rewrite Harmed. reflexivity.
Qed.

(** X4: when the heartbeat watchdog expires, the session is declared offline
    and the went-offline listener is told; nothing is published.  The next
    heartbeat then resynchronizes the device (config read, attribute read,
    feeding plan push) and the session is online again. *)
Theorem X4_watchdog_expiry_then_heartbeat (heartbeat_in : HeartbeatIn.t) (y : Sys) (b : Backend.t) :
  Watchdog.trigger_callback (Backend.heartbeat_watchdog b) = true ->
  let expired := Backend.heartbeat_watchdog_run y b in
  let x := Backend._heartbeat_cb heartbeat_in (sys_of expired) (self_of expired) in
  outcome expired = Ok tt
  /\ Backend.is_online (self_of expired) = false
  /\ Watchdog.handle (Backend.heartbeat_watchdog (self_of expired)) = None
  /\ events expired = Assign_is_online false :: if_registered b went_offline []
  /\ Backend.is_online (self_of x) = true
  /\ exists rest,
       published_cmds (events x)
       = [Some (JStr "GET_CONFIG"); Some (JStr "ATTR_GET_SERVICE"); Some (JStr "FEEDING_PLAN_SERVICE")]
         ++ rest.
Proof.
  intros Harmed expired x. subst x expired.
  rewrite (heartbeat_watchdog_run_armed y b Harmed). cbn [outcome self_of sys_of events].
  repeat (split; [reflexivity |]).
  match goal with
  | |- context [Backend._heartbeat_cb _ _ ?b'] =>
      destruct (heartbeat_offline_events heartbeat_in y b' eq_refl) as (rest & Hev & Hon)
  end.
  split; [exact Hon |].
  rewrite Hev. exists (published_cmds rest).
  rewrite !published_cmds_app, !published_cmds_if_registered.
  destruct (bool_decide _); rewrite ?published_cmds_if_registered; reflexivity.
Qed.

(** X4 at the example session. *)
Lemma X4_watchdog_expiry_then_heartbeat_witness :
  Watchdog.trigger_callback (Backend.heartbeat_watchdog (example_backend true 52)) = true
  /\ Backend.is_online (self_of (Backend.heartbeat_watchdog_run example_sys (example_backend true 52)))
     = false.
Proof.
  split; [reflexivity |].
  exact (proj1 (proj2 (X4_watchdog_expiry_then_heartbeat
                         (example_heartbeat 53 (example_device_time 0))
                         example_sys (example_backend true 52) eq_refl))).
Defined.

(** X5: the acknowledgement of a reboot, of a factory reset and of a wifi
    reconnect, each with code OK, take the session offline and tell the
    went-offline listener; nothing is published and no clock is read. *)
Theorem X5_acknowledged_restart_takes_offline
    (message_id : MessageId.t) (timestamp : Timestamp.t) (y : Sys) (b : Backend.t) :
  let offline :=
    Run (Ok tt) y (Backend.set_is_online false b)
      (Assign_is_online false :: if_registered b went_offline []) in
  Backend._device_reboot_cb (DeviceRebootIn.mk message_id timestamp Code.OK) y b = offline
  /\ Backend._restore_cb (RestoreIn.mk message_id timestamp Code.OK) y b = offline
  /\ Backend._wifi_reconnect_service_cb (WifiReconnectServiceIn.mk message_id timestamp Code.OK) y b
     = offline.
Proof.
  intros offline. subst offline. repeat split.
  - unfold Backend._device_reboot_cb. run_eq.
  - unfold Backend._restore_cb. run_eq.
  - unfold Backend._wifi_reconnect_service_cb. run_eq.
Qed.

(** ** Time synchronization *)

(** X6: an NTP request is answered with exactly one NTP envelope on the ntp
    topic, carrying code OK, the time and zone of the server and no
    correlation id; its calibration tag is set exactly when the device clock
    is 10 seconds or more off.  The time sync listener is told [True] in
    both cases and the session is left as it was. *)
Theorem X6_ntp_request_answered (ntp_in : NtpIn.t) (y : Sys) (b : Backend.t) :
  let x := Backend._ntp_cb ntp_in y b in
  let now := now_ts y 0 in
  let tag := negb (Backend._device_timestamp_sync_drift_check now (NtpIn.timestamp ntp_in)) in
  outcome x = Ok tt
  /\ self_of x = b
  /\ events x
     = [ DriftCheck now (NtpIn.timestamp ntp_in);
         Publish (MessageTopics.ntp_sub_get (Client.message_topics (Backend.client b)))
           {[ "cmd" := JStr "NTP";
              "ts" := JInt (Timestamp.to_timestamp_epoch_ms now);
              "code" := JInt 0;
              "calibrationTag" := JBool tag;
              "timezone" := JFloat (Timestamp.to_timezone_offset_hours now) ]} ]
       ++ if_registered b ntp_sync_status [Pos (VBool true)]
  /\ (tag = true
      <-> 10 * 1000000 <= Z.abs (instant_us (Timestamp.value now)
                                 - instant_us (Timestamp.value (NtpIn.timestamp ntp_in)))).
Proof.
  intros x now tag. subst x.
  eassert (Hrun : Backend._ntp_cb ntp_in y b = _);
    [ unfold Backend._ntp_cb; run_tac | rewrite Hrun; clear Hrun ].
  cbn [outcome self_of events]. repeat split.
  - subst tag now. unfold negb. intros Htag.
    destruct (Backend._device_timestamp_sync_drift_check _ _) eqn:Hok; [discriminate |].
    apply Z.le_ngt. intros Hlt. apply drift_check_spec in Hlt. congruence.
  - subst tag now. intros Hfar.
    destruct (Backend._device_timestamp_sync_drift_check _ _) eqn:Hok; [| reflexivity].
    apply drift_check_spec in Hok. lia.
Qed.

(** X7: the acknowledgement of an NTP sync is checked against the server
    clock whatever its code is: the time sync listener is told whether the
    device clock is less than 10 seconds off.  Nothing is published. *)
Theorem X7_ntp_sync_acknowledgement_checked (ntp_sync_in : NtpSyncIn.t) (y : Sys) (b : Backend.t) :
  let ok := Backend._device_timestamp_sync_drift_check (now_ts y 0) (NtpSyncIn.timestamp ntp_sync_in) in
  Backend._ntp_sync_cb ntp_sync_in y b
  = Run (Ok tt) (Sys_tick_clock y) b
      (DriftCheck (now_ts y 0) (NtpSyncIn.timestamp ntp_sync_in)
       :: if_registered b ntp_sync_status [Pos (VBool ok)]).
Proof.
  intros ok. subst ok.
  destruct (Backend._device_timestamp_sync_drift_check (now_ts y 0) (NtpSyncIn.timestamp ntp_sync_in))
    eqn:Hok; unfold now_ts in Hok; cbn in Hok.
  all: unfold Backend._ntp_sync_cb; run_eq.
Qed.

(** ** Exchanges started by the device *)

Lemma envelopes_app (l1 l2 : list event) : envelopes (l1 ++ l2) = envelopes l1 ++ envelopes l2.
Proof. unfold envelopes. rewrite published_app, fmap_app. reflexivity. Qed.

Lemma envelopes_if_registered (b : Backend.t) (l : listener) (args : list arg) :
  envelopes (if_registered b l args) = [].
Proof. unfold envelopes. rewrite published_if_registered. reflexivity. Qed.

Lemma envelopes_if (c : bool) (l1 l2 : list event) :
  envelopes (if c then l1 else l2) = if c then envelopes l1 else envelopes l2.
Proof. destruct c; reflexivity. Qed.

Lemma envelopes_cons (e : event) (l : list event) :
  envelopes (e :: l)
  = match e with
    | Publish topic payload => [envelope_of (topic, payload)]
    | _ => []
    end ++ envelopes l.
Proof. destruct e; reflexivity. Qed.

Ltac envelopes_tac :=
  repeat first
    [ rewrite envelopes_app
    | rewrite envelopes_if
    | rewrite envelopes_cons
    | rewrite if_same
    | rewrite app_nil_r
    | progress cbn ].

(** X8: an attribute push, a feeding plan request, a grain output event and
    a device start event reporting success are each answered with exactly one
    envelope carrying the command tag and the correlation id of the message,
    attribute pushes and device starts on the event topic, the other two on
    the service topic.  The only other envelope that can follow is an NTP
    sync with a fresh id, sent exactly when the device clock is 10 seconds
    or more off. *)
Theorem X8_device_events_answered_once (y : Sys) (b : Backend.t) :
  let topics := Client.message_topics (Backend.client b) in
  let answered (x : run Backend.t unit) (topic cmd : string) (message_id : MessageId.t)
        (timestamp : Timestamp.t) :=
    outcome x = Ok tt
    /\ envelopes (events x)
       = (topic, Some (JStr cmd), Some (MessageId.data message_id))
         :: if Backend._device_timestamp_sync_drift_check (now_ts y 1) timestamp
            then []
            else [(MessageTopics.ntp_sub_get topics, Some (JStr "NTP_SYNC"), Some (fresh_id y 0))] in
  (forall m : AttrPushEventIn.t,
      answered (Backend._attr_push_event_cb m y b) (MessageTopics.event_sub_get topics)
        "ATTR_PUSH_EVENT" (AttrPushEventIn.message_id m) (AttrPushEventIn.timestamp m))
  /\ (forall m : GetFeedingPlanEventIn.t,
        answered (Backend._get_feeding_plan_event_cb m y b) (MessageTopics.service_sub_get topics)
          "GET_FEEDING_PLAN_EVENT" (GetFeedingPlanEventIn.message_id m)
          (GetFeedingPlanEventIn.timestamp m))
  /\ (forall m : GrainOutputEventIn.t,
        answered (Backend._grain_output_event_cb m y b) (MessageTopics.service_sub_get topics)
          "GRAIN_OUTPUT_EVENT" (GrainOutputEventIn.message_id m) (GrainOutputEventIn.timestamp m))
  /\ (forall m : DeviceStartEventIn.t,
        py_eq_True (DeviceStartEventIn.success m) = true ->
        answered (Backend._device_start_event_cb m y b) (MessageTopics.event_sub_get topics)
          "DEVICE_START_EVENT" (DeviceStartEventIn.message_id m) (DeviceStartEventIn.timestamp m)).
Proof.
  intros topics answered. subst answered topics. cbv beta.
  split; [| split; [| split]].
  - intros m.
    eassert (Hrun : Backend._attr_push_event_cb m y b = _);
      [ unfold Backend._attr_push_event_cb; run_tac | rewrite Hrun; clear Hrun ].
    split; [reflexivity |].
    cbn [events]. envelopes_tac. rewrite ?audio_cached_client.
    repeat rewrite envelopes_if_registered. reflexivity.
  - intros m.
    eassert (Hrun : Backend._get_feeding_plan_event_cb m y b = _);
      [ unfold Backend._get_feeding_plan_event_cb; run_tac | rewrite Hrun; clear Hrun ].
    split; [reflexivity |].
    cbn [events]. envelopes_tac. reflexivity.
  - intros m.
    destruct (GrainOutputEventIn.exec_step m) eqn:Hstep.
    all: eassert (Hrun : Backend._grain_output_event_cb m y b = _);
      [ unfold Backend._grain_output_event_cb; run_tac | rewrite Hrun; clear Hrun ].
    all: split; [reflexivity |].
    all: cbn [events]; envelopes_tac; reflexivity.
  - intros m Hok.
    eassert (Hrun : Backend._device_start_event_cb m y b = _);
      [ unfold Backend._device_start_event_cb; run_tac | rewrite Hrun; clear Hrun ].
    split; [reflexivity |].
    cbn [events]. envelopes_tac. reflexivity.
Qed.

(** ** Feeding plans kept for the device *)

Lemma plan_ids_feeding_plan_service (message_id : MessageId.t) (timestamp sync_time : Timestamp.t)
    (food_plans : list FoodPlan.t) :
  plan_ids
    (FeedingPlanServiceOut.to_mqtt_payload
       (FeedingPlanServiceOut.mk message_id timestamp
          ((fun food_plan =>
              FeedingPlanOut.mk (FoodPlan.id_ food_plan) (FoodPlan.execution_time food_plan)
                (FoodPlan.scheduled_days food_plan) (FoodPlan.enable_audio food_plan)
                (FoodPlan.play_audio_times food_plan) (FoodPlan.grain_num food_plan)
                sync_time JNull) <$> food_plans)))
  = (fun food_plan => JInt (FoodPlan.id_ food_plan)) <$> food_plans.
Proof.
  unfold plan_ids, FeedingPlanServiceOut.to_mqtt_payload.
  replace (_ !! "plans") with
    (Some (JList (FeedingPlanServiceOut.plan_to_dict <$>
                    ((fun food_plan =>
                        FeedingPlanOut.mk (FoodPlan.id_ food_plan) (FoodPlan.execution_time food_plan)
                          (FoodPlan.scheduled_days food_plan) (FoodPlan.enable_audio food_plan)
                          (FoodPlan.play_audio_times food_plan) (FoodPlan.grain_num food_plan)
                          sync_time JNull) <$> food_plans)))) by reflexivity.
  induction food_plans as [| p ps IH]; [reflexivity |].
  cbn [fmap list_fmap omap list_omap] in *. rewrite IH. reflexivity.
Qed.

Lemma plan_ids_get_feeding_plan_event (message_id : MessageId.t) (timestamp sync_time : Timestamp.t)
    (code : Code.t) (food_plans : list FoodPlan.t) :
  plan_ids
    (GetFeedingPlanEventOut.to_mqtt_payload
       (GetFeedingPlanEventOut.mk message_id timestamp code
          ((fun food_plan =>
              GetFeedingPlanOut.mk (FoodPlan.id_ food_plan) (FoodPlan.execution_time food_plan)
                (FoodPlan.scheduled_days food_plan) (FoodPlan.enable_audio food_plan)
                (FoodPlan.play_audio_times food_plan) (FoodPlan.grain_num food_plan)
                sync_time JNull) <$> food_plans)))
  = (fun food_plan => JInt (FoodPlan.id_ food_plan)) <$> food_plans.
Proof.
  unfold plan_ids, GetFeedingPlanEventOut.to_mqtt_payload.
  replace (_ !! "plans") with
    (Some (JList (GetFeedingPlanEventOut.plan_to_dict <$>
                    ((fun food_plan =>
                        GetFeedingPlanOut.mk (FoodPlan.id_ food_plan) (FoodPlan.execution_time food_plan)
                          (FoodPlan.scheduled_days food_plan) (FoodPlan.enable_audio food_plan)
                          (FoodPlan.play_audio_times food_plan) (FoodPlan.grain_num food_plan)
                          sync_time JNull) <$> food_plans)))) by reflexivity.
  induction food_plans as [| p ps IH]; [reflexivity |].
  cbn [fmap list_fmap omap list_omap] in *. rewrite IH. reflexivity.
Qed.


(** ** Envelopes the backend does not handle *)



(** ** The watchdog *)

Lemma live_timers_app (tr1 tr2 : list event) (live : list nat) :
  live_timers (tr1 ++ tr2) live = live_timers tr2 (live_timers tr1 live).
Proof. apply foldl_app. Qed.

Lemma watchdog_do_run (op : watchdog_op) (y : Sys) (w : Watchdog.t) :
  let x := watchdog_do op y w in
  outcome x = Ok tt
  /\ live_timers (events x) (option_list (Watchdog.handle w))
     = option_list (Watchdog.handle (self_of x)).
Proof.
  destruct op; cbn [watchdog_do].
  - eassert (Hrun : Watchdog.reset y w = _);
      [ unfold Watchdog.reset; run_tac | rewrite Hrun; clear Hrun ].
    split; [reflexivity |]. cbn.
    destruct (Watchdog.handle w) as [h |]; cbn; [| reflexivity].
    rewrite decide_False by (intros Hne; apply Hne; reflexivity). reflexivity.
  - eassert (Hrun : Watchdog.cancel y w = _);
      [ unfold Watchdog.cancel; run_tac | rewrite Hrun; clear Hrun ].
    split; [reflexivity |]. cbn.
    destruct (Watchdog.handle w) as [h |]; cbn; [| reflexivity].
    rewrite decide_False by (intros Hne; apply Hne; reflexivity). reflexivity.
Qed.

(** X11: however a watchdog is reset and cancelled, AppDaemon holds at most
    one timer for it, the one whose handle the watchdog keeps: a reset
    cancels the pending timer before it starts the next, a cancel leaves
    none. *)
Theorem X11_watchdog_one_timer (ops : list watchdog_op) (y : Sys) (w : Watchdog.t) :
  let x := for_each ops watchdog_do y w in
  outcome x = Ok tt
  /\ live_timers (events x) (option_list (Watchdog.handle w))
     = option_list (Watchdog.handle (self_of x)).
Proof.
  revert y w. induction ops as [| op ops IH]; intros y w; [split; reflexivity |].
  cbn [for_each]. unfold M_bind.
  destruct (watchdog_do_run op y w) as [Hok Hlive]. rewrite Hok.
  cbn [outcome self_of events].
  destruct (IH (sys_of (watchdog_do op y w)) (self_of (watchdog_do op y w))) as [Hok' Hlive'].
  split; [exact Hok' |].
  rewrite live_timers_app, Hlive. exact Hlive'.
Qed.

(** ** Stored feeding plans *)

Lemma Weekday_of_name_name (d : Weekday.t) : Weekday.of_name (JStr (Weekday.name d)) = Ok d.
Proof. destruct d; reflexivity. Qed.

Lemma from_list_loop_names (ds acc : list Weekday.t) :
  WeekdaySchedule.from_list_loop (JStr <$> (Weekday.name <$> ds)) acc = Ok (acc ++ ds).
Proof.
  revert acc. induction ds as [| d ds IH]; intros acc;
    cbn [fmap list_fmap WeekdaySchedule.from_list_loop].
  - rewrite app_nil_r. reflexivity.
  - rewrite Weekday_of_name_name. cbn [mbind result_mbind result_bind].
    rewrite IH, <- app_assoc. reflexivity.
Qed.

Lemma WeekdaySchedule_from_list_to_list (ws : WeekdaySchedule.t) :
  WeekdaySchedule.from_list (JStr <$> WeekdaySchedule.to_list ws) = Ok ws.
Proof.
  unfold WeekdaySchedule.from_list, WeekdaySchedule.to_list.
  rewrite from_list_loop_names. destruct ws. reflexivity.
Qed.

Ltac step :=
  eapply bind_ok; [ unfold lift_result; reflexivity | cbv beta ].

Lemma HourMinTimestamp_from_dict_to_dict {S : Type} (t : HourMinTimestamp.t) (y : Sys) (s : S) :
  0 <= hour (HourMinTimestamp.time t) <= 23 ->
  0 <= minute (HourMinTimestamp.time t) <= 59 ->
  HourMinTimestamp_from_dict (HourMinTimestamp.to_dict t) y s
  = Run (Ok (HourMinTimestamp.mk
               {| hour := hour (HourMinTimestamp.time t);
                  minute := minute (HourMinTimestamp.time t);
                  tzinfo_s := tz_at y (now_at y (clock_reads y)) |}))
      (Sys_tick_clock y) s [].
Proof.
  intros Hh Hm.
  eassert (Hrun : HourMinTimestamp_from_dict (HourMinTimestamp.to_dict t) y s = _).
  { unfold HourMinTimestamp_from_dict.
    do 4 step.
    unfold HourMinTimestamp_create_from_local_timezone, datetime_now_astimezone.
    eapply bind_ok.
    { eapply bind_ok; [reflexivity |]. cbv beta.
      eapply bind_ok; [reflexivity |]. cbv beta. reflexivity. }
    cbv beta. eapply bind_ok.
    { unfold lift_result, datetime_time_new.
      rewrite bool_decide_true by (split; assumption). reflexivity. }
    reflexivity. }
  rewrite Hrun. reflexivity.
Qed.

(** Read back, a plan has the fields it was stored with; its execution time
    is taken in the zone of the moment of reading. *)
Lemma FoodPlan_from_dict_to_dict {S : Type} (p : FoodPlan.t) (y : Sys) (s : S) :
  valid_time p ->
  FoodPlan.from_dict (FoodPlan.to_dict p) y s
  = Run (Ok (in_zone (tz_at y (now_at y (clock_reads y))) p)) (Sys_tick_clock y) s [].
Proof.
  intros [Hh Hm].
  eassert (Hrun : FoodPlan.from_dict (FoodPlan.to_dict p) y s = _).
  { unfold FoodPlan.from_dict.
    do 3 step.
    eapply bind_ok; [apply HourMinTimestamp_from_dict_to_dict; assumption | cbv beta].
    do 2 step.
    eapply bind_ok;
      [ unfold lift_result; rewrite WeekdaySchedule_from_list_to_list; reflexivity | cbv beta ].
    do 5 step.
    reflexivity. }
  rewrite Hrun. destruct p as [? ? ? []]; reflexivity.
Qed.

Lemma contents_insert_fresh (h : store) (r : ref) (p : FoodPlan.t) (rs : list ref) :
  h !! r = None ->
  well_formed h rs ->
  omap (fun r' => <[r := p]> h !! r') rs = omap (fun r' => h !! r') rs.
Proof.
  intros Hr. induction 1 as [| r' rs [q Hq] _ IH]; [reflexivity |].
  cbn. rewrite lookup_insert_ne by congruence. rewrite IH. reflexivity.
Qed.

Lemma from_dict_loop_to_dict {S : Type} (tz : Z) (ps : list FoodPlan.t) :
  forall (acc : list ref) (h : store) (y : Sys) (s : S),
    (forall i, tz_at y i = tz) ->
    Forall valid_time ps ->
    well_formed h acc ->
    exists rs h' y',
      FoodPlans.from_dict_loop (FoodPlan.to_dict <$> ps) acc h y s
      = Run (Ok (FoodPlans.mk (acc ++ rs), h')) y' s []
      /\ FoodPlans.contents (FoodPlans.mk (acc ++ rs)) h'
         = FoodPlans.contents (FoodPlans.mk acc) h ++ (in_zone tz <$> ps)
      /\ (forall r, is_Some (h !! r) -> h' !! r = h !! r).
Proof.
  induction ps as [| p ps IH]; intros acc h y s Htz Hvalid Hwf.
  - exists [], h, y. rewrite !app_nil_r. repeat split; reflexivity.
  - apply Forall_cons in Hvalid as [Hp Hps].
    set (r := fresh (dom h)).
    assert (Hr : h !! r = None) by (apply not_elem_of_dom, is_fresh).
    assert (Hwf' : well_formed (<[r := in_zone tz p]> h) (acc ++ [r])).
    { apply Forall_app. split.
      - eapply Forall_impl; [exact Hwf |]. intros r' [q Hq].
        exists q. rewrite lookup_insert_ne by congruence. exact Hq.
      - constructor; [| constructor]. exists (in_zone tz p). apply lookup_insert_eq. }
    destruct (IH (acc ++ [r]) (<[r := in_zone tz p]> h) (Sys_tick_clock y) s Htz Hps Hwf')
      as (rs & h' & y' & Hrun & Hcontents & Hkeep).
    exists (r :: rs), h', y'. split; [| split].
    + cbn [fmap list_fmap FoodPlans.from_dict_loop].
      replace (acc ++ r :: rs) with ((acc ++ [r]) ++ rs) by (rewrite <- app_assoc; reflexivity).
      etransitivity; [| reflexivity].
      eapply (bind_ok _ _ _ _ _ _ _ [] _ _ _ []).
      * apply FoodPlan_from_dict_to_dict. exact Hp.
      * cbv beta zeta. rewrite Htz. exact Hrun.
    + replace (acc ++ r :: rs) with ((acc ++ [r]) ++ rs) by (rewrite <- app_assoc; reflexivity).
      rewrite Hcontents. unfold FoodPlans.contents. cbn [FoodPlans.plans].
      rewrite omap_app, (contents_insert_fresh h r _ acc Hr Hwf). cbn.
      rewrite lookup_insert_eq. cbn. rewrite <- app_assoc. reflexivity.
    + intros r' Hsome. rewrite Hkeep.
      * apply lookup_insert_ne. intros <-. rewrite Hr in Hsome. destruct Hsome; discriminate.
      * rewrite lookup_insert_ne; [exact Hsome |].
        intros <-. rewrite Hr in Hsome. destruct Hsome; discriminate.
Qed.



(** ** Times of day on the wire *)

Lemma format_02_two_digits (n : Z) :
  0 <= n < 100 ->
  String.length (format_02 n) = 2%nat /\ int_of_str (format_02 n) = Some n.
Proof.
  intros Hn.
  assert (Hall : forallb
                   (fun k => let n := Z.of_nat k in
                             Nat.eqb (String.length (format_02 n)) 2
                             && bool_decide (int_of_str (format_02 n) = Some n))
                   (seq 0 100) = true) by (vm_compute; reflexivity).
  rewrite forallb_forall in Hall.
  specialize (Hall (Z.to_nat n)). rewrite Z2Nat.id in Hall by lia.
  cbv zeta in Hall.
  assert (Hin : In (Z.to_nat n) (seq 0 100)) by (apply in_seq; lia).
  apply Hall in Hin. apply andb_true_iff in Hin as [Hlen Hint].
  split; [apply Nat.eqb_eq, Hlen | apply bool_decide_eq_true in Hint; exact Hint].
Qed.



(** ** Attribute updates *)

Arguments AttrSetServiceOut.get : simpl never.
Arguments AttrSetServiceOut.to_mqtt_payload : simpl never.
Arguments json_dumps : simpl never.

Lemma encode_lines_cons (self : AttrSetServiceOut.t) (field key : string) (e : enc)
    (rest : list (string * string * enc)) (payload : odict) :
  AttrSetServiceOut.encode_lines self ((field, key, e) :: rest) payload
  = if negb (pyval_is_None (AttrSetServiceOut.get self field))
    then x ← encode e (AttrSetServiceOut.get self field);
         AttrSetServiceOut.encode_lines self rest (payload ++ [(key, x)])
    else AttrSetServiceOut.encode_lines self rest payload.
Proof. reflexivity. Qed.

(** Lines whose fields are [None] add nothing. *)
Lemma encode_lines_absent (self : AttrSetServiceOut.t) (ls : list (string * string * enc))
    (payload : odict) :
  forallb (fun l => pyval_is_None (AttrSetServiceOut.get self l.1.1)) ls = true ->
  AttrSetServiceOut.encode_lines self ls payload = Ok payload.
Proof.
  induction ls as [| [[field key] e] ls IH]; intros Hnone; [reflexivity |].
  cbn [forallb] in Hnone. apply andb_true_iff in Hnone as [Hfield Hrest].
  rewrite encode_lines_cons. cbn [fst] in Hfield. rewrite Hfield. exact (IH Hrest).
Qed.

Lemma audio_update_payload (message_id : MessageId.t) (timestamp : Timestamp.t)
    (enable : pyval) (url : json) :
  pyval_is_None enable = false ->
  py_is_None url = false ->
  AttrSetServiceOut.to_mqtt_payload
    (AttrSetServiceOut.mk message_id timestamp
       (list_to_map [("enable_audio", enable); ("audio_url", VJson url)]))
  = Ok [ ("cmd", VStr "ATTR_SET_SERVICE");
         ("msgId", VJson (MessageId.data message_id));
         ("ts", VInt (Timestamp.to_timestamp_epoch_ms timestamp));
         ("enableAudio", VInt (if pyval_eq_True enable then 1 else 0));
         ("audioUrl", VJson url) ].
Proof.
  intros Henable Hurl.
  unfold AttrSetServiceOut.to_mqtt_payload, AttrSetServiceOut.lines.
  rewrite encode_lines_cons.
  change (AttrSetServiceOut.get _ "enable_audio") with enable.
  rewrite Henable. cbn [negb encode mbind result_mbind result_bind].
  rewrite encode_lines_cons.
  change (AttrSetServiceOut.get _ "audio_url") with (VJson url).
  cbn [pyval_is_None]. rewrite Hurl. cbn [negb encode mbind result_mbind result_bind].
  rewrite encode_lines_absent by (vm_compute; reflexivity).
  reflexivity.
Qed.

Lemma create_run {S : Type} (kwargs : list (string * pyval)) (y : Sys) (s : S) :
  forallb (fun kv => bool_decide (kv.1 ∈ AttrSetServiceOut.fields)) kwargs = true ->
  AttrSetServiceOut.create kwargs y s
  = Run (Ok (AttrSetServiceOut.mk (MessageId.mk (fresh_id y 0)) (now_ts y 0) (list_to_map kwargs)))
      (Sys_tick_clock (Sys_tick_ids y)) s [].
Proof.
  intros Hnames. unfold AttrSetServiceOut.create.
  unfold M_bind, MessageId_generate, Timestamp_now, datetime_now_astimezone, get_sys, put_sys,
    mret, M_mret, M_ret.
  cbn [outcome sys_of self_of events]. rewrite Hnames. reflexivity.
Qed.

(** X14: the two audio settings always travel together.  [settings_audio]
    sends [enableAudio] and [audioUrl] in one ATTR_SET_SERVICE envelope,
    taking the one the caller leaves out from the values it keeps, and keeps
    the values it sent.  [enableAudio] is written as 1 or 0. *)
Theorem X14_audio_settings_sent_together
    (enable file_url : pyval) (url : json) (y : Sys) (b : Backend.t) :
  let enable' := if pyval_is_None enable then Backend.settings_audio_enabled b else enable in
  let url' := if pyval_is_None file_url then Backend.settings_audio_file_url b else file_url in
  pyval_is_None enable' = false ->
  url' = VJson url ->
  py_is_None url = false ->
  let x := Backend.settings_audio enable file_url y b in
  outcome x = Ok tt
  /\ Backend.settings_audio_enabled (self_of x) = enable'
  /\ Backend.settings_audio_file_url (self_of x) = url'
  /\ events x
     = [ Publish (MessageTopics.service_sub_get (Client.message_topics (Backend.client b)))
           {[ "cmd" := JStr "ATTR_SET_SERVICE";
              "msgId" := fresh_id y 0;
              "ts" := JInt (Timestamp.to_timestamp_epoch_ms (now_ts y 0));
              "enableAudio" := JInt (if pyval_eq_True enable' then 1 else 0);
              "audioUrl" := url ]} ].
Proof.
  intros enable' url' Henable Hurl Hsome x. subst x enable' url'.
  destruct (pyval_is_None enable) eqn:He, (pyval_is_None file_url) eqn:Hf;
    cbv beta iota in Henable, Hurl; cbv beta iota.
  all: eassert (Hrun : Backend.settings_audio enable file_url y b = _);
    [ unfold Backend.settings_audio;
      (eapply bind_ok; [reflexivity | cbv beta]);
      rewrite He, Hf; cbn [negb]; rewrite ?Hurl;
      (eapply bind_ok; [apply create_run; reflexivity | cbv beta]);
      (eapply bind_ok; [run_tac | cbv beta]);
      (eapply bind_ok; [run_tac | cbv beta]);
      unfold Backend.send; (eapply bind_ok; [reflexivity | cbv beta]);
      unfold Client.attr_set_service_send;
      (eapply bind_ok;
         [ unfold lift_result; rewrite audio_update_payload by assumption; reflexivity
         | cbv beta ]);
      (eapply bind_ok; [unfold lift_result; reflexivity | cbv beta]);
      reflexivity
    | rewrite Hrun; clear Hrun; cbn [outcome self_of events] ].
  all: cbn; rewrite ?Hurl; repeat split; reflexivity.
Qed.

(** X14 at a call that gives the file only: the switch is sent as kept. *)
Lemma X14_audio_settings_sent_together_witness :
  pyval_is_None (Backend.settings_audio_enabled (example_backend true 52)) = false
  /\ VStr "http://files/meal.mp3" = VJson (JStr "http://files/meal.mp3")
  /\ py_is_None (JStr "http://files/meal.mp3") = false
  /\ events (Backend.settings_audio VNone (VStr "http://files/meal.mp3")
               example_sys (example_backend true 52))
     = [ Publish "dl/PLAF203/SN0001/device/service/sub"
           {[ "cmd" := JStr "ATTR_SET_SERVICE";
              "msgId" := JStr "generated-0";
              "ts" := JInt 1700000000000;
              "enableAudio" := JInt 0;
              "audioUrl" := JStr "http://files/meal.mp3" ]} ].
Proof.
  split; [reflexivity |]. split; [reflexivity |]. split; [reflexivity |].
  exact (proj2 (proj2 (proj2 (X14_audio_settings_sent_together
                                VNone (VStr "http://files/meal.mp3") (JStr "http://files/meal.mp3")
                                example_sys (example_backend true 52) eq_refl eq_refl eq_refl)))).
Defined.

Lemma encode_lines_keys (self : AttrSetServiceOut.t) (ls : list (string * string * enc)) :
  forall payload payload' : odict,
    AttrSetServiceOut.encode_lines self ls payload = Ok payload' ->
    payload'.*1
    = payload.*1
      ++ ((fun l => l.1.2)
            <$> filter (fun l => pyval_is_None (AttrSetServiceOut.get self l.1.1) = false) ls).
Proof.
  induction ls as [| [[field key] e] ls IH]; intros payload payload' Henc.
  - cbn in Henc. injection Henc as <-. rewrite app_nil_r. reflexivity.
  - rewrite encode_lines_cons in Henc.
    destruct (pyval_is_None (AttrSetServiceOut.get self field)) eqn:Hfield; cbn [negb] in Henc.
    + rewrite filter_cons_False by (cbn; congruence). exact (IH _ _ Henc).
    + rewrite filter_cons_True by exact Hfield.
      destruct (encode e (AttrSetServiceOut.get self field)) as [x | err]; [| discriminate].
      cbn [mbind result_mbind result_bind] in Henc.
      rewrite (IH _ _ Henc), fmap_app, <- app_assoc. reflexivity.
Qed.

Lemma to_mqtt_payload_unfold (self : AttrSetServiceOut.t) :
  AttrSetServiceOut.to_mqtt_payload self
  = AttrSetServiceOut.encode_lines self AttrSetServiceOut.lines
      [ ("cmd", VStr Commands.ATTR_SET_SERVICE);
        ("msgId", VJson (MessageId.data (AttrSetServiceOut.message_id self)));
        ("ts", VInt (Timestamp.to_timestamp_epoch_ms (AttrSetServiceOut.timestamp self))) ].
Proof. unfold AttrSetServiceOut.to_mqtt_payload. reflexivity. Qed.


